(** * The ovrlog logging subsystem (Logging.cpp): a shallow embedding

    The development follows the C++ source class by class:
    [RepeatedMessageManager] (hashing, classification, polling),
    [OutputWorker] (bounded work queue, sink registry, flush, drain) and
    [Configurator] (channel registry and level propagation).

    Conventions of the embedding.
    - The [_WIN32] branches of the source are the ones embedded: they are the
      only ones in which the worker thread is ever created (the other
      branches are "To do" stubs).
    - Every method becomes a function from the object's state to its new
      state; what the method reads from the clock is an explicit argument
      (one sample of [GetCurrentLogTime] per call).
    - [std::unordered_map] / [std::unordered_set] are [gmap] / [gset] keyed by
      the 32-bit hash. The order in which such a container is traversed is
      not fixed by the language. Where it decides the outcome, in the pruning
      block of [Poll], the sequence of the traversal is an explicit argument
      of the model; the loop of [Poll] over the repeated-message map treats
      each entry on its own and is modelled in the order of [map_to_list].
    - A method with undefined behaviour returns an [option]: [None] stands
      for undefined behaviour, after which the object has no state.
    - [Logging_Library.h] is not part of the sources at hand: the tunable
      constants it declares are gathered in the record [Tunables] and left
      abstract. *)

From stdpp Require Import gmap strings list fin_maps sorting pretty.

Open Scope Z_scope.

(** ** Shared declarations *)

(** [ovrlog::Level]; [Level::Count] is 6 (see the [static_assert] in
    [AppendHeader]). *)
Inductive Level : Type :=
  | Disabled | Trace | Debug | Info | Warning | Error.

#[global] Instance Level_eq_dec : EqDecision Level.
Proof. solve_decision. Defined.

(** [ovrlog::WriteOption]. *)
Inductive WriteOption : Type :=
  | Default | DangerouslyIgnoreQueueLimit.

#[global] Instance WriteOption_eq_dec : EqDecision WriteOption.
Proof. solve_decision. Defined.

(** The constants of [Logging_Library.h] used by [Logging.cpp]. *)
Record Tunables : Type := {
  messagePrefixLength : nat;
  recentMessageCount : nat;
  maxDeferrableDetectionTimeMs : Z;
  maxDeferredMessages : Z;
  printedRepeatCount : Z;
  WorkQueueLimit : Z
}.

(** [LogTime] is [SYSTEMTIME]; only the fields read by the code are kept. *)
Record LogTime : Type := {
  wHour : Z;
  wMinute : Z;
  wSecond : Z;
  wMilliseconds : Z
}.

#[global] Instance LogTime_eq_dec : EqDecision LogTime.
Proof. solve_decision. Defined.

(** Unsigned 32-bit wrap-around ([PrefixHashType] is [uint32_t]). *)
Definition wrap32 (z : Z) : Z := z mod 2 ^ 32.

(** ** RepeatedMessageManager *)

Module RepeatedMessageManager.

(** [PrefixHashType] is [uint32_t]; both it and [LogTimeMs] are integers
    here, the hash with its wrap-around written out in [GetHash]. *)

Inductive HandleResult : Type :=
  | Passed | Aggregated.

#[global] Instance HandleResult_eq_dec : EqDecision HandleResult.
Proof. solve_decision. Defined.

(** Modelled from the spec: the struct [RecentMessage] of
    [Logging_Library.h] ({hash, firstSeenTime}; the hash is the map key). *)
Record RecentMessage : Type := { timeMs : Z }.

(** Modelled from the spec: the struct [RepeatedMessage] of
    [Logging_Library.h], with the fields the code of [HandleMessage] and
    [Poll] reads and writes; the constructor call in [HandleMessage] gives
    (subsystemName, messageLogLevel, stream, initialTimeMs, lastTimeMs,
    aggregatedCount) and leaves [printedCount] at zero. The two counters are
    [int]s printed with [%d]; they are unbounded integers here. *)
Record RepeatedMessage : Type := {
  subsystemName : string;
  messageLogLevel : Level;
  stream : string;
  initialTimeMs : Z;
  lastTimeMs : Z;
  aggregatedCount : Z;
  printedCount : Z
}.

#[global] Instance RepeatedMessage_eq_dec : EqDecision RepeatedMessage.
Proof. solve_decision. Defined.

Definition set_lastTimeMs (v : Z) (r : RepeatedMessage) : RepeatedMessage :=
  {| subsystemName := subsystemName r; messageLogLevel := messageLogLevel r;
     stream := stream r; initialTimeMs := initialTimeMs r; lastTimeMs := v;
     aggregatedCount := aggregatedCount r; printedCount := printedCount r |}.

Definition set_printedCount (v : Z) (r : RepeatedMessage) : RepeatedMessage :=
  {| subsystemName := subsystemName r; messageLogLevel := messageLogLevel r;
     stream := stream r; initialTimeMs := initialTimeMs r;
     lastTimeMs := lastTimeMs r; aggregatedCount := aggregatedCount r;
     printedCount := v |}.

Definition set_aggregatedCount (v : Z) (r : RepeatedMessage) : RepeatedMessage :=
  {| subsystemName := subsystemName r; messageLogLevel := messageLogLevel r;
     stream := stream r; initialTimeMs := initialTimeMs r;
     lastTimeMs := lastTimeMs r; aggregatedCount := v;
     printedCount := printedCount r |}.

Definition set_stream (v : string) (r : RepeatedMessage) : RepeatedMessage :=
  {| subsystemName := subsystemName r; messageLogLevel := messageLogLevel r;
     stream := v; initialTimeMs := initialTimeMs r;
     lastTimeMs := lastTimeMs r; aggregatedCount := aggregatedCount r;
     printedCount := printedCount r |}.

(** The data members of the class (the mutex is not modelled: every method
    body runs as one atomic step). *)
Record t : Type := {
  BusyInWrite : bool;
  RecentMessageMap : gmap Z RecentMessage;
  RepeatedMessageMap : gmap Z RepeatedMessage;
  RepeatedMessageExceptionSet : gset Z;
  RepeatedMessageSubsystemExceptionSet : gset Z
}.

Definition set_BusyInWrite (v : bool) (s : t) : t :=
  {| BusyInWrite := v; RecentMessageMap := RecentMessageMap s;
     RepeatedMessageMap := RepeatedMessageMap s;
     RepeatedMessageExceptionSet := RepeatedMessageExceptionSet s;
     RepeatedMessageSubsystemExceptionSet := RepeatedMessageSubsystemExceptionSet s |}.

Definition set_RecentMessageMap (v : gmap Z RecentMessage) (s : t) : t :=
  {| BusyInWrite := BusyInWrite s; RecentMessageMap := v;
     RepeatedMessageMap := RepeatedMessageMap s;
     RepeatedMessageExceptionSet := RepeatedMessageExceptionSet s;
     RepeatedMessageSubsystemExceptionSet := RepeatedMessageSubsystemExceptionSet s |}.

Definition set_RepeatedMessageMap (v : gmap Z RepeatedMessage) (s : t) : t :=
  {| BusyInWrite := BusyInWrite s; RecentMessageMap := RecentMessageMap s;
     RepeatedMessageMap := v;
     RepeatedMessageExceptionSet := RepeatedMessageExceptionSet s;
     RepeatedMessageSubsystemExceptionSet := RepeatedMessageSubsystemExceptionSet s |}.

Definition set_RepeatedMessageExceptionSet (v : gset Z) (s : t) : t :=
  {| BusyInWrite := BusyInWrite s; RecentMessageMap := RecentMessageMap s;
     RepeatedMessageMap := RepeatedMessageMap s;
     RepeatedMessageExceptionSet := v;
     RepeatedMessageSubsystemExceptionSet := RepeatedMessageSubsystemExceptionSet s |}.

Definition set_RepeatedMessageSubsystemExceptionSet (v : gset Z) (s : t) : t :=
  {| BusyInWrite := BusyInWrite s; RecentMessageMap := RecentMessageMap s;
     RepeatedMessageMap := RepeatedMessageMap s;
     RepeatedMessageExceptionSet := RepeatedMessageExceptionSet s;
     RepeatedMessageSubsystemExceptionSet := v |}.

(** The constructor: everything empty, [BusyInWrite(false)]. *)
Definition init : t :=
  {| BusyInWrite := false; RecentMessageMap := ∅; RepeatedMessageMap := ∅;
     RepeatedMessageExceptionSet := ∅;
     RepeatedMessageSubsystemExceptionSet := ∅ |}.

(** The two exception sets are [std::unordered_set]s of hashes. An iterator
    of one of them is modelled by the set it belongs to and the element it
    designates, [None] for the past-the-end iterator. *)
Inductive ExceptionSetName : Type := MessageExceptions | SubsystemExceptions.

#[global] Instance ExceptionSetName_eq_dec : EqDecision ExceptionSetName.
Proof. solve_decision. Defined.

Record Iterator : Type := {
  container : ExceptionSetName;
  designated : option Z
}.

(** [set.find(key)] and [set.end()] on the set called [name]. *)
Definition ExceptionSet_find (name : ExceptionSetName) (set : gset Z) (key : Z)
    : Iterator :=
  {| container := name;
     designated := if bool_decide (key ∈ set) then Some key else None |}.

Definition ExceptionSet_end (name : ExceptionSetName) : Iterator :=
  {| container := name; designated := None |}.

(** [it1 != it2]. The domain of the comparison is the iterators of one
    container; for iterators of two containers the language defines no
    result, which is [None] here. *)
Definition Iterator_ne (it1 it2 : Iterator) : option bool :=
  if bool_decide (container it1 = container it2)
  then Some (bool_decide (designated it1 ≠ designated it2))
  else None.

(** [set.erase(it)] on the set called [name]: [it] has to be an iterator of
    that set that designates an element; the behaviour is undefined
    otherwise, which is [None] here. *)
Definition ExceptionSet_erase (name : ExceptionSetName) (set : gset Z)
    (it : Iterator) : option (gset Z) :=
  match designated it with
  | Some key =>
      if bool_decide (container it = name) then Some (set ∖ {[key]}) else None
  | None => None
  end.

(** [LogTimeToMillisecondTime], [_WIN32] branch. For a [SYSTEMTIME] returned
    by [GetLocalTime] the value is below 86400000 and no intermediate
    overflows. *)
Definition LogTimeToMillisecondTime (logTime : LogTime) : Z :=
  wHour logTime * 3600000 + wMinute logTime * 60000
  + wSecond logTime * 1000 + wMilliseconds logTime.

(** [GetLogMillisecondTimeDifference], [_WIN32] branch. *)
Definition GetLogMillisecondTimeDifference (begin_ end_ : Z) : Z :=
  if bool_decide (begin_ ≤ end_) then end_ - begin_
  else 86400000 + (end_ - begin_).

(** One round of the loop of [GetHash]:
    [hash += (hash << 1) + (hash << 4) + (hash << 7) + (hash << 8) + (hash << 24)]
    then [hash ^= byte], where [byte] is the character read, in [uint32_t]
    arithmetic. *)
Definition GetHash_round (hash : Z) (c : Ascii.ascii) : Z :=
  let sum :=
    wrap32 (wrap32 (Z.shiftl hash 1) + wrap32 (Z.shiftl hash 4)
            + wrap32 (Z.shiftl hash 7) + wrap32 (Z.shiftl hash 8)
            + wrap32 (Z.shiftl hash 24)) in
  Z.lxor (wrap32 (hash + sum)) (Z.of_N (Ascii.N_of_ascii c)).

(** The loop runs while [*p] is not the terminator and [p < pEnd]; [budget]
    is [pEnd - p]. *)
Fixpoint GetHash_loop (budget : nat) (p : string) (hash : Z) : Z :=
  match budget, p with
  | S budget', String c p' =>
      if bool_decide (Ascii.N_of_ascii c = 0%N) then hash
      else GetHash_loop budget' p' (GetHash_round hash c)
  | _, _ => hash
  end.

Section WithTunables.

Variable K : Tunables.

Definition GetHash (p : string) : Z :=
  GetHash_loop (messagePrefixLength K) p 2166136261.

(** [HandleMessage]; [currentLogTimeMs] is the value that
    [GetCurrentLogMillisecondTime()] returns in this call. *)
Definition HandleMessage (subsystem : string) (level : Level)
    (text : string) (currentLogTimeMs : Z) (s : t) : HandleResult * t :=
  if BusyInWrite s then (Passed, s)
  else
    let prefixHash := GetHash text in
    if bool_decide (prefixHash ∈ RepeatedMessageExceptionSet s) then (Passed, s)
    else
      let subsystemNameHash := GetHash subsystem in
      if bool_decide (subsystemNameHash ∈ RepeatedMessageSubsystemExceptionSet s)
      then (Passed, s)
      else
        match RepeatedMessageMap s !! prefixHash with
        | Some repeatedMessage =>
            let logTimeDifferenceMs :=
              GetLogMillisecondTimeDifference
                (lastTimeMs repeatedMessage) currentLogTimeMs in
            if bool_decide (logTimeDifferenceMs < maxDeferrableDetectionTimeMs K)
            then
              let r1 := set_lastTimeMs currentLogTimeMs repeatedMessage in
              if bool_decide (printedCount r1 < printedRepeatCount K) then
                let r2 := set_printedCount (printedCount r1 + 1) r1 in
                (Passed,
                 set_RepeatedMessageMap
                   (<[prefixHash := r2]> (RepeatedMessageMap s)) s)
              else
                let r2 := set_aggregatedCount (aggregatedCount r1 + 1) r1 in
                let r3 :=
                  if bool_decide (maxDeferredMessages K ≤ aggregatedCount r2)
                  then set_stream text r2 else r2 in
                (Aggregated,
                 set_RepeatedMessageMap
                   (<[prefixHash := r3]> (RepeatedMessageMap s)) s)
            else (Passed, s)
        | None =>
            match RecentMessageMap s !! prefixHash with
            | Some _ =>
                (Passed,
                 set_RecentMessageMap (delete prefixHash (RecentMessageMap s))
                   (set_RepeatedMessageMap
                      (<[prefixHash :=
                           {| subsystemName := subsystem;
                              messageLogLevel := level;
                              stream := text;
                              initialTimeMs := currentLogTimeMs;
                              lastTimeMs := currentLogTimeMs;
                              aggregatedCount := 0;
                              printedCount := 0 |}]>
                         (RepeatedMessageMap s)) s))
            | None =>
                (Passed,
                 set_RecentMessageMap
                   (<[prefixHash := {| timeMs := currentLogTimeMs |}]>
                      (RecentMessageMap s)) s)
            end
        end.

(** The comparison handed to [std::sort] in [Poll]:
    [it2->second.timeMs < it1->second.timeMs], newest first. *)
Definition newest_first (it1 it2 : Z * RecentMessage) : Prop :=
  timeMs it2.2 < timeMs it1.2.

#[global] Instance newest_first_dec : RelDecision newest_first.
Proof. intros it1 it2. unfold newest_first. apply _. Defined.

(** The pruning block of [Poll]. [RecentMessageMap] is a
    [std::unordered_map]: the order in which a traversal from [begin()]
    visits its entries is not fixed by the language, it depends on the
    implementation and on the history of the container. The sequence
    [iteration] of the entries as this traversal visits them is therefore an
    input of the model; it lists every entry of the map once. [itArray]
    holds the first [recentMessageCount * 3] iterators of the traversal,
    [std::sort] orders them newest first, and the last loop erases every
    element of [itArray]. *)
Definition Poll_prune (iteration : list (Z * RecentMessage))
    (recent : gmap Z RecentMessage) : gmap Z RecentMessage :=
  if bool_decide (recentMessageCount K * 2 < size recent)%nat then
    let arrayCapacity := (recentMessageCount K * 3)%nat in
    let itArray := take arrayCapacity iteration in
    let sorted :=
      merge_sort newest_first itArray in
    foldl (λ m it, delete it.1 m) recent sorted
  else recent.

(** The body of the loop of [Poll] over [RepeatedMessageMap], for the entry
    [kv]; [acc] is the map being edited and [messagesToPrint]. *)
Definition Poll_visit (currentLogTimeMs : Z)
    (acc : gmap Z RepeatedMessage * list RepeatedMessage)
    (kv : Z * RepeatedMessage) : gmap Z RepeatedMessage * list RepeatedMessage :=
  let repeatedMessage := kv.2 in
  let logTimeDifferenceMs :=
    GetLogMillisecondTimeDifference (lastTimeMs repeatedMessage) currentLogTimeMs in
  if bool_decide (maxDeferrableDetectionTimeMs K < logTimeDifferenceMs) then
    (delete kv.1 acc.1,
     if bool_decide (aggregatedCount repeatedMessage ≠ 0)
     then acc.2 ++ [repeatedMessage] else acc.2)
  else if bool_decide (maxDeferredMessages K ≤ aggregatedCount repeatedMessage) then
    (<[kv.1 :=
         set_aggregatedCount 0
           (set_printedCount
              (printedCount repeatedMessage + aggregatedCount repeatedMessage)
              repeatedMessage)]> acc.1,
     acc.2 ++ [repeatedMessage])
  else acc.

(** The part of [Poll] that runs under the mutex: the new state and
    [messagesToPrint]. [iteration] is the sequence in which the pruning
    block finds the entries of [RecentMessageMap]. The loop over
    [RepeatedMessageMap] treats every entry on its own; the order in which
    it visits them, here that of [map_to_list], shows in the order of
    [messagesToPrint] only. *)
Definition Poll_locked (currentLogTimeMs : Z)
    (iteration : list (Z * RecentMessage)) (s : t)
    : t * list RepeatedMessage :=
  let s1 := set_RecentMessageMap (Poll_prune iteration (RecentMessageMap s)) s in
  let r :=
    foldl (Poll_visit currentLogTimeMs) (RepeatedMessageMap s1, [])
      (map_to_list (RepeatedMessageMap s1)) in
  (set_RepeatedMessageMap r.1 s1, r.2).

(** The text that [PrintDeferredAggregateMessage] hands to [Write]:
    [snprintf(prefixMessage, 64, "[Aggregated %d times] ", aggregatedCount)]
    inserted in front of [stream]. *)
Definition AggregatePrefix (n : Z) : string :=
  "[Aggregated " +:+ pretty n +:+ " times] ".

Definition AggregateText (repeatedMessage : RepeatedMessage) : string :=
  AggregatePrefix (aggregatedCount repeatedMessage) +:+ stream repeatedMessage.

Section WithWorker.

(** [Poll] and [PrintDeferredAggregateMessage] reach back into the
    [OutputWorker] that owns this manager: [Worker] is its state, [manager]
    and [set_manager] read and write the member
    [RepeatedMessageManagerInstance], and [Write] is [OutputWorker::Write]. *)
Context {Worker : Type}.
Variable manager : Worker → t.
Variable set_manager : t → Worker → Worker.
Variable Write : string → Level → string → bool → WriteOption → Worker → Worker.

Definition PrintDeferredAggregateMessage (repeatedMessage : RepeatedMessage)
    (w : Worker) : Worker :=
  let text := AggregateText repeatedMessage in
  let w1 := set_manager (set_BusyInWrite true (manager w)) w in
  let w2 :=
    Write (subsystemName repeatedMessage) (messageLogLevel repeatedMessage)
      text false DangerouslyIgnoreQueueLimit w1 in
  set_manager (set_BusyInWrite false (manager w2)) w2.

Definition Poll (currentLogTimeMs : Z) (iteration : list (Z * RecentMessage))
    (w : Worker) : Worker :=
  let r := Poll_locked currentLogTimeMs iteration (manager w) in
  foldl (λ w' repeatedMessage, PrintDeferredAggregateMessage repeatedMessage w')
    (set_manager r.1 w) r.2.

End WithWorker.

Definition AddRepeatedMessageException (messagePrefix : string) (s : t) : t :=
  set_RepeatedMessageExceptionSet
    ({[GetHash messagePrefix]} ∪ RepeatedMessageExceptionSet s) s.

Definition RemoveRepeatedMessageException (messagePrefix : string) (s : t) : t :=
  let prefixHash := GetHash messagePrefix in
  if bool_decide (prefixHash ∈ RepeatedMessageExceptionSet s) then
    set_RepeatedMessageExceptionSet
      (RepeatedMessageExceptionSet s ∖ {[prefixHash]}) s
  else s.

Definition AddRepeatedMessageSubsystemException (subsystem : string) (s : t) : t :=
  set_RepeatedMessageSubsystemExceptionSet
    ({[GetHash subsystem]} ∪ RepeatedMessageSubsystemExceptionSet s) s.

(** [RemoveRepeatedMessageSubsytemException] (the name is the source's). The
    iterator [it] comes from [RepeatedMessageSubsystemExceptionSet.find]; it
    is then compared with [RepeatedMessageExceptionSet.end()] and handed to
    [RepeatedMessageExceptionSet.erase], both of the other set. The result
    is [None] where the behaviour of the call is undefined. *)
Definition RemoveRepeatedMessageSubsytemException (subsystem : string) (s : t)
    : option t :=
  let subsystemNameHash := GetHash subsystem in
  let it :=
    ExceptionSet_find SubsystemExceptions (RepeatedMessageSubsystemExceptionSet s)
      subsystemNameHash in
  match Iterator_ne it (ExceptionSet_end MessageExceptions) with
  | Some true =>
      match ExceptionSet_erase MessageExceptions (RepeatedMessageExceptionSet s) it with
      | Some erased => Some (set_RepeatedMessageExceptionSet erased s)
      | None => None
      end
  | Some false => Some s
  | None => None
  end.

End WithTunables.

End RepeatedMessageManager.

(** ** OutputWorker *)

Module OutputWorker.

(** A [std::shared_ptr<OutputPlugin>] is identified by the address it holds;
    a null pointer is [None] at the call sites. *)
Definition PluginPtr : Type := Z.

(** A Win32 event handle. *)
Definition Handle : Type := Z.

(** [OutputWorker::QueuedLogMessage]; the [Next] link is the list structure
    of [WorkQueue]. *)
Record QueuedLogMessage : Type := {
  SubsystemName : string;
  MessageLogLevel : Level;
  Buffer : string;
  Time : LogTime;
  FlushEvent : option Handle
}.

#[global] Instance QueuedLogMessage_eq_dec : EqDecision QueuedLogMessage.
Proof. solve_decision. Defined.

(** The constructor of [QueuedLogMessage]: [FlushEvent(nullptr)]. *)
Definition mkQueuedLogMessage (subsystem : string) (level : Level)
    (text : string) (time : LogTime) : QueuedLogMessage :=
  {| SubsystemName := subsystem; MessageLogLevel := level; Buffer := text;
     Time := time; FlushEvent := None |}.

Definition set_FlushEvent (v : option Handle) (m : QueuedLogMessage) : QueuedLogMessage :=
  {| SubsystemName := SubsystemName m; MessageLogLevel := MessageLogLevel m;
     Buffer := Buffer m; Time := Time m; FlushEvent := v |}.

(** The data members read or written by the methods below. The member
    [Plugins] is declared in the missing header; the calls made on it
    ([insert], [erase] of a value, [clear], range-[for]) are those of a
    [std::set] of sink pointers, kept here as the list of its elements in
    iteration order (increasing addresses). [DebugStream] collects the lines
    given to [OutputDebugStringA], and [DebugBreaks] counts the executions of
    [LOGGING_DEBUG_BREAK()]. *)
Record t : Type := {
  IsInDebugger : bool;
  Plugins : list PluginPtr;
  WorkerWakeEvent : bool;
  WorkQueue : list QueuedLogMessage;
  WorkQueueSize : Z;
  WorkQueueOverrun : Z;
  LoggingThread : bool;
  RepeatedMessageManagerInstance : RepeatedMessageManager.t;
  DebugStream : list string;
  DebugBreaks : nat
}.

Definition set_Plugins (v : list PluginPtr) (w : t) : t :=
  {| IsInDebugger := IsInDebugger w; Plugins := v;
     WorkerWakeEvent := WorkerWakeEvent w; WorkQueue := WorkQueue w;
     WorkQueueSize := WorkQueueSize w; WorkQueueOverrun := WorkQueueOverrun w;
     LoggingThread := LoggingThread w;
     RepeatedMessageManagerInstance := RepeatedMessageManagerInstance w;
     DebugStream := DebugStream w; DebugBreaks := DebugBreaks w |}.

Definition set_WorkerWakeEvent (v : bool) (w : t) : t :=
  {| IsInDebugger := IsInDebugger w; Plugins := Plugins w;
     WorkerWakeEvent := v; WorkQueue := WorkQueue w;
     WorkQueueSize := WorkQueueSize w; WorkQueueOverrun := WorkQueueOverrun w;
     LoggingThread := LoggingThread w;
     RepeatedMessageManagerInstance := RepeatedMessageManagerInstance w;
     DebugStream := DebugStream w; DebugBreaks := DebugBreaks w |}.

Definition set_WorkQueue (q : list QueuedLogMessage) (size : Z) (w : t) : t :=
  {| IsInDebugger := IsInDebugger w; Plugins := Plugins w;
     WorkerWakeEvent := WorkerWakeEvent w; WorkQueue := q;
     WorkQueueSize := size; WorkQueueOverrun := WorkQueueOverrun w;
     LoggingThread := LoggingThread w;
     RepeatedMessageManagerInstance := RepeatedMessageManagerInstance w;
     DebugStream := DebugStream w; DebugBreaks := DebugBreaks w |}.

Definition set_WorkQueueOverrun (v : Z) (w : t) : t :=
  {| IsInDebugger := IsInDebugger w; Plugins := Plugins w;
     WorkerWakeEvent := WorkerWakeEvent w; WorkQueue := WorkQueue w;
     WorkQueueSize := WorkQueueSize w; WorkQueueOverrun := v;
     LoggingThread := LoggingThread w;
     RepeatedMessageManagerInstance := RepeatedMessageManagerInstance w;
     DebugStream := DebugStream w; DebugBreaks := DebugBreaks w |}.

Definition set_LoggingThread (v : bool) (w : t) : t :=
  {| IsInDebugger := IsInDebugger w; Plugins := Plugins w;
     WorkerWakeEvent := WorkerWakeEvent w; WorkQueue := WorkQueue w;
     WorkQueueSize := WorkQueueSize w; WorkQueueOverrun := WorkQueueOverrun w;
     LoggingThread := v;
     RepeatedMessageManagerInstance := RepeatedMessageManagerInstance w;
     DebugStream := DebugStream w; DebugBreaks := DebugBreaks w |}.

Definition set_RepeatedMessageManagerInstance (v : RepeatedMessageManager.t)
    (w : t) : t :=
  {| IsInDebugger := IsInDebugger w; Plugins := Plugins w;
     WorkerWakeEvent := WorkerWakeEvent w; WorkQueue := WorkQueue w;
     WorkQueueSize := WorkQueueSize w; WorkQueueOverrun := WorkQueueOverrun w;
     LoggingThread := LoggingThread w;
     RepeatedMessageManagerInstance := v;
     DebugStream := DebugStream w; DebugBreaks := DebugBreaks w |}.

Definition set_DebugStream (v : list string) (w : t) : t :=
  {| IsInDebugger := IsInDebugger w; Plugins := Plugins w;
     WorkerWakeEvent := WorkerWakeEvent w; WorkQueue := WorkQueue w;
     WorkQueueSize := WorkQueueSize w; WorkQueueOverrun := WorkQueueOverrun w;
     LoggingThread := LoggingThread w;
     RepeatedMessageManagerInstance := RepeatedMessageManagerInstance w;
     DebugStream := v; DebugBreaks := DebugBreaks w |}.

(** The members as the constructor initialises them, before it installs the
    default sinks and calls [Start]. *)
Definition init (isInDebugger : bool) : t :=
  {| IsInDebugger := isInDebugger; Plugins := []; WorkerWakeEvent := false;
     WorkQueue := []; WorkQueueSize := 0; WorkQueueOverrun := 0;
     LoggingThread := false;
     RepeatedMessageManagerInstance := RepeatedMessageManager.init;
     DebugStream := []; DebugBreaks := 0 |}.

(** Modelled from the spec: the macro [LOGGING_DEBUG_BREAK] of the missing
    header; a precondition violation is reported and execution goes on. *)
Definition LOGGING_DEBUG_BREAK (w : t) : t :=
  {| IsInDebugger := IsInDebugger w; Plugins := Plugins w;
     WorkerWakeEvent := WorkerWakeEvent w; WorkQueue := WorkQueue w;
     WorkQueueSize := WorkQueueSize w; WorkQueueOverrun := WorkQueueOverrun w;
     LoggingThread := LoggingThread w;
     RepeatedMessageManagerInstance := RepeatedMessageManagerInstance w;
     DebugStream := DebugStream w; DebugBreaks := S (DebugBreaks w) |}.

(** Modelled from the spec: the inline member [WorkQueueAdd] of the missing
    header; the record is appended at the tail and the size counter is
    incremented. *)
Definition WorkQueueAdd (m : QueuedLogMessage) (w : t) : t :=
  set_WorkQueue (WorkQueue w ++ [m]) (WorkQueueSize w + 1) w.

(** [std::set::insert] on the list of elements in increasing order: an
    element that is already present is not inserted again. *)
Fixpoint set_insert (p : PluginPtr) (l : list PluginPtr) : list PluginPtr :=
  match l with
  | [] => [p]
  | q :: l' =>
      if bool_decide (p < q) then p :: q :: l'
      else if bool_decide (p = q) then q :: l'
      else q :: set_insert p l'
  end.

(** [std::set::erase(value)]. *)
Definition set_erase (p : PluginPtr) (l : list PluginPtr) : list PluginPtr :=
  filter (λ q, q ≠ p) l.

(** [WriteAdvanceStrCpy]: the buffer is the text written so far and the
    bytes left. *)
Definition WriteAdvanceStrCpy (buf : string * Z) (str : string) : string * Z :=
  let slen := Z.of_nat (String.length str) in
  if bool_decide (buf.2 < slen + 1) then buf
  else (buf.1 +:+ str, buf.2 - slen).

Definition AppendHeader (bufferBytes : Z) (level : Level) (subsystem : string)
    : string :=
  let initial :=
    match level with
    | Disabled => " {DISABLED}["
    | Trace => " {TRACE}   ["
    | Debug => " {DEBUG}   ["
    | Info => " {INFO}    ["
    | Warning => " {WARNING} ["
    | Error => " {!ERROR!} ["
    end in
  (WriteAdvanceStrCpy
     (WriteAdvanceStrCpy (WriteAdvanceStrCpy ("", bufferBytes) initial) subsystem)
     "] ").1.

Definition TempBufferBytes : Z := 1024.

(** What the dispatch loop does that is visible from outside. *)
Inductive DispatchEvent : Type :=
  | SetEvent (flushEvent : Handle)
  | PluginWrite (plugin : PluginPtr) (level : Level) (subsystem : string)
      (header : string) (body : string).

(** What [Flush] does to its caller. *)
Inductive FlushOutcome : Type :=
  | FlushReturned
  | FlushWaitsFor (flushEvent : Handle).

Section WithEnvironment.

Variable K : Tunables.

(** [OutputPlugin::GetUniquePluginName], a virtual member of the sink. *)
Variable GetUniquePluginName : PluginPtr → string.

(** The file-static [GetTimestamp]: the text written to the buffer (empty on
    failure); it goes through the locale functions of Windows. *)
Variable GetTimestamp : LogTime → string.

Definition RemovePlugin (pluginToRemove : option PluginPtr) (w : t) : t :=
  match pluginToRemove with
  | None => w
  | Some p =>
      let nameOfPluginToRemove := GetUniquePluginName p in
      match
        list_find (λ q, GetUniquePluginName q = nameOfPluginToRemove) (Plugins w)
      with
      | Some (_, existingPlugin) =>
          set_Plugins (set_erase existingPlugin (Plugins w)) w
      | None => w
      end
  end.

Definition AddPlugin (plugin : option PluginPtr) (w : t) : t :=
  match plugin with
  | None => w
  | Some p =>
      let w1 := RemovePlugin plugin w in
      set_Plugins (set_insert p (Plugins w1)) w1
  end.

Definition GetPlugin (pluginName : string) (w : t) : option PluginPtr :=
  snd <$> list_find (λ q, GetUniquePluginName q = pluginName) (Plugins w).

Definition DisableAllPlugins (w : t) : t := set_Plugins [] w.

Definition AddRepeatedMessageSubsystemException (subsystem : string) (w : t) : t :=
  set_RepeatedMessageManagerInstance
    (RepeatedMessageManager.AddRepeatedMessageSubsystemException K subsystem
       (RepeatedMessageManagerInstance w)) w.

(** [None] where the behaviour of the manager's call is undefined. *)
Definition RemoveRepeatedMessageSubsystemException (subsystem : string) (w : t)
    : option t :=
  match
    RepeatedMessageManager.RemoveRepeatedMessageSubsytemException K subsystem
      (RepeatedMessageManagerInstance w)
  with
  | Some manager => Some (set_RepeatedMessageManagerInstance manager w)
  | None => None
  end.

Definition FlushDbgViewLogImmediately (subsystem : string) (level : Level)
    (text : string) (now : LogTime) (w : t) : t :=
  let timestamp := GetTimestamp now in
  let timestampLength := Z.of_nat (String.length timestamp) in
  if bool_decide (timestampLength ≤ 0) then LOGGING_DEBUG_BREAK w
  else
    let header :=
      timestamp +:+ AppendHeader (TempBufferBytes - timestampLength) level subsystem in
    set_DebugStream (DebugStream w ++ [header +:+ text +:+ String (Ascii.ascii_of_nat 10) EmptyString]) w.

(** [Write]; [now] is what [GetCurrentLogTime] returns during the call. *)
Definition Write (subsystem : string) (level : Level) (text : string)
    (relogged : bool) (option : WriteOption) (now : LogTime) (w : t) : t :=
  let r :=
    RepeatedMessageManager.HandleMessage K subsystem level text
      (RepeatedMessageManager.LogTimeToMillisecondTime now)
      (RepeatedMessageManagerInstance w) in
  let w1 := set_RepeatedMessageManagerInstance r.2 w in
  match r.1 with
  | RepeatedMessageManager.Aggregated => w1
  | RepeatedMessageManager.Passed =>
      let dropped :=
        bool_decide (option ≠ DangerouslyIgnoreQueueLimit)
        && bool_decide (WorkQueueLimit K ≤ WorkQueueSize w1) in
      let w2 :=
        if dropped then set_WorkQueueOverrun (WorkQueueOverrun w1 + 1) w1
        else WorkQueueAdd (mkQueuedLogMessage subsystem level text now) w1 in
      let needToWakeWorkerThread :=
        negb dropped && bool_decide (WorkQueueSize w2 ≤ 1) in
      let w3 :=
        if negb dropped && needToWakeWorkerThread
        then set_WorkerWakeEvent true w2 else w2 in
      if negb relogged && IsInDebugger w3
      then FlushDbgViewLogImmediately subsystem level text now w3
      else w3
  end.

(** [Flush]; [flushEvent] is the handle that [CreateEventW] returns. *)
Definition Flush (flushEvent : Handle) (now : LogTime) (w : t) : t * FlushOutcome :=
  if negb (LoggingThread w) then (LOGGING_DEBUG_BREAK w, FlushReturned)
  else
    let queuedBuffer :=
      set_FlushEvent (Some flushEvent)
        (mkQueuedLogMessage "Logging" Info "" now) in
    (set_WorkerWakeEvent true (WorkQueueAdd queuedBuffer w),
     FlushWaitsFor flushEvent).

(** The call [RepeatedMessageManagerInstance.Poll(this)]; [iteration] is the
    sequence in which its pruning block finds the entries of the recent
    map. *)
Definition Poll (now : LogTime)
    (iteration : list (Z * RepeatedMessageManager.RecentMessage)) (w : t) : t :=
  RepeatedMessageManager.Poll K RepeatedMessageManagerInstance
    set_RepeatedMessageManagerInstance
    (λ subsystem level text relogged option,
       Write subsystem level text relogged option now)
    (RepeatedMessageManager.LogTimeToMillisecondTime now) iteration w.

(** The text of the record that reports lost messages. *)
Definition LostText (lostCount : Z) : string :=
  "Lost " +:+ pretty lostCount
  +:+ " log messages due to queue overrun; try to reduce the amount of logging".

(** The list that the dispatch loop of [ProcessQueuedMessages] walks: the
    detached queue, with the record about lost messages in front when
    [lostCount > 0]; nothing when the queue was empty. *)
Definition Batch (now : LogTime) (message : list QueuedLogMessage)
    (lostCount : Z) : list QueuedLogMessage :=
  match message with
  | [] => []
  | _ :: _ =>
      if bool_decide (0 < lostCount)
      then mkQueuedLogMessage "Logging" Error (LostText lostCount) now :: message
      else message
  end.

(** One round of the dispatch loop. *)
Definition Dispatch (plugins : list PluginPtr) (message : QueuedLogMessage)
    : list DispatchEvent :=
  match FlushEvent message with
  | Some flushEvent => [SetEvent flushEvent]
  | None =>
      let timestamp := GetTimestamp (Time message) in
      let timestampLength := Z.of_nat (String.length timestamp) in
      let HeaderBuffer :=
        timestamp
        +:+ AppendHeader (TempBufferBytes - timestampLength)
              (MessageLogLevel message) (SubsystemName message) in
      (λ plugin,
         PluginWrite plugin (MessageLogLevel message) (SubsystemName message)
           HeaderBuffer (Buffer message)) <$> plugins
  end.

(** [ProcessQueuedMessages]: the state afterwards, the batch, and what was
    dispatched. *)
Definition ProcessQueuedMessages (now : LogTime)
    (iteration : list (Z * RepeatedMessageManager.RecentMessage)) (w : t)
    : t * list QueuedLogMessage * list DispatchEvent :=
  let w1 := Poll now iteration w in
  let message := WorkQueue w1 in
  let lostCount := WorkQueueOverrun w1 in
  let w2 := set_WorkQueueOverrun 0 (set_WorkQueue [] 0 w1) in
  let batch := Batch now message lostCount in
  (w2, batch, batch ≫= Dispatch (Plugins w2)).

(** [Start]; [created] tells whether the terminator event and the thread
    could both be created. The call of
    [Configurator::RestoreAllChannelLogLevelsNoLock] acts on the configurator
    and leaves this object alone. *)
Definition Start (created : bool) (w : t) : t :=
  if LoggingThread w then w
  else if created then set_LoggingThread true w
  else LOGGING_DEBUG_BREAK w.

(** [Stop]: the thread is joined and its handle cleared, then the queue is
    drained once more. *)
Definition Stop (now : LogTime)
    (iteration : list (Z * RepeatedMessageManager.RecentMessage)) (w : t)
    : t * list QueuedLogMessage * list DispatchEvent :=
  let w1 := if LoggingThread w then set_LoggingThread false w else w in
  ProcessQueuedMessages now iteration w1.

End WithEnvironment.

End OutputWorker.

(** ** Channel registry and Configurator *)

Module Configurator.

(** [ChannelNode]: the registry entry of a [Channel]. In the source the node
    holds pointers to the channel's [MinimumOutputLevel] and
    [UserOverrodeMinimumOutputLevel]; the pointees are stored in the node
    here ([Level'] is the source's field [Level]). *)
Record ChannelNode : Type := {
  SubsystemName : string;
  Level' : Level;
  UserOverrodeMinimumOutputLevel : bool
}.

#[global] Instance ChannelNode_eq_dec : EqDecision ChannelNode.
Proof. solve_decision. Defined.

Definition set_Level (v : Level) (n : ChannelNode) : ChannelNode :=
  {| SubsystemName := SubsystemName n; Level' := v;
     UserOverrodeMinimumOutputLevel := UserOverrodeMinimumOutputLevel n |}.

(** Modelled from the spec: the interface [ConfiguratorPlugin] of the missing
    header. [RestoreChannelLevel] receives the level by reference, set to the
    global default by the caller, and may overwrite it. *)
Record ConfiguratorPlugin : Type := {
  RestoreChannelLevel : string → Level → Level
}.

(** The singleton's members, with the file-static registry
    [ChannelNodeHead] (head of the list first). *)
Record t : Type := {
  GlobalMinimumLogLevel : Level;
  Plugin : option ConfiguratorPlugin;
  ChannelNodeHead : list ChannelNode
}.

Definition set_ChannelNodeHead (v : list ChannelNode) (c : t) : t :=
  {| GlobalMinimumLogLevel := GlobalMinimumLogLevel c; Plugin := Plugin c;
     ChannelNodeHead := v |}.

(** The constructor: [GlobalMinimumLogLevel(Level::Debug)], no plugin. *)
Definition init : t :=
  {| GlobalMinimumLogLevel := Debug; Plugin := None; ChannelNodeHead := [] |}.

(** [Channel::SetMinimumOutputLevelNoSave] on the channel behind the node. *)
Definition SetMinimumOutputLevelNoSave (newLevel : Level) (n : ChannelNode)
    : ChannelNode :=
  {| SubsystemName := SubsystemName n; Level' := newLevel;
     UserOverrodeMinimumOutputLevel := true |}.

Definition SetGlobalMinimumLogLevel (level : Level) (c : t) : t :=
  {| GlobalMinimumLogLevel := level; Plugin := Plugin c;
     ChannelNodeHead := set_Level level <$> ChannelNodeHead c |}.

(** The level that both overloads of [RestoreChannelLogLevel] compute. *)
Definition restored_level (channelName : string) (c : t) : Level :=
  match Plugin c with
  | Some plugin => RestoreChannelLevel plugin channelName (GlobalMinimumLogLevel c)
  | None => GlobalMinimumLogLevel c
  end.

Definition SetChannelNoLock (channelName : string) (level : Level)
    (overrideUser : bool) (c : t) : t :=
  set_ChannelNodeHead
    ((λ channelNode,
        if bool_decide (SubsystemName channelNode = channelName)
           && (negb (UserOverrodeMinimumOutputLevel channelNode) || overrideUser)
        then set_Level level channelNode else channelNode)
       <$> ChannelNodeHead c) c.

Definition SetChannel (channelName : string) (level : Level) (c : t) : t :=
  SetChannelNoLock channelName level true c.

(** [RestoreChannelLogLevel(const char* channelName)]. *)
Definition RestoreChannelLogLevel (channelName : string) (c : t) : t :=
  SetChannelNoLock channelName (restored_level channelName c) false c.

(** [RestoreChannelLogLevel(ChannelNode* channelNode)]: the node as it is
    left by the call. *)
Definition RestoreChannelLogLevel_node (channelNode : ChannelNode) (c : t)
    : ChannelNode :=
  let level := restored_level (SubsystemName channelNode) c in
  if bool_decide (UserOverrodeMinimumOutputLevel channelNode = false)
  then set_Level level channelNode else channelNode.

Definition RestoreAllChannelLogLevelsNoLock (c : t) : t :=
  foldl (λ c' channelNode, RestoreChannelLogLevel (SubsystemName channelNode) c')
    c (ChannelNodeHead c).

Definition SetPlugin (plugin : option ConfiguratorPlugin) (c : t) : t :=
  RestoreAllChannelLogLevelsNoLock
    {| GlobalMinimumLogLevel := GlobalMinimumLogLevel c; Plugin := plugin;
       ChannelNodeHead := ChannelNodeHead c |}.

Definition GetChannels (c : t) : list (string * Level) :=
  (λ channelNode, (SubsystemName channelNode, Level' channelNode))
    <$> ChannelNodeHead c.

Definition ChannelRegisterNoLock (channelNode : ChannelNode) (c : t) : t :=
  set_ChannelNodeHead (channelNode :: ChannelNodeHead c) c.

(** [ChannelRegister]: link the node in, then restore its level. *)
Definition ChannelRegister (channelNode : ChannelNode) (c : t) : t :=
  let c1 := ChannelRegisterNoLock channelNode c in
  set_ChannelNodeHead
    (RestoreChannelLogLevel_node channelNode c1 :: ChannelNodeHead c) c1.

End Configurator.

(** * Vocabulary of the statements *)

(** No two registered sinks share a unique name. *)
Definition UniqueNames (GetUniquePluginName : OutputWorker.PluginPtr → string)
    (w : OutputWorker.t) : Prop :=
  NoDup (GetUniquePluginName <$> OutputWorker.Plugins w).

(** The registered sinks whose unique name is [name]. *)
Definition SinksNamed (GetUniquePluginName : OutputWorker.PluginPtr → string)
    (name : string) (w : OutputWorker.t) : list OutputWorker.PluginPtr :=
  filter (λ q, GetUniquePluginName q = name) (OutputWorker.Plugins w).

(** [AddPlugin] called once for each sink of [ps], in order. *)
Definition AddPlugins (GetUniquePluginName : OutputWorker.PluginPtr → string)
    (ps : list OutputWorker.PluginPtr) (w : OutputWorker.t) : OutputWorker.t :=
  foldl (λ w' p, OutputWorker.AddPlugin GetUniquePluginName (Some p) w') w ps.

(** The sentinel record that [Flush] builds. *)
Definition FlushSentinel (flushEvent : OutputWorker.Handle) (now : LogTime)
    : OutputWorker.QueuedLogMessage :=
  OutputWorker.set_FlushEvent (Some flushEvent)
    (OutputWorker.mkQueuedLogMessage "Logging" Info "" now).

(** One call of [HandleMessage]: its arguments and the clock value it reads. *)
Record Occurrence : Type := {
  occ_subsystem : string;
  occ_level : Level;
  occ_text : string;
  occ_time : Z
}.

(** [HandleMessage] called for each occurrence in turn: the classifications
    and the final state. *)
Fixpoint HandleMessages (K : Tunables) (occs : list Occurrence)
    (s : RepeatedMessageManager.t)
    : list RepeatedMessageManager.HandleResult * RepeatedMessageManager.t :=
  match occs with
  | [] => ([], s)
  | o :: occs' =>
      let r :=
        RepeatedMessageManager.HandleMessage K (occ_subsystem o) (occ_level o)
          (occ_text o) (occ_time o) s in
      let r' := HandleMessages K occs' r.2 in
      (r.1 :: r'.1, r'.2)
  end.

(** Each time of [times] is within the aggregation window of the one before
    it, the first one of [last]. *)
Fixpoint WithinWindow (K : Tunables) (last : Z)
    (times : list Z) : Prop :=
  match times with
  | [] => True
  | time :: times' =>
      RepeatedMessageManager.GetLogMillisecondTimeDifference last time
      < maxDeferrableDetectionTimeMs K
      ∧ WithinWindow K time times'
  end.

(** The clock value of the last call of [times], or [last] when there is
    none. *)
Definition LastTime (last : Z) (times : list Z) : Z :=
  foldl (λ _ time, time) last times.

(** The text of the last call of [occs], or [text] when there is none. *)
Definition LastText (text : string) (occs : list Occurrence) : string :=
  foldl (λ _ o, occ_text o) text occs.

(** The record that [PrintDeferredAggregateMessage] makes [Write] enqueue. *)
Definition SummaryRecord (now : LogTime)
    (repeatedMessage : RepeatedMessageManager.RepeatedMessage)
    : OutputWorker.QueuedLogMessage :=
  OutputWorker.mkQueuedLogMessage
    (RepeatedMessageManager.subsystemName repeatedMessage)
    (RepeatedMessageManager.messageLogLevel repeatedMessage)
    (RepeatedMessageManager.AggregateText repeatedMessage) now.

(** What [Poll] collects in [messagesToPrint] for one entry, and what it
    leaves in [RepeatedMessageMap] for it. *)
Definition Poll_emit (K : Tunables) (currentLogTimeMs : Z)
    (e : RepeatedMessageManager.RepeatedMessage)
    : option RepeatedMessageManager.RepeatedMessage :=
  if bool_decide
       (maxDeferrableDetectionTimeMs K
        < RepeatedMessageManager.GetLogMillisecondTimeDifference
            (RepeatedMessageManager.lastTimeMs e) currentLogTimeMs)
  then if bool_decide (RepeatedMessageManager.aggregatedCount e ≠ 0)
       then Some e else None
  else if bool_decide
            (maxDeferredMessages K ≤ RepeatedMessageManager.aggregatedCount e)
       then Some e else None.

Definition Poll_keep (K : Tunables) (currentLogTimeMs : Z)
    (e : RepeatedMessageManager.RepeatedMessage)
    : option RepeatedMessageManager.RepeatedMessage :=
  if bool_decide
       (maxDeferrableDetectionTimeMs K
        < RepeatedMessageManager.GetLogMillisecondTimeDifference
            (RepeatedMessageManager.lastTimeMs e) currentLogTimeMs)
  then None
  else if bool_decide
            (maxDeferredMessages K ≤ RepeatedMessageManager.aggregatedCount e)
       then Some
              (RepeatedMessageManager.set_aggregatedCount 0
                 (RepeatedMessageManager.set_printedCount
                    (RepeatedMessageManager.printedCount e
                     + RepeatedMessageManager.aggregatedCount e) e))
       else Some e.

(** [PrintDeferredAggregateMessage] as [Poll] runs it on the worker that
    owns the manager. *)
Definition PrintDeferred (K : Tunables) (GetTimestamp : LogTime → string)
    (now : LogTime) (repeatedMessage : RepeatedMessageManager.RepeatedMessage)
    (w : OutputWorker.t) : OutputWorker.t :=
  RepeatedMessageManager.PrintDeferredAggregateMessage
    OutputWorker.RepeatedMessageManagerInstance
    OutputWorker.set_RepeatedMessageManagerInstance
    (λ subsystem level text relogged option,
       OutputWorker.Write K GetTimestamp subsystem level text relogged option now)
    repeatedMessage w.

(** The messages that [Poll] collects for the entries other than the one of
    hash [h]. *)
Definition PollRest (K : Tunables) (now : LogTime)
    (iteration : list (Z * RepeatedMessageManager.RecentMessage)) (h : Z)
    (w : OutputWorker.t) : list RepeatedMessageManager.RepeatedMessage :=
  (RepeatedMessageManager.Poll_locked K
     (RepeatedMessageManager.LogTimeToMillisecondTime now) iteration
     (RepeatedMessageManager.set_RepeatedMessageMap
        (delete h
           (RepeatedMessageManager.RepeatedMessageMap
              (OutputWorker.RepeatedMessageManagerInstance w)))
        (OutputWorker.RepeatedMessageManagerInstance w))).2.

(** Everything the manager holds except the re-entrancy flag. *)
Definition ManagerData (s : RepeatedMessageManager.t)
    : gmap Z RepeatedMessageManager.RecentMessage
      * gmap Z RepeatedMessageManager.RepeatedMessage * gset Z * gset Z :=
  (RepeatedMessageManager.RecentMessageMap s,
   RepeatedMessageManager.RepeatedMessageMap s,
   RepeatedMessageManager.RepeatedMessageExceptionSet s,
   RepeatedMessageManager.RepeatedMessageSubsystemExceptionSet s).

(** The invariant of the two maps: no hash is a key of both. *)
Definition MapsDisjoint (s : RepeatedMessageManager.t) : Prop :=
  ∀ h, RepeatedMessageManager.RecentMessageMap s !! h = None
       ∨ RepeatedMessageManager.RepeatedMessageMap s !! h = None.

(** What a call on the worker can do to its manager: nothing but toggling the
    re-entrancy flag, one [HandleMessage], the locked part of one [Poll], or
    one of the four exception calls, the last of them where it returns. *)
Inductive ManagerStep (K : Tunables) (s : RepeatedMessageManager.t)
    : RepeatedMessageManager.t → Prop :=
  | ManagerStep_flag s' :
      ManagerData s' = ManagerData s → ManagerStep K s s'
  | ManagerStep_HandleMessage subsystem level text now :
      ManagerStep K s
        (RepeatedMessageManager.HandleMessage K subsystem level text now s).2
  | ManagerStep_Poll now iteration s' :
      ManagerData s'
      = ManagerData (RepeatedMessageManager.Poll_locked K now iteration s).1 →
      ManagerStep K s s'
  | ManagerStep_AddException messagePrefix :
      ManagerStep K s
        (RepeatedMessageManager.AddRepeatedMessageException K messagePrefix s)
  | ManagerStep_RemoveException messagePrefix :
      ManagerStep K s
        (RepeatedMessageManager.RemoveRepeatedMessageException K messagePrefix s)
  | ManagerStep_AddSubsystemException subsystem :
      ManagerStep K s
        (RepeatedMessageManager.AddRepeatedMessageSubsystemException K subsystem s)
  | ManagerStep_RemoveSubsystemException subsystem s' :
      RepeatedMessageManager.RemoveRepeatedMessageSubsytemException K subsystem s
      = Some s' →
      ManagerStep K s s'.

(** One call [Write(subsystem, level, text, relogged, WriteOption::Default)]
    and the time the clock shows during it. *)
Record WriteCall : Type := {
  wc_subsystem : string;
  wc_level : Level;
  wc_text : string;
  wc_relogged : bool;
  wc_now : LogTime
}.

(** The call of [HandleMessage] that a [Write] call makes. *)
Definition OccurrenceOf (c : WriteCall) : Occurrence :=
  {| occ_subsystem := wc_subsystem c; occ_level := wc_level c;
     occ_text := wc_text c;
     occ_time := RepeatedMessageManager.LogTimeToMillisecondTime (wc_now c) |}.

(** The record that a [Write] call enqueues. *)
Definition RecordOf (c : WriteCall) : OutputWorker.QueuedLogMessage :=
  OutputWorker.mkQueuedLogMessage (wc_subsystem c) (wc_level c) (wc_text c)
    (wc_now c).

(** The [Write] calls of [calls] made in order, each with the default
    option. *)
Definition WriteAll (K : Tunables) (GetTimestamp : LogTime → string)
    (calls : list WriteCall) (w : OutputWorker.t) : OutputWorker.t :=
  foldl
    (λ w' c,
       OutputWorker.Write K GetTimestamp (wc_subsystem c) (wc_level c)
         (wc_text c) (wc_relogged c) Default (wc_now c) w')
    w calls.

(** The record about lost messages that the drain puts in front of a batch. *)
Definition LostRecord (lostCount : Z) (now : LogTime)
    : OutputWorker.QueuedLogMessage :=
  OutputWorker.mkQueuedLogMessage "Logging" Error
    (OutputWorker.LostText lostCount) now.

(** The calls a client can make on the worker and on its manager. *)
Inductive Op : Type :=
  | OpWrite (subsystem : string) (level : Level) (text : string)
      (relogged : bool) (option : WriteOption) (now : LogTime)
  | OpProcessQueuedMessages (now : LogTime)
      (iteration : list (Z * RepeatedMessageManager.RecentMessage))
  | OpFlush (flushEvent : OutputWorker.Handle) (now : LogTime)
  | OpStart (created : bool)
  | OpStop (now : LogTime)
      (iteration : list (Z * RepeatedMessageManager.RecentMessage))
  | OpAddPlugin (plugin : option OutputWorker.PluginPtr)
  | OpRemovePlugin (plugin : option OutputWorker.PluginPtr)
  | OpDisableAllPlugins
  | OpAddRepeatedMessageException (messagePrefix : string)
  | OpRemoveRepeatedMessageException (messagePrefix : string)
  | OpAddRepeatedMessageSubsystemException (subsystem : string)
  | OpRemoveRepeatedMessageSubsystemException (subsystem : string).

Definition on_manager (f : RepeatedMessageManager.t → RepeatedMessageManager.t)
    (w : OutputWorker.t) : OutputWorker.t :=
  OutputWorker.set_RepeatedMessageManagerInstance
    (f (OutputWorker.RepeatedMessageManagerInstance w)) w.

(** One call on the worker: the state it leaves, or [None] where its
    behaviour is undefined. *)
Definition step (K : Tunables)
    (GetUniquePluginName : OutputWorker.PluginPtr → string)
    (GetTimestamp : LogTime → string) (op : Op) (w : OutputWorker.t)
    : option OutputWorker.t :=
  match op with
  | OpWrite subsystem level text relogged option now =>
      Some (OutputWorker.Write K GetTimestamp subsystem level text relogged option
              now w)
  | OpProcessQueuedMessages now iteration =>
      Some (OutputWorker.ProcessQueuedMessages K GetTimestamp now iteration w).1.1
  | OpFlush flushEvent now => Some (OutputWorker.Flush flushEvent now w).1
  | OpStart created => Some (OutputWorker.Start created w)
  | OpStop now iteration =>
      Some (OutputWorker.Stop K GetTimestamp now iteration w).1.1
  | OpAddPlugin plugin => Some (OutputWorker.AddPlugin GetUniquePluginName plugin w)
  | OpRemovePlugin plugin =>
      Some (OutputWorker.RemovePlugin GetUniquePluginName plugin w)
  | OpDisableAllPlugins => Some (OutputWorker.DisableAllPlugins w)
  | OpAddRepeatedMessageException messagePrefix =>
      Some (on_manager
              (RepeatedMessageManager.AddRepeatedMessageException K messagePrefix) w)
  | OpRemoveRepeatedMessageException messagePrefix =>
      Some (on_manager
              (RepeatedMessageManager.RemoveRepeatedMessageException K messagePrefix)
              w)
  | OpAddRepeatedMessageSubsystemException subsystem =>
      Some (OutputWorker.AddRepeatedMessageSubsystemException K subsystem w)
  | OpRemoveRepeatedMessageSubsystemException subsystem =>
      OutputWorker.RemoveRepeatedMessageSubsystemException K subsystem w
  end.

(** The state of the worker after the calls [ops], made in order: the state
    the last call leaves, or, when a call has undefined behaviour, the state
    in which the first such call is made; the calls behind it are not run. *)
Fixpoint run (K : Tunables)
    (GetUniquePluginName : OutputWorker.PluginPtr → string)
    (GetTimestamp : LogTime → string) (ops : list Op) (w : OutputWorker.t)
    : OutputWorker.t :=
  match ops with
  | [] => w
  | op :: ops' =>
      match step K GetUniquePluginName GetTimestamp op w with
      | Some w' => run K GetUniquePluginName GetTimestamp ops' w'
      | None => w
      end
  end.

(** [iteration] is a sequence in which a traversal can visit the entries of
    [recent]: it lists each of them once. *)
Definition IterationOf (iteration : list (Z * RepeatedMessageManager.RecentMessage))
    (recent : gmap Z RepeatedMessageManager.RecentMessage) : Prop :=
  iteration ≡ₚ map_to_list recent.

(** One of the sequences in which a traversal can find the recent entries of
    the manager of [w], for the concrete runs. *)
Definition SampleIteration (w : OutputWorker.t)
    : list (Z * RepeatedMessageManager.RecentMessage) :=
  map_to_list
    (RepeatedMessageManager.RecentMessageMap
       (OutputWorker.RepeatedMessageManagerInstance w)).

(** The entries of [RecentAt hashes], in the order of [hashes]. *)
Definition RecentSequence (hashes : list Z)
    : list (Z * RepeatedMessageManager.RecentMessage) :=
  (λ h, (h, {| RepeatedMessageManager.timeMs := h |})) <$> hashes.

(** A recent-message map with one entry per hash of [hashes], the entry of
    hash [h] first seen at time [h]. *)
Definition RecentAt (hashes : list Z) : gmap Z RepeatedMessageManager.RecentMessage :=
  list_to_map ((λ h, (h, {| RepeatedMessageManager.timeMs := h |})) <$> hashes).

(** Sample values for the tunables and the environment, used to run the
    model on concrete inputs. *)
Definition SampleTunables : Tunables :=
  {| messagePrefixLength := 16; recentMessageCount := 1;
     maxDeferrableDetectionTimeMs := 1000; maxDeferredMessages := 3;
     printedRepeatCount := 1; WorkQueueLimit := 2 |}.

Definition SampleNames (p : OutputWorker.PluginPtr) : string :=
  if bool_decide (p < 100) then "Console" else "DbgView".

Definition SampleTimestamp (time : LogTime) : string :=
  pretty (wHour time) +:+ ":" +:+ pretty (wMinute time) +:+ ":"
  +:+ pretty (wSecond time) +:+ "." +:+ pretty (wMilliseconds time).

(** A message of subsystem "Tracker" seen at [time]. *)
Definition SampleOccurrence (time : Z) : Occurrence :=
  {| occ_subsystem := "Tracker"; occ_level := Warning;
     occ_text := "sensor timeout"; occ_time := time |}.

Definition SampleHash : Z :=
  RepeatedMessageManager.GetHash SampleTunables "sensor timeout".

Definition SampleEntry (lastTime aggregated printed : Z)
    : RepeatedMessageManager.RepeatedMessage :=
  {| RepeatedMessageManager.subsystemName := "Tracker";
     RepeatedMessageManager.messageLogLevel := Warning;
     RepeatedMessageManager.stream := "sensor timeout";
     RepeatedMessageManager.initialTimeMs := 10;
     RepeatedMessageManager.lastTimeMs := lastTime;
     RepeatedMessageManager.aggregatedCount := aggregated;
     RepeatedMessageManager.printedCount := printed |}.

(** A manager whose only entry is the one of [SampleHash]; with the entry
    [SampleEntry 10 0 0] it is the manager after the occurrences at times 0
    and 10, the second of which promotes the hash. *)
Definition SampleManager (e : RepeatedMessageManager.RepeatedMessage)
    : RepeatedMessageManager.t :=
  {| RepeatedMessageManager.BusyInWrite := false;
     RepeatedMessageManager.RecentMessageMap := ∅;
     RepeatedMessageManager.RepeatedMessageMap := {[SampleHash := e]};
     RepeatedMessageManager.RepeatedMessageExceptionSet := ∅;
     RepeatedMessageManager.RepeatedMessageSubsystemExceptionSet := ∅ |}.


(** The local time [ms] milliseconds after midnight. *)
Definition at_ms (ms : Z) : LogTime :=
  {| wHour := ms / 3600000; wMinute := (ms / 60000) mod 60;
     wSecond := (ms / 1000) mod 60; wMilliseconds := ms mod 1000 |}.

(** A call of [Write] by subsystem "Tracker" at [ms] milliseconds after
    midnight. *)
Definition SampleCall (text : string) (ms : Z) : WriteCall :=
  {| wc_subsystem := "Tracker"; wc_level := Warning; wc_text := text;
     wc_relogged := false; wc_now := at_ms ms |}.

(** A worker outside a debugger whose dispatch thread runs, and the same
    worker with the manager [s]. *)
Definition SampleWorker : OutputWorker.t :=
  {| OutputWorker.IsInDebugger := false; OutputWorker.Plugins := [];
     OutputWorker.WorkerWakeEvent := false; OutputWorker.WorkQueue := [];
     OutputWorker.WorkQueueSize := 0; OutputWorker.WorkQueueOverrun := 0;
     OutputWorker.LoggingThread := true;
     OutputWorker.RepeatedMessageManagerInstance := RepeatedMessageManager.init;
     OutputWorker.DebugStream := []; OutputWorker.DebugBreaks := 0 |}.

Definition SampleWorkerWith (s : RepeatedMessageManager.t) : OutputWorker.t :=
  OutputWorker.set_RepeatedMessageManagerInstance s SampleWorker.

(** 32-bit FNV-1 over a list of bytes: multiply by the FNV prime, then xor
    the byte in. *)
Definition FNV1 (bytes : list Z) : Z :=
  foldl (λ hash byte, Z.lxor ((hash * 16777619) mod 2 ^ 32) byte) 2166136261 bytes.

(** The bytes that the loop of [GetHash] reads from the C string [p]: at most
    [n], and none from the terminator on. *)
Fixpoint CStringBytes (n : nat) (p : string) : list Z :=
  match n, p with
  | S n', String c p' =>
      if bool_decide (Ascii.N_of_ascii c = 0%N) then []
      else Z.of_N (Ascii.N_of_ascii c) :: CStringBytes n' p'
  | _, _ => []
  end.

(** A [SYSTEMTIME] as [GetLocalTime] fills it. *)
Definition ValidLogTime (time : LogTime) : Prop :=
  0 ≤ wHour time < 24 ∧ 0 ≤ wMinute time < 60 ∧ 0 ≤ wSecond time < 60
  ∧ 0 ≤ wMilliseconds time < 1000.

(** The level names between the braces of a header. *)
Definition LevelName (level : Level) : string :=
  match level with
  | Disabled => "DISABLED"
  | Trace => "TRACE"
  | Debug => "DEBUG"
  | Info => "INFO"
  | Warning => "WARNING"
  | Error => "!ERROR!"
  end.

(** [n] spaces. *)
Fixpoint Spaces (n : nat) : string :=
  match n with
  | O => ""
  | S n' => " " +:+ Spaces n'
  end.

(** The record about lost messages that a drain puts in front of its batch
    when the overrun counter is [lostCount]. *)
Definition LostPrefix (lostCount : Z) (now : LogTime)
    : list OutputWorker.QueuedLogMessage :=
  if bool_decide (0 < lostCount) then [LostRecord lostCount now] else [].

(** The summaries that the [Poll] of a drain at time [now] adds to the queue
    of [w]. *)
Definition PollSummaries (K : Tunables) (now : LogTime)
    (iteration : list (Z * RepeatedMessageManager.RecentMessage))
    (w : OutputWorker.t) : list OutputWorker.QueuedLogMessage :=
  SummaryRecord now
  <$> (RepeatedMessageManager.Poll_locked K
         (RepeatedMessageManager.LogTimeToMillisecondTime now) iteration
         (OutputWorker.RepeatedMessageManagerInstance w)).2.

(** The line that [FlushDbgViewLogImmediately] hands to
    [OutputDebugStringA]. *)
Definition DebugLine (GetTimestamp : LogTime → string) (subsystem : string)
    (level : Level) (text : string) (now : LogTime) : string :=
  (GetTimestamp now
   +:+ OutputWorker.AppendHeader
         (OutputWorker.TempBufferBytes
          - Z.of_nat (String.length (GetTimestamp now))) level subsystem)
  +:+ text +:+ String (Ascii.ascii_of_nat 10) EmptyString.

(** What the dispatch loop wrote to the sink [p]: level, subsystem and body
    of each [Write] call on it, in order. *)
Definition WrittenTo (p : OutputWorker.PluginPtr)
    (events : list OutputWorker.DispatchEvent) : list (Level * string * string) :=
  omap
    (λ event,
       match event with
       | OutputWorker.PluginWrite q level subsystem _ body =>
           if bool_decide (q = p) then Some (level, subsystem, body) else None
       | OutputWorker.SetEvent _ => None
       end) events.

(** Level, subsystem and body of the records of a batch that are no flush
    sentinels. *)
Definition RecordsOf (batch : list OutputWorker.QueuedLogMessage)
    : list (Level * string * string) :=
  omap
    (λ m,
       match OutputWorker.FlushEvent m with
       | Some _ => None
       | None =>
           Some (OutputWorker.MessageLogLevel m, OutputWorker.SubsystemName m,
                 OutputWorker.Buffer m)
       end) batch.

(** ** ErrorSilencer *)

Module ErrorSilencer.

(** The state is the thread-local [ThreadErrorSilencedOptions]; a method
    returns [None] when one of its [assert]s fails. [NDEBUG] tells whether
    the [assert]s are compiled out. *)
Definition GetSilenceOptions (ThreadErrorSilencedOptions : Z) : Z :=
  ThreadErrorSilencedOptions.

Definition Silence (NDEBUG : bool) (Options : Z) (ThreadErrorSilencedOptions : Z)
    : option Z :=
  if negb NDEBUG && bool_decide (GetSilenceOptions ThreadErrorSilencedOptions ≠ 0)
  then None else Some Options.

Definition Unsilence (NDEBUG : bool) (ThreadErrorSilencedOptions : Z) : option Z :=
  if negb NDEBUG && bool_decide (GetSilenceOptions ThreadErrorSilencedOptions = 0)
  then None else Some 0.

(** A scope that holds an [ErrorSilencer]: the constructor calls [Silence],
    [body] runs, the destructor calls [Unsilence]. *)
Definition Scope (NDEBUG : bool) (Options : Z) (body : Z → option Z)
    (ThreadErrorSilencedOptions : Z) : option Z :=
  match Silence NDEBUG Options ThreadErrorSilencedOptions with
  | Some silenced =>
      match body silenced with
      | Some options => Unsilence NDEBUG options
      | None => None
      end
  | None => None
  end.

End ErrorSilencer.

(** * Configurator *)

Section ConfiguratorFacts.

Import Configurator.

Lemma SetGlobalMinimumLogLevel_every_channel (level : Level) (c : t) :
  Forall (λ n, Level' n = level) (ChannelNodeHead (SetGlobalMinimumLogLevel level c)).
Proof.
  unfold SetGlobalMinimumLogLevel; simpl.
  induction (ChannelNodeHead c) as [|n l IH]; constructor; auto.
Qed.

Lemma RestoreChannelLogLevel_node_keeps_override (n : ChannelNode) (c : t) :
  UserOverrodeMinimumOutputLevel n = true →
  RestoreChannelLogLevel_node n c = n.
Proof. intros H. unfold RestoreChannelLogLevel_node. by rewrite H. Qed.

Lemma SetChannelNoLock_keeps_override (name : string) (level : Level) (c : t) :
  Forall (λ n, UserOverrodeMinimumOutputLevel n = true) (ChannelNodeHead c) →
  SetChannelNoLock name level false c = c.
Proof.
  destruct c as [g p l]; unfold SetChannelNoLock, set_ChannelNodeHead; simpl.
  intros H. f_equal. induction H as [|n l Hn _ IH]; simpl; [done|].
  rewrite Hn; simpl. rewrite andb_false_r. by f_equal.
Qed.

(** C2, the code at a failing input: a channel whose owner overrode the
    level to [Error] is set to [Trace] by [SetGlobalMinimumLogLevel Trace],
    although [RestoreChannelLogLevel] leaves the same channel alone. *)
Lemma SetGlobalMinimumLogLevel_clobbers_override :
  let n := SetMinimumOutputLevelNoSave Error
             {| SubsystemName := "Render"; Level' := Debug;
                UserOverrodeMinimumOutputLevel := false |} in
  let c := ChannelRegister n init in
  ChannelNodeHead c = [n]
  ∧ UserOverrodeMinimumOutputLevel n = true
  ∧ Level' n = Error
  ∧ ChannelNodeHead (SetGlobalMinimumLogLevel Trace c) = [set_Level Trace n]
  ∧ ChannelNodeHead (RestoreChannelLogLevel "Render" c) = [n].
Proof. repeat split. Qed.

End ConfiguratorFacts.

(** * OutputWorker: flush *)

Section FlushFacts.

Import OutputWorker.

(** C7. [Flush] on a worker whose thread handle is not valid executes the
    debug break (the report) and returns at once: the caller does not wait,
    no sentinel is enqueued, the wake event is not set, and the queue, its
    size counter and its overrun counter are as before. *)
Theorem Flush_while_stopped (flushEvent : Handle) (now : LogTime) (w : t) :
  LoggingThread w = false →
  (Flush flushEvent now w).2 = FlushReturned
  ∧ (Flush flushEvent now w).1 = LOGGING_DEBUG_BREAK w
  ∧ WorkQueue (Flush flushEvent now w).1 = WorkQueue w
  ∧ WorkQueueSize (Flush flushEvent now w).1 = WorkQueueSize w
  ∧ WorkQueueOverrun (Flush flushEvent now w).1 = WorkQueueOverrun w
  ∧ WorkerWakeEvent (Flush flushEvent now w).1 = WorkerWakeEvent w
  ∧ DebugBreaks (Flush flushEvent now w).1 = S (DebugBreaks w).
Proof. intros H. unfold Flush. rewrite H. simpl. repeat split. Qed.

(** C10. [Flush] on a running worker appends its sentinel at the tail of the
    work queue whatever the size counter and the limit are: the overrun
    counter is unchanged, the size counter grows by one, the wake event is
    set and the caller waits for the sentinel's event. *)
Theorem Flush_ignores_queue_limit (flushEvent : Handle) (now : LogTime) (w : t) :
  LoggingThread w = true →
  WorkQueue (Flush flushEvent now w).1 = WorkQueue w ++ [FlushSentinel flushEvent now]
  ∧ FlushEvent (FlushSentinel flushEvent now) = Some flushEvent
  ∧ WorkQueueSize (Flush flushEvent now w).1 = WorkQueueSize w + 1
  ∧ WorkQueueOverrun (Flush flushEvent now w).1 = WorkQueueOverrun w
  ∧ WorkerWakeEvent (Flush flushEvent now w).1 = true
  ∧ (Flush flushEvent now w).2 = FlushWaitsFor flushEvent.
Proof. intros H. unfold Flush. rewrite H. simpl. repeat split. Qed.

End FlushFacts.

(** * OutputWorker: the sink registry *)

Section PluginFacts.

Import OutputWorker.

Variable GetUniquePluginName : PluginPtr → string.

Lemma NoDup_names_inj (l : list PluginPtr) (p q : PluginPtr) :
  NoDup (GetUniquePluginName <$> l) → p ∈ l → q ∈ l →
  GetUniquePluginName p = GetUniquePluginName q → p = q.
Proof.
  induction l as [|x l IH]; simpl; intros Hnd Hp Hq Heq.
  - by apply elem_of_nil in Hp.
  - apply NoDup_cons in Hnd as [Hx Hnd].
    apply elem_of_cons in Hp as [->|Hp]; apply elem_of_cons in Hq as [->|Hq]; auto.
    + exfalso. apply Hx. rewrite Heq. by apply list_elem_of_fmap_2.
    + exfalso. apply Hx. rewrite <- Heq. by apply list_elem_of_fmap_2.
Qed.

Lemma filter_ext_In {A} (P Q : A → Prop) `{∀ x, Decision (P x)}
    `{∀ x, Decision (Q x)} (l : list A) :
  (∀ x, x ∈ l → P x ↔ Q x) → filter P l = filter Q l.
Proof.
  induction l as [|x l IH]; intros HPQ; [done|].
  rewrite !filter_cons. rewrite IH by (intros y Hy; apply HPQ; by right).
  pose proof (HPQ x (list_elem_of_here x l)) as Hx.
  destruct (decide (P x)) as [HP|HP], (decide (Q x)) as [HQ|HQ];
    try done; exfalso; tauto.
Qed.

Lemma filter_all {A} (P : A → Prop) `{∀ x, Decision (P x)} (l : list A) :
  Forall P l → filter P l = l.
Proof.
  induction 1 as [|x l Hx _ IH]; [done|].
  rewrite filter_cons_True by done. by f_equal.
Qed.

(** Under [UniqueNames], [RemovePlugin] removes every sink of that name. *)
Lemma RemovePlugin_Plugins (p : PluginPtr) (w : t) :
  UniqueNames GetUniquePluginName w →
  Plugins (RemovePlugin GetUniquePluginName (Some p) w)
  = filter (λ q : PluginPtr, GetUniquePluginName q ≠ (GetUniquePluginName p)) (Plugins w).
Proof.
  unfold UniqueNames, RemovePlugin. intros Hnd.
  destruct (list_find _ _) as [[i e]|] eqn:Hfind; simpl.
  - apply list_find_Some in Hfind as (Hi & He & _).
    apply list_elem_of_lookup_2 in Hi.
    unfold set_erase. apply filter_ext_In. intros q Hq. split.
    + intros Hne Hname. apply Hne.
      apply (NoDup_names_inj (Plugins w)); auto. congruence.
    + intros Hname ->. done.
  - apply list_find_None in Hfind. symmetry. by apply filter_all.
Qed.

Lemma set_insert_fresh (n : string) (p : PluginPtr) (l : list PluginPtr) :
  GetUniquePluginName p = n → Forall (λ q : PluginPtr, GetUniquePluginName q ≠ n) l →
  set_insert p l ≡ₚ p :: l
  ∧ filter (λ q : PluginPtr, GetUniquePluginName q ≠ n) (set_insert p l) = l
  ∧ filter (λ q : PluginPtr, GetUniquePluginName q = n) (set_insert p l) = [p].
Proof.
  intros Hp. induction 1 as [|q l Hq Hl IH]; simpl.
  - rewrite !filter_cons, !filter_nil.
    repeat case_decide; done.
  - destruct IH as (IH1 & IH2 & IH3).
    assert (filter (λ q : PluginPtr, GetUniquePluginName q ≠ n) l = l) as Hid by by apply filter_all.
    assert (filter (λ q : PluginPtr, GetUniquePluginName q = n) l = []) as Hno.
    { clear -Hl. induction Hl as [|x l Hx _ IH]; [done|].
      by rewrite filter_cons_False by (intros ?; done). }
    repeat case_bool_decide; subst.
    + rewrite !(filter_cons _ (p)), !(filter_cons _ q).
      repeat case_decide; try done. by rewrite Hid, Hno.
    + done.
    + rewrite !(filter_cons _ q). repeat case_decide; try done.
      split; [|split]; [|by f_equal|done].
      rewrite IH1. apply Permutation_swap.
Qed.

Lemma filter_name_isnt_Forall (n : string) (l : list PluginPtr) :
  Forall (λ q : PluginPtr, GetUniquePluginName q ≠ n) (filter (λ q : PluginPtr, GetUniquePluginName q ≠ n) l).
Proof. apply Forall_forall. intros q Hq. by apply list_elem_of_filter in Hq as [? _]. Qed.

Lemma AddPlugin_Plugins (p : PluginPtr) (w : t) :
  UniqueNames GetUniquePluginName w →
  Plugins (AddPlugin GetUniquePluginName (Some p) w)
  = set_insert p (filter (λ q : PluginPtr, GetUniquePluginName q ≠ (GetUniquePluginName p)) (Plugins w)).
Proof.
  intros Hu.
  change (Plugins (AddPlugin GetUniquePluginName (Some p) w))
    with (set_insert p (Plugins (RemovePlugin GetUniquePluginName (Some p) w))).
  by rewrite RemovePlugin_Plugins.
Qed.

Lemma AddPlugin_eq (p : PluginPtr) (w : t) :
  AddPlugin GetUniquePluginName (Some p) w
  = set_Plugins (Plugins (AddPlugin GetUniquePluginName (Some p) w)) w.
Proof.
  unfold AddPlugin, RemovePlugin. destruct (list_find _ _) as [[i e]|]; done.
Qed.

Lemma AddPlugin_UniqueNames (p : PluginPtr) (w : t) :
  UniqueNames GetUniquePluginName w →
  UniqueNames GetUniquePluginName (AddPlugin GetUniquePluginName (Some p) w).
Proof.
  intros Hu. unfold UniqueNames. rewrite AddPlugin_Plugins by done.
  pose proof (filter_name_isnt_Forall (GetUniquePluginName p) (Plugins w)) as Hf.
  destruct (set_insert_fresh _ p _ eq_refl Hf) as (Hperm & _ & _).
  rewrite Hperm. simpl. apply NoDup_cons. split.
  - intros Hin. apply list_elem_of_fmap in Hin as (q & Hq1 & Hq2).
    apply list_elem_of_filter in Hq2 as [Hq2 _]. by apply Hq2.
  - apply (sublist_NoDup _ (GetUniquePluginName <$> Plugins w));
      first [exact Hu | apply fmap_sublist, sublist_filter].
Qed.

Lemma RemovePlugin_UniqueNames (p : option PluginPtr) (w : t) :
  UniqueNames GetUniquePluginName w →
  UniqueNames GetUniquePluginName (RemovePlugin GetUniquePluginName p w).
Proof.
  intros Hu. destruct p as [p|]; [|done].
  unfold UniqueNames. rewrite RemovePlugin_Plugins by done.
  apply (sublist_NoDup _ (GetUniquePluginName <$> Plugins w));
    first [exact Hu | apply fmap_sublist, sublist_filter].
Qed.

(** Adding a sink replaces the sink of the same name: the second of two
    consecutive adds of one name undoes the first. *)
Lemma AddPlugin_AddPlugin (p q : PluginPtr) (w : t) :
  UniqueNames GetUniquePluginName w →
  GetUniquePluginName p = GetUniquePluginName q →
  AddPlugin GetUniquePluginName (Some q) (AddPlugin GetUniquePluginName (Some p) w)
  = AddPlugin GetUniquePluginName (Some q) w.
Proof.
  intros Hu Hpq.
  rewrite (AddPlugin_eq q (AddPlugin _ _ _)), (AddPlugin_eq q w).
  rewrite (AddPlugin_Plugins q) by by apply AddPlugin_UniqueNames.
  rewrite (AddPlugin_Plugins q w), (AddPlugin_Plugins p w) by done.
  rewrite (AddPlugin_eq p w). rewrite <- Hpq.
  pose proof (filter_name_isnt_Forall (GetUniquePluginName p) (Plugins w)) as Hf.
  destruct (set_insert_fresh _ p _ eq_refl Hf) as (_ & -> & _).
  done.
Qed.

Lemma AddPlugins_last (ps : list PluginPtr) (p : PluginPtr) (w : t) :
  UniqueNames GetUniquePluginName w →
  Forall (λ q : PluginPtr, GetUniquePluginName q = (GetUniquePluginName p)) ps →
  AddPlugins GetUniquePluginName (ps ++ [p]) w
  = AddPlugin GetUniquePluginName (Some p) w.
Proof.
  intros Hu Hall. revert w Hu.
  induction Hall as [|q ps Hq _ IH]; intros w Hu; [done|].
  simpl. unfold AddPlugins in *. simpl. rewrite IH by by apply AddPlugin_UniqueNames.
  by apply AddPlugin_AddPlugin.
Qed.

(** C8. From a registry in which no two sinks share a name, [N >= 1] calls of
    [AddPlugin] with sinks of one unique name ([ps], then [p]) leave exactly
    one sink of that name, the one added last, and the registry keeps
    distinct names; the whole sequence, and in particular [AddPlugin] after
    [AddPlugin], yields the state of the single call for the latest sink. *)
Theorem AddPlugin_idempotent_registration
    (ps : list PluginPtr) (p : PluginPtr) (w : t) :
  UniqueNames GetUniquePluginName w →
  Forall (λ q, GetUniquePluginName q = GetUniquePluginName p) ps →
  SinksNamed GetUniquePluginName (GetUniquePluginName p)
    (AddPlugins GetUniquePluginName (ps ++ [p]) w) = [p]
  ∧ UniqueNames GetUniquePluginName (AddPlugins GetUniquePluginName (ps ++ [p]) w)
  ∧ AddPlugins GetUniquePluginName (ps ++ [p]) w
    = AddPlugin GetUniquePluginName (Some p) w
  ∧ (∀ q, GetUniquePluginName q = GetUniquePluginName p →
       AddPlugin GetUniquePluginName (Some p)
         (AddPlugin GetUniquePluginName (Some q) w)
       = AddPlugin GetUniquePluginName (Some p) w).
Proof.
  intros Hu Hall. rewrite AddPlugins_last by done.
  split; [|split; [|split]].
  - unfold SinksNamed. rewrite AddPlugin_Plugins by done.
    pose proof (filter_name_isnt_Forall (GetUniquePluginName p) (Plugins w)) as Hf.
    by destruct (set_insert_fresh _ p _ eq_refl Hf) as (_ & _ & ->).
  - by apply AddPlugin_UniqueNames.
  - done.
  - intros q Hq. by apply AddPlugin_AddPlugin.
Qed.

End PluginFacts.

(** * RepeatedMessageManager: classification and polling *)

Section ManagerFacts.

Import RepeatedMessageManager.

Variable K : Tunables.

Lemma HandleMessage_busy subsystem level text now (s : t) :
  BusyInWrite s = true →
  HandleMessage K subsystem level text now s = (Passed, s).
Proof. intros H. unfold HandleMessage. by rewrite H. Qed.

Lemma HandleMessage_message_exception subsystem level text now (s : t) :
  GetHash K text ∈ RepeatedMessageExceptionSet s →
  HandleMessage K subsystem level text now s = (Passed, s).
Proof.
  intros H. unfold HandleMessage. destruct (BusyInWrite s); [done|].
  by rewrite bool_decide_eq_true_2.
Qed.

Lemma HandleMessage_subsystem_exception subsystem level text now (s : t) :
  GetHash K subsystem ∈ RepeatedMessageSubsystemExceptionSet s →
  (HandleMessage K subsystem level text now s).1 = Passed.
Proof.
  intros H. unfold HandleMessage. destruct (BusyInWrite s); [done|].
  case_bool_decide; [done|]. by rewrite (bool_decide_eq_true_2 _ H).
Qed.

(** X1, exception bypass. Once a message prefix or a subsystem name has been
    added to its exception set, every message with that prefix hash, and
    every message of that subsystem, is classified as passed, whatever the
    maps hold; for the message prefix the call leaves the manager as it
    is. *)
Theorem exception_bypass (s : t) (exempt subsystem text : string)
    (level : Level) (now : Z) :
  (GetHash K text = GetHash K exempt →
   HandleMessage K subsystem level text now
     (AddRepeatedMessageException K exempt s)
   = (Passed, AddRepeatedMessageException K exempt s))
  ∧ (HandleMessage K exempt level text now
       (AddRepeatedMessageSubsystemException K exempt s)).1 = Passed.
Proof.
  split.
  - intros Hh. apply HandleMessage_message_exception. rewrite Hh. simpl.
    apply elem_of_union_l. by apply elem_of_singleton.
  - apply HandleMessage_subsystem_exception. simpl.
    apply elem_of_union_l. by apply elem_of_singleton.
Qed.

(** [HandleMessage] reads the flag and the exception sets and writes none of
    them. *)
Lemma HandleMessage_frame subsystem level text now (s : t) :
  BusyInWrite (HandleMessage K subsystem level text now s).2 = BusyInWrite s
  ∧ RepeatedMessageExceptionSet (HandleMessage K subsystem level text now s).2
    = RepeatedMessageExceptionSet s
  ∧ RepeatedMessageSubsystemExceptionSet
      (HandleMessage K subsystem level text now s).2
    = RepeatedMessageSubsystemExceptionSet s.
Proof.
  unfold HandleMessage.
  repeat (case_match || case_bool_decide); simpl; auto.
Qed.


(** The promotion step: a hash of the recent map that is seen again moves to
    the repeated map. *)
Lemma HandleMessage_promotes subsystem level text now (s : t) (r : RecentMessage) :
  BusyInWrite s = false →
  GetHash K text ∉ RepeatedMessageExceptionSet s →
  GetHash K subsystem ∉ RepeatedMessageSubsystemExceptionSet s →
  RepeatedMessageMap s !! GetHash K text = None →
  RecentMessageMap s !! GetHash K text = Some r →
  (HandleMessage K subsystem level text now s).1 = Passed
  ∧ RecentMessageMap (HandleMessage K subsystem level text now s).2
    = delete (GetHash K text) (RecentMessageMap s)
  ∧ RepeatedMessageMap (HandleMessage K subsystem level text now s).2
    = <[GetHash K text :=
          {| subsystemName := subsystem; messageLogLevel := level;
             stream := text; initialTimeMs := now; lastTimeMs := now;
             aggregatedCount := 0; printedCount := 0 |}]>
        (RepeatedMessageMap s).
Proof.
  intros Hb He Hs Hrep Hrec. unfold HandleMessage. rewrite Hb.
  rewrite (bool_decide_eq_false_2 _ He), (bool_decide_eq_false_2 _ Hs).
  by rewrite Hrep, Hrec.
Qed.

(** ** The loop of [Poll] over the repeated-message map *)

Lemma Poll_visit_emit now (acc : gmap Z RepeatedMessage * list RepeatedMessage)
    (kv : Z * RepeatedMessage) :
  (Poll_visit K now acc kv).2 = acc.2 ++ option_list (Poll_emit K now kv.2).
Proof.
  unfold Poll_visit, Poll_emit.
  repeat case_bool_decide; simpl; by rewrite ?app_nil_r.
Qed.

Lemma Poll_visit_keep now (acc : gmap Z RepeatedMessage * list RepeatedMessage)
    (kv : Z * RepeatedMessage) (h : Z) :
  acc.1 !! kv.1 = Some kv.2 →
  (Poll_visit K now acc kv).1 !! h
  = if decide (h = kv.1) then Poll_keep K now kv.2 else acc.1 !! h.
Proof.
  intros Hin. unfold Poll_visit, Poll_keep.
  repeat case_bool_decide; simpl; case_decide; subst;
    rewrite ?lookup_delete_eq, ?lookup_insert_eq; try done;
    by rewrite ?lookup_delete_ne, ?lookup_insert_ne by done.
Qed.

Lemma Poll_fold_emit now (l : list (Z * RepeatedMessage))
    (acc : gmap Z RepeatedMessage * list RepeatedMessage) :
  (foldl (Poll_visit K now) acc l).2
  = acc.2 ++ omap (λ kv, Poll_emit K now kv.2) l.
Proof.
  revert acc. induction l as [|kv l IH]; intros acc; simpl.
  - by rewrite app_nil_r.
  - rewrite IH, Poll_visit_emit.
    destruct (Poll_emit K now kv.2); simpl; by rewrite <- ?app_assoc, ?app_nil_r.
Qed.

Lemma Poll_fold_keep now (l : list (Z * RepeatedMessage))
    (acc : gmap Z RepeatedMessage * list RepeatedMessage) (h : Z) :
  NoDup l.*1 →
  (∀ kv, kv ∈ l → acc.1 !! kv.1 = Some kv.2) →
  (foldl (Poll_visit K now) acc l).1 !! h
  = match (list_to_map l : gmap Z RepeatedMessage) !! h with
    | Some e => Poll_keep K now e
    | None => acc.1 !! h
    end.
Proof.
  revert acc. induction l as [|kv l IH]; intros acc Hnd Hin; simpl; [done|].
  apply NoDup_cons in Hnd as [Hkv Hnd].
  assert (acc.1 !! kv.1 = Some kv.2) as Hhere by (apply Hin; left).
  rewrite IH; [|done|].
  - destruct kv as [k e]; simpl in *.
    destruct (decide (h = k)) as [->|Hne].
    + rewrite lookup_insert_eq.
      rewrite (not_elem_of_list_to_map_1 _ _ Hkv).
      rewrite (Poll_visit_keep now acc (k, e) k Hhere). by rewrite decide_True.
    + rewrite lookup_insert_ne by done.
      destruct (list_to_map l !! h); [done|].
      rewrite (Poll_visit_keep now acc (k, e) h Hhere). by rewrite decide_False.
  - intros kv' Hkv'. rewrite (Poll_visit_keep now acc kv _ Hhere).
    rewrite decide_False; [apply Hin; by right|].
    intros Heq. apply Hkv. rewrite <- Heq. by apply list_elem_of_fmap_2.
Qed.

Lemma Poll_locked_messages now iteration (s : t) :
  (Poll_locked K now iteration s).2
  = omap (λ kv, Poll_emit K now kv.2) (map_to_list (RepeatedMessageMap s)).
Proof. unfold Poll_locked. simpl. by rewrite Poll_fold_emit. Qed.

Lemma Poll_locked_lookup now iteration (s : t) (h : Z) :
  RepeatedMessageMap (Poll_locked K now iteration s).1 !! h
  = RepeatedMessageMap s !! h ≫= Poll_keep K now.
Proof.
  unfold Poll_locked. simpl.
  rewrite Poll_fold_keep.
  - rewrite list_to_map_to_list. simpl. by destruct (RepeatedMessageMap s !! h).
  - apply NoDup_fst_map_to_list.
  - intros [k e] Hin. simpl. by apply elem_of_map_to_list.
Qed.

Lemma Poll_locked_frame now iteration (s : t) :
  BusyInWrite (Poll_locked K now iteration s).1 = BusyInWrite s
  ∧ RecentMessageMap (Poll_locked K now iteration s).1
    = Poll_prune K iteration (RecentMessageMap s)
  ∧ RepeatedMessageExceptionSet (Poll_locked K now iteration s).1
    = RepeatedMessageExceptionSet s
  ∧ RepeatedMessageSubsystemExceptionSet (Poll_locked K now iteration s).1
    = RepeatedMessageSubsystemExceptionSet s.
Proof. done. Qed.

(** The messages collected for a map are those of one of its entries and
    those of the rest of the map. *)
Lemma Poll_locked_messages_entry now iteration (s : t) (h : Z)
    (e : RepeatedMessage) :
  RepeatedMessageMap s !! h = Some e →
  (Poll_locked K now iteration s).2
  ≡ₚ option_list (Poll_emit K now e)
     ++ (Poll_locked K now iteration
           (set_RepeatedMessageMap (delete h (RepeatedMessageMap s)) s)).2.
Proof.
  intros Hin. rewrite !Poll_locked_messages. simpl.
  rewrite <- (map_to_list_delete _ _ _ Hin). simpl.
  by destruct (Poll_emit K now e).
Qed.

End ManagerFacts.

(** * OutputWorker: writing and polling *)

Section WorkerFacts.

Import OutputWorker.

Variable K : Tunables.
Variable GetTimestamp : LogTime → string.


(** What [Write] leaves untouched, and what it does to the manager. *)
Lemma Write_frame subsystem level text relogged option now (w : t) :
  let w' := Write K GetTimestamp subsystem level text relogged option now w in
  RepeatedMessageManagerInstance w'
  = (RepeatedMessageManager.HandleMessage K subsystem level text (RepeatedMessageManager.LogTimeToMillisecondTime now)
       (RepeatedMessageManagerInstance w)).2
  ∧ Plugins w' = Plugins w ∧ LoggingThread w' = LoggingThread w
  ∧ IsInDebugger w' = IsInDebugger w.
Proof.
  unfold Write. simpl.
  destruct (RepeatedMessageManager.HandleMessage _ _ _ _ _ _) as [[] s'];
    simpl; [|done].
  unfold FlushDbgViewLogImmediately.
  repeat (case_match || case_bool_decide); simpl; done.
Qed.

(** An occurrence classified as [Aggregated] never reaches the queue. *)
Lemma Write_aggregated subsystem level text relogged option now (w : t) :
  (RepeatedMessageManager.HandleMessage K subsystem level text (RepeatedMessageManager.LogTimeToMillisecondTime now)
     (RepeatedMessageManagerInstance w)).1 = RepeatedMessageManager.Aggregated →
  let w' := Write K GetTimestamp subsystem level text relogged option now w in
  WorkQueue w' = WorkQueue w ∧ WorkQueueSize w' = WorkQueueSize w
  ∧ WorkQueueOverrun w' = WorkQueueOverrun w.
Proof. intros H. unfold Write. by rewrite H. Qed.

(** A passed record over the limit is counted and dropped. *)
Lemma Write_dropped subsystem level text relogged now (w : t) :
  (RepeatedMessageManager.HandleMessage K subsystem level text (RepeatedMessageManager.LogTimeToMillisecondTime now)
     (RepeatedMessageManagerInstance w)).1 = RepeatedMessageManager.Passed →
  WorkQueueLimit K ≤ WorkQueueSize w →
  let w' := Write K GetTimestamp subsystem level text relogged Default now w in
  WorkQueue w' = WorkQueue w ∧ WorkQueueSize w' = WorkQueueSize w
  ∧ WorkQueueOverrun w' = WorkQueueOverrun w + 1.
Proof.
  intros H Hfull. unfold Write. rewrite H. simpl.
  rewrite (bool_decide_eq_true_2 _ Hfull). simpl.
  case_match; [|done].
  unfold FlushDbgViewLogImmediately; by case_bool_decide.
Qed.

(** A passed record is appended when the queue is below the limit or the
    limit is waived. *)
Lemma Write_enqueued subsystem level text relogged option now (w : t) :
  (RepeatedMessageManager.HandleMessage K subsystem level text (RepeatedMessageManager.LogTimeToMillisecondTime now)
     (RepeatedMessageManagerInstance w)).1 = RepeatedMessageManager.Passed →
  option = DangerouslyIgnoreQueueLimit ∨ WorkQueueSize w < WorkQueueLimit K →
  let w' := Write K GetTimestamp subsystem level text relogged option now w in
  WorkQueue w' = WorkQueue w ++ [mkQueuedLogMessage subsystem level text now]
  ∧ WorkQueueSize w' = WorkQueueSize w + 1
  ∧ WorkQueueOverrun w' = WorkQueueOverrun w.
Proof.
  intros H Hroom. unfold Write. rewrite H. simpl.
  assert (bool_decide (option ≠ DangerouslyIgnoreQueueLimit)
          && bool_decide (WorkQueueLimit K ≤ WorkQueueSize w) = false) as ->.
  { destruct Hroom as [->|Hlt].
    - rewrite (bool_decide_eq_false_2 (DangerouslyIgnoreQueueLimit ≠ _));
        [done | intros Hne; by apply Hne].
    - rewrite (bool_decide_eq_false_2 (WorkQueueLimit K ≤ _)) by lia.
      apply andb_false_r. }
  simpl. unfold FlushDbgViewLogImmediately.
  repeat (case_match || case_bool_decide); simpl; done.
Qed.

Lemma PrintDeferred_effect now
    (e : RepeatedMessageManager.RepeatedMessage) (w : t) :
  let w' := PrintDeferred K GetTimestamp now e w in
  WorkQueue w' = WorkQueue w ++ [SummaryRecord now e]
  ∧ WorkQueueSize w' = WorkQueueSize w + 1
  ∧ WorkQueueOverrun w' = WorkQueueOverrun w
  ∧ RepeatedMessageManagerInstance w'
    = RepeatedMessageManager.set_BusyInWrite false (RepeatedMessageManagerInstance w)
  ∧ Plugins w' = Plugins w ∧ LoggingThread w' = LoggingThread w
  ∧ IsInDebugger w' = IsInDebugger w.
Proof.
  unfold PrintDeferred, RepeatedMessageManager.PrintDeferredAggregateMessage.
  unfold Write, FlushDbgViewLogImmediately, SummaryRecord. simpl.
  repeat (case_match || case_bool_decide); simpl; done.
Qed.

Lemma PrintDeferred_fold now
    (msgs : list RepeatedMessageManager.RepeatedMessage) (w : t) :
  let w' := foldl (λ w1 e, PrintDeferred K GetTimestamp now e w1) w msgs in
  WorkQueue w' = WorkQueue w ++ (SummaryRecord now <$> msgs)
  ∧ WorkQueueSize w' = WorkQueueSize w + Z.of_nat (length msgs)
  ∧ WorkQueueOverrun w' = WorkQueueOverrun w
  ∧ ManagerData (RepeatedMessageManagerInstance w')
    = ManagerData (RepeatedMessageManagerInstance w)
  ∧ Plugins w' = Plugins w ∧ LoggingThread w' = LoggingThread w
  ∧ IsInDebugger w' = IsInDebugger w.
Proof.
  revert w. induction msgs as [|e msgs IH]; intros w; simpl.
  - rewrite app_nil_r. repeat split; lia.
  - destruct (IH (PrintDeferred K GetTimestamp now e w))
      as (-> & -> & -> & -> & -> & -> & ->).
    destruct (PrintDeferred_effect now e w) as (-> & -> & -> & -> & -> & -> & ->).
    rewrite <- app_assoc. repeat split; simpl; lia.
Qed.

(** What one call of [Poll] does to the worker: the summaries collected
    under the lock are appended to the queue in collection order, whatever
    the limit; the manager is left as the locked part left it, up to the
    re-entrancy flag. *)
Lemma Poll_effect now iteration (w : t) :
  let r :=
    RepeatedMessageManager.Poll_locked K
      (RepeatedMessageManager.LogTimeToMillisecondTime now) iteration
      (RepeatedMessageManagerInstance w) in
  let w' := Poll K GetTimestamp now iteration w in
  WorkQueue w' = WorkQueue w ++ (SummaryRecord now <$> r.2)
  ∧ WorkQueueSize w' = WorkQueueSize w + Z.of_nat (length r.2)
  ∧ WorkQueueOverrun w' = WorkQueueOverrun w
  ∧ ManagerData (RepeatedMessageManagerInstance w') = ManagerData r.1
  ∧ Plugins w' = Plugins w ∧ LoggingThread w' = LoggingThread w
  ∧ IsInDebugger w' = IsInDebugger w.
Proof.
  simpl. unfold Poll, RepeatedMessageManager.Poll.
  exact (PrintDeferred_fold now _ (set_RepeatedMessageManagerInstance _ w)).
Qed.

End WorkerFacts.

(** * Aggregation: the life of one repeated-message entry *)

Section AggregationFacts.

Import RepeatedMessageManager.

Variable K : Tunables.
Variable GetTimestamp : LogTime → string.

(** [Poll] and one entry of the repeated-message map: what reaches the queue
    and what stays in the map. *)
Lemma Poll_entry (now : LogTime) (iteration : list (Z * RecentMessage))
    (w : OutputWorker.t) (h : Z) (e : RepeatedMessage) :
  RepeatedMessageMap (OutputWorker.RepeatedMessageManagerInstance w) !! h = Some e →
  let w' := OutputWorker.Poll K GetTimestamp now iteration w in
  (∃ msgs,
     OutputWorker.WorkQueue w' = OutputWorker.WorkQueue w ++ (SummaryRecord now <$> msgs)
     ∧ msgs ≡ₚ option_list (Poll_emit K (LogTimeToMillisecondTime now) e)
               ++ PollRest K now iteration h w)
  ∧ RepeatedMessageMap (OutputWorker.RepeatedMessageManagerInstance w') !! h
    = Poll_keep K (LogTimeToMillisecondTime now) e.
Proof.
  intros Hin. simpl.
  destruct (Poll_effect K GetTimestamp now iteration w) as (Hq & _ & _ & Hd & _).
  split.
  - eexists. split; [exact Hq|]. by apply Poll_locked_messages_entry.
  - unfold ManagerData in Hd.
    assert (RepeatedMessageMap
              (OutputWorker.RepeatedMessageManagerInstance
                 (OutputWorker.Poll K GetTimestamp now iteration w))
            = RepeatedMessageMap
                (Poll_locked K (LogTimeToMillisecondTime now) iteration
                   (OutputWorker.RepeatedMessageManagerInstance w)).1) as ->
      by congruence.
    by rewrite Poll_locked_lookup, Hin.
Qed.

(** C5. When the window of an entry has expired and its aggregated count is
    not zero, [Poll] enqueues for it exactly one record (the queue grows by
    the summaries of this entry and of the other entries, and this entry
    contributes one); the record carries the entry's subsystem and level, its
    text is the entry's captured text [stream] behind the prefix
    "[Aggregated n times] " with [n] the aggregated count, and the entry is
    gone from the repeated-message map afterwards. *)
Theorem Poll_final_summary (now : LogTime)
    (iteration : list (Z * RecentMessage)) (w : OutputWorker.t) (h : Z)
    (e : RepeatedMessage) :
  RepeatedMessageMap (OutputWorker.RepeatedMessageManagerInstance w) !! h = Some e →
  maxDeferrableDetectionTimeMs K
  < GetLogMillisecondTimeDifference (lastTimeMs e) (LogTimeToMillisecondTime now) →
  aggregatedCount e ≠ 0 →
  let w' := OutputWorker.Poll K GetTimestamp now iteration w in
  (∃ msgs,
     OutputWorker.WorkQueue w' = OutputWorker.WorkQueue w ++ (SummaryRecord now <$> msgs)
     ∧ msgs ≡ₚ e :: PollRest K now iteration h w)
  ∧ OutputWorker.Buffer (SummaryRecord now e)
    = ("[Aggregated " +:+ pretty (aggregatedCount e) +:+ " times] ") +:+ stream e
  ∧ OutputWorker.SubsystemName (SummaryRecord now e) = subsystemName e
  ∧ OutputWorker.MessageLogLevel (SummaryRecord now e) = messageLogLevel e
  ∧ OutputWorker.FlushEvent (SummaryRecord now e) = None
  ∧ RepeatedMessageMap (OutputWorker.RepeatedMessageManagerInstance w') !! h = None.
Proof.
  intros Hin Hexp Hagg. simpl.
  destruct (Poll_entry now iteration w h e Hin) as (Hq & Hk).
  unfold Poll_emit, Poll_keep in *.
  rewrite (bool_decide_eq_true_2 _ Hexp) in Hq, Hk.
  rewrite (bool_decide_eq_true_2 _ Hagg) in Hq.
  repeat split; done.
Qed.

(** One occurrence of a hash that is an active entry, inside the window. *)
Lemma HandleMessage_repeat subsystem level text now (s : t) (e : RepeatedMessage) :
  BusyInWrite s = false →
  GetHash K text ∉ RepeatedMessageExceptionSet s →
  GetHash K subsystem ∉ RepeatedMessageSubsystemExceptionSet s →
  RepeatedMessageMap s !! GetHash K text = Some e →
  GetLogMillisecondTimeDifference (lastTimeMs e) now < maxDeferrableDetectionTimeMs K →
  HandleMessage K subsystem level text now s
  = if bool_decide (printedCount e < printedRepeatCount K) then
      (Passed,
       set_RepeatedMessageMap
         (<[GetHash K text := set_printedCount (printedCount e + 1) (set_lastTimeMs now e)]>
            (RepeatedMessageMap s)) s)
    else
      (Aggregated,
       set_RepeatedMessageMap
         (<[GetHash K text :=
              if bool_decide (maxDeferredMessages K ≤ aggregatedCount e + 1)
              then set_stream text
                     (set_aggregatedCount (aggregatedCount e + 1) (set_lastTimeMs now e))
              else set_aggregatedCount (aggregatedCount e + 1) (set_lastTimeMs now e)]>
            (RepeatedMessageMap s)) s).
Proof.
  intros Hb He Hs Hin Hw. unfold HandleMessage. rewrite Hb.
  rewrite (bool_decide_eq_false_2 _ He), (bool_decide_eq_false_2 _ Hs), Hin.
  rewrite (bool_decide_eq_true_2 _ Hw). simpl.
  repeat case_bool_decide; done.
Qed.

(** A run of occurrences of one active entry, each inside the window of the
    one before: the first ones are passed until [printedCount] reaches
    [printedRepeatCount], the others are aggregated. *)
Lemma HandleMessages_window (occs : list Occurrence) (s : t) (h : Z)
    (e : RepeatedMessage) :
  BusyInWrite s = false →
  h ∉ RepeatedMessageExceptionSet s →
  Forall (λ o, GetHash K (occ_text o) = h
               ∧ GetHash K (occ_subsystem o) ∉ RepeatedMessageSubsystemExceptionSet s)
    occs →
  RepeatedMessageMap s !! h = Some e →
  WithinWindow K (lastTimeMs e) (occ_time <$> occs) →
  let passes :=
    (Z.to_nat (printedRepeatCount K - printedCount e) `min` length occs)%nat in
  (HandleMessages K occs s).1
  = replicate passes Passed ++ replicate (length occs - passes) Aggregated
  ∧ ∃ e',
      RepeatedMessageMap (HandleMessages K occs s).2 !! h = Some e'
      ∧ printedCount e' = printedCount e + Z.of_nat passes
      ∧ aggregatedCount e' = aggregatedCount e + Z.of_nat (length occs - passes)
      ∧ lastTimeMs e' = LastTime (lastTimeMs e) (occ_time <$> occs)
      ∧ subsystemName e' = subsystemName e
      ∧ messageLogLevel e' = messageLogLevel e.
Proof.
  revert s e. induction occs as [|o occs IH]; intros s e Hb He Hall Hin Hw; simpl.
  - rewrite Nat.min_0_r. simpl. split; [done|]. exists e.
    repeat split; auto; lia.
  - apply Forall_cons in Hall as [[Hh Hs] Hall]. destruct Hw as [Hw1 Hw2].
    subst h.
    rewrite (HandleMessage_repeat _ _ _ _ s e Hb He Hs Hin Hw1).
    case_bool_decide as Hp; simpl.
    + set (e1 := set_printedCount (printedCount e + 1) (set_lastTimeMs (occ_time o) e)).
      set (s1 := set_RepeatedMessageMap _ s).
      destruct (IH s1 e1) as (Hres & e' & Hl & Hpc & Hac & Hlt & Hsn & Hlv);
        try done.
      { subst s1. simpl. apply lookup_insert_eq. }
      assert ((Z.to_nat (printedRepeatCount K - printedCount e)
                 `min` S (length occs))%nat
              = S (Z.to_nat (printedRepeatCount K - printedCount e1)
                     `min` length occs)%nat) as -> by (subst e1; simpl; lia).
      simpl. split; [by rewrite Hres|].
      exists e'. rewrite Hl, Hpc, Hac, Hlt, Hsn, Hlv. subst e1; simpl.
      repeat split; lia.
    + set (e1 := if bool_decide _ then _ else _).
      set (s1 := set_RepeatedMessageMap _ s).
      assert (printedCount e1 = printedCount e ∧ lastTimeMs e1 = occ_time o
              ∧ aggregatedCount e1 = aggregatedCount e + 1
              ∧ subsystemName e1 = subsystemName e
              ∧ messageLogLevel e1 = messageLogLevel e) as (Hp1 & Hl1 & Ha1 & Hs1 & Hv1).
      { subst e1. by case_bool_decide. }
      destruct (IH s1 e1) as (Hres & e' & Hl & Hpc & Hac & Hlt & Hsn & Hlv);
        try done.
      { subst s1. simpl. apply lookup_insert_eq. }
      { by rewrite Hl1. }
      rewrite Hp1 in *.
      assert (Z.to_nat (printedRepeatCount K - printedCount e) = 0%nat) as Hz by lia.
      rewrite Hz in *. simpl in *. rewrite Nat.sub_0_r in *.
      split; [by rewrite Hres|].
      exists e'. rewrite Hl, Hpc, Hac, Hlt, Hsn, Hlv, Hl1, Ha1, Hs1, Hv1.
      repeat split; lia.
Qed.

Lemma LastText_cons (text : string) (o : Occurrence) (occs : list Occurrence) :
  (0 < length occs)%nat → LastText text (o :: occs) = LastText text occs.
Proof. destruct occs; simpl; [lia|done]. Qed.

(** The text an entry carries after such a run: the text of the latest
    occurrence once an occurrence of the run was aggregated with the
    aggregated count at or above [maxDeferredMessages], the text it carried
    before otherwise. *)
Lemma HandleMessages_captured_text (occs : list Occurrence) (s : t) (h : Z)
    (e e' : RepeatedMessage) :
  BusyInWrite s = false →
  h ∉ RepeatedMessageExceptionSet s →
  Forall (λ o, GetHash K (occ_text o) = h
               ∧ GetHash K (occ_subsystem o) ∉ RepeatedMessageSubsystemExceptionSet s)
    occs →
  RepeatedMessageMap s !! h = Some e →
  WithinWindow K (lastTimeMs e) (occ_time <$> occs) →
  RepeatedMessageMap (HandleMessages K occs s).2 !! h = Some e' →
  stream e'
  = if bool_decide
         ((Z.to_nat (printedRepeatCount K - printedCount e) < length occs)%nat
          ∧ maxDeferredMessages K ≤ aggregatedCount e')
    then LastText (stream e) occs else stream e.
Proof.
  revert s e. induction occs as [|o occs IH]; intros s e Hb He Hall Hin Hw Hl'.
  - simpl in Hl'. rewrite Hin in Hl'. injection Hl' as <-.
    rewrite bool_decide_eq_false_2; [done|simpl; lia].
  - apply Forall_cons in Hall as [[Hh Hs] Hall]. destruct Hw as [Hw1 Hw2].
    subst h. simpl in Hl'.
    rewrite (HandleMessage_repeat _ _ _ _ s e Hb He Hs Hin Hw1) in Hl'.
    case_bool_decide as Hp; simpl in Hl'.
    + set (e1 := set_printedCount (printedCount e + 1) (set_lastTimeMs (occ_time o) e)) in *.
      set (s1 := set_RepeatedMessageMap _ s) in *.
      rewrite (IH s1 e1); try done; [|subst s1; simpl; apply lookup_insert_eq].
      change (printedCount e1) with (printedCount e + 1).
      change (stream e1) with (stream e). simpl length.
      repeat case_bool_decide; try done; try lia.
      symmetry. apply LastText_cons. lia.
    + set (e1 := if bool_decide _ then _ else _) in *.
      set (s1 := set_RepeatedMessageMap _ s) in *.
      assert (printedCount e1 = printedCount e ∧ lastTimeMs e1 = occ_time o
              ∧ aggregatedCount e1 = aggregatedCount e + 1) as (Hp1 & Hl1 & Ha1).
      { subst e1. by case_bool_decide. }
      assert (RepeatedMessageMap s1 !! GetHash K (occ_text o) = Some e1) as Hin1
        by (subst s1; simpl; apply lookup_insert_eq).
      destruct (HandleMessages_window occs s1 (GetHash K (occ_text o)) e1)
        as (_ & e'' & Hl'' & _ & Hac & _); try done; [by rewrite Hl1|].
      rewrite Hl' in Hl''. injection Hl'' as <-.
      rewrite (IH s1 e1); try done; [|by rewrite Hl1].
      rewrite Hp1 in *. simpl length.
      destruct occs as [|o2 occs].
      * simpl in *.
        subst e1. repeat case_bool_decide; simpl in *; try done; lia.
      * rewrite (LastText_cons (stream e)) by (simpl; lia).
        simpl length in *.
        assert (Z.to_nat (printedRepeatCount K - printedCount e) = 0%nat) as Hz by lia.
        rewrite Hz in *. simpl in Hac.
        subst e1. repeat case_bool_decide; simpl in *; try done; lia.
Qed.

(** C1, as amended. Take an active entry of hash [h], with the manager not
    re-emitting a summary and neither hash exempt, and further occurrences
    of that hash, each inside the aggregation window of the one before.
    [HandleMessage] passes them until the printed count of the entry has
    reached [printedRepeatCount], that is the first
    [printedRepeatCount - printedCount] of them (none when the printed count
    is there already), adding one to the printed count each time, and it
    aggregates all the others, adding one to the aggregated count each
    time. So for an entry that has printed nothing yet and
    [printedRepeatCount + k] occurrences, the first [printedRepeatCount] are
    passed and the other [k] aggregated. At the next [Poll], with [n] the
    aggregated count the entry has then:
    - if the window has expired and [n] is not zero, exactly one summary of
      this entry is enqueued, its text the captured text behind
      "[Aggregated n times] ", and the entry is removed;
    - if the window has expired and [n] is zero, the entry is removed and
      nothing is enqueued for it;
    - if the window has not expired and [n] has reached
      [maxDeferredMessages], exactly one summary with count [n] is enqueued,
      and the entry stays with the aggregated count rolled into the printed
      count and reset to zero;
    - if the window has not expired and [n] is below the cap, nothing is
      enqueued for the entry, which stays as it is. *)
Theorem aggregation_lifecycle (s : t) (h : Z) (e : RepeatedMessage)
    (occs : list Occurrence) :
  BusyInWrite s = false →
  h ∉ RepeatedMessageExceptionSet s →
  Forall (λ o, GetHash K (occ_text o) = h
               ∧ GetHash K (occ_subsystem o) ∉ RepeatedMessageSubsystemExceptionSet s)
    occs →
  RepeatedMessageMap s !! h = Some e →
  WithinWindow K (lastTimeMs e) (occ_time <$> occs) →
  let passes :=
    (Z.to_nat (printedRepeatCount K - printedCount e) `min` length occs)%nat in
  (HandleMessages K occs s).1
  = replicate passes Passed ++ replicate (length occs - passes) Aggregated
  ∧ (∀ k : nat,
       printedCount e = 0 →
       0 ≤ printedRepeatCount K →
       length occs = (Z.to_nat (printedRepeatCount K) + k)%nat →
       (HandleMessages K occs s).1
       = replicate (Z.to_nat (printedRepeatCount K)) Passed ++ replicate k Aggregated)
  ∧ ∃ e',
      RepeatedMessageMap (HandleMessages K occs s).2 !! h = Some e'
      ∧ printedCount e' = printedCount e + Z.of_nat passes
      ∧ aggregatedCount e' = aggregatedCount e + Z.of_nat (length occs - passes)
      ∧ lastTimeMs e' = LastTime (lastTimeMs e) (occ_time <$> occs)
      ∧ ∀ (now : LogTime) (iteration : list (Z * RecentMessage))
          (w : OutputWorker.t),
          OutputWorker.RepeatedMessageManagerInstance w = (HandleMessages K occs s).2 →
          let elapsed :=
            GetLogMillisecondTimeDifference (lastTimeMs e')
              (LogTimeToMillisecondTime now) in
          let w' := OutputWorker.Poll K GetTimestamp now iteration w in
          (maxDeferrableDetectionTimeMs K < elapsed → aggregatedCount e' ≠ 0 →
             (∃ msgs,
                OutputWorker.WorkQueue w'
                = OutputWorker.WorkQueue w ++ (SummaryRecord now <$> msgs)
                ∧ msgs ≡ₚ e' :: PollRest K now iteration h w)
             ∧ OutputWorker.Buffer (SummaryRecord now e')
               = ("[Aggregated " +:+ pretty (aggregatedCount e') +:+ " times] ")
                 +:+ stream e'
             ∧ RepeatedMessageMap (OutputWorker.RepeatedMessageManagerInstance w') !! h
               = None)
          ∧ (maxDeferrableDetectionTimeMs K < elapsed → aggregatedCount e' = 0 →
             (∃ msgs,
                OutputWorker.WorkQueue w'
                = OutputWorker.WorkQueue w ++ (SummaryRecord now <$> msgs)
                ∧ msgs ≡ₚ PollRest K now iteration h w)
             ∧ RepeatedMessageMap (OutputWorker.RepeatedMessageManagerInstance w') !! h
               = None)
          ∧ (elapsed ≤ maxDeferrableDetectionTimeMs K →
             maxDeferredMessages K ≤ aggregatedCount e' →
             (∃ msgs,
                OutputWorker.WorkQueue w'
                = OutputWorker.WorkQueue w ++ (SummaryRecord now <$> msgs)
                ∧ msgs ≡ₚ e' :: PollRest K now iteration h w)
             ∧ OutputWorker.Buffer (SummaryRecord now e')
               = ("[Aggregated " +:+ pretty (aggregatedCount e') +:+ " times] ")
                 +:+ stream e'
             ∧ RepeatedMessageMap (OutputWorker.RepeatedMessageManagerInstance w') !! h
               = Some (set_aggregatedCount 0
                         (set_printedCount (printedCount e' + aggregatedCount e') e')))
          ∧ (elapsed ≤ maxDeferrableDetectionTimeMs K →
             aggregatedCount e' < maxDeferredMessages K →
             (∃ msgs,
                OutputWorker.WorkQueue w'
                = OutputWorker.WorkQueue w ++ (SummaryRecord now <$> msgs)
                ∧ msgs ≡ₚ PollRest K now iteration h w)
             ∧ RepeatedMessageMap (OutputWorker.RepeatedMessageManagerInstance w') !! h
               = Some e').
Proof.
  intros Hb He Hall Hin Hw.
  destruct (HandleMessages_window occs s h e Hb He Hall Hin Hw)
    as (Hres & e' & Hl & Hpc & Hac & Hlt & _).
  cbv zeta. split; [exact Hres|]. split.
  - intros k Hp0 HR Hlen. rewrite Hres, Hp0, Z.sub_0_r, Hlen.
    assert ((Z.to_nat (printedRepeatCount K)
               `min` (Z.to_nat (printedRepeatCount K) + k))%nat
            = Z.to_nat (printedRepeatCount K)) as -> by lia.
    do 2 f_equal. lia.
  - exists e'. split; [exact Hl|]. split; [exact Hpc|]. split; [exact Hac|].
    split; [exact Hlt|].
    intros now iteration w Hw'. rewrite <- Hw' in Hl.
    destruct (Poll_entry now iteration w h e' Hl) as (Hq & Hkeep).
    unfold Poll_emit, Poll_keep in *.
    unfold SummaryRecord, AggregateText, AggregatePrefix.
    split; [|split; [|split]].
    + intros Hexp Hpos.
      rewrite (bool_decide_eq_true_2 _ Hexp) in Hq, Hkeep.
      rewrite (bool_decide_eq_true_2 _ Hpos) in Hq.
      split; [exact Hq|]. split; [done|exact Hkeep].
    + intros Hexp Hzero.
      rewrite (bool_decide_eq_true_2 _ Hexp) in Hq, Hkeep.
      rewrite bool_decide_eq_false_2 in Hq by (intros Hne; by apply Hne).
      split; [exact Hq|exact Hkeep].
    + intros Hin' Hcap.
      rewrite bool_decide_eq_false_2 in Hq, Hkeep by lia.
      rewrite (bool_decide_eq_true_2 _ Hcap) in Hq, Hkeep.
      split; [exact Hq|]. split; [done|exact Hkeep].
    + intros Hin' Hcap.
      rewrite bool_decide_eq_false_2 in Hq, Hkeep by lia.
      rewrite bool_decide_eq_false_2 in Hq, Hkeep by lia.
      split; [exact Hq|exact Hkeep].
Qed.

End AggregationFacts.

(** * Invariants of the manager along the calls on the worker *)

Section InvariantFacts.

Import RepeatedMessageManager.

Variable K : Tunables.
Variable GetUniquePluginName : OutputWorker.PluginPtr → string.
Variable GetTimestamp : LogTime → string.

Lemma erase_all_lookup (l : list (Z * RecentMessage)) (m : gmap Z RecentMessage)
    (h : Z) :
  foldl (λ m' it, delete it.1 m') m l !! h
  = if decide (h ∈ l.*1) then None else m !! h.
Proof.
  revert m. induction l as [|[k v] l IH]; intros m; simpl; [done|].
  rewrite IH. change (((k, v) :: l).*1) with (k :: l.*1).
  destruct (decide (h ∈ l.*1)) as [Hin|Hnin].
  - rewrite decide_True; [done|by right].
  - destruct (decide (h = k)) as [->|Hne].
    + rewrite decide_True by by left. apply lookup_delete_eq.
    + rewrite decide_False; [by apply lookup_delete_ne|].
      intros [?|?]%elem_of_cons; done.
Qed.




(** The comparison in [RemoveRepeatedMessageSubsytemException] is between
    iterators of two containers, so the call never returns a state. *)
Lemma RemoveRepeatedMessageSubsytemException_None (subsystem : string) (s : t) :
  RemoveRepeatedMessageSubsytemException K subsystem s = None.
Proof. done. Qed.


(** No call ever takes a hash out of the subsystem-level exception set. *)
Lemma ManagerStep_subsystem_exceptions (s s' : t) :
  ManagerStep K s s' →
  RepeatedMessageSubsystemExceptionSet s ⊆ RepeatedMessageSubsystemExceptionSet s'.
Proof.
  intros Hstep. destruct Hstep as [s' Heq| | now iteration s' Heq|p|p|p|p s' Heq].
  - unfold ManagerData in Heq. by injection Heq as _ _ _ ->.
  - by destruct (HandleMessage_frame K subsystem level text now s) as (_ & _ & ->).
  - unfold ManagerData in Heq. by injection Heq as _ _ _ ->.
  - done.
  - unfold RemoveRepeatedMessageException. by case_bool_decide.
  - simpl. set_solver.
  - by rewrite RemoveRepeatedMessageSubsytemException_None in Heq.
Qed.

Lemma step_ManagerStep (op : Op) (w w' : OutputWorker.t) :
  step K GetUniquePluginName GetTimestamp op w = Some w' →
  ManagerStep K (OutputWorker.RepeatedMessageManagerInstance w)
    (OutputWorker.RepeatedMessageManagerInstance w').
Proof.
  destruct op; simpl; intros Hstep; try (injection Hstep as <-).
  - destruct (Write_frame K GetTimestamp subsystem level text relogged option now w)
      as (-> & _). apply ManagerStep_HandleMessage.
  - destruct (Poll_effect K GetTimestamp now iteration w) as (_ & _ & _ & Hd & _).
    by eapply ManagerStep_Poll.
  - apply ManagerStep_flag. unfold OutputWorker.Flush. by case_match.
  - apply ManagerStep_flag. unfold OutputWorker.Start. by repeat case_match.
  - unfold OutputWorker.Stop.
    destruct (Poll_effect K GetTimestamp now iteration
                (if OutputWorker.LoggingThread w
                 then OutputWorker.set_LoggingThread false w else w))
      as (_ & _ & _ & Hd & _).
    eapply ManagerStep_Poll. simpl. rewrite Hd. by destruct (OutputWorker.LoggingThread w).
  - apply ManagerStep_flag. unfold OutputWorker.AddPlugin, OutputWorker.RemovePlugin.
    by repeat case_match.
  - apply ManagerStep_flag. unfold OutputWorker.RemovePlugin. by repeat case_match.
  - by apply ManagerStep_flag.
  - apply ManagerStep_AddException.
  - apply ManagerStep_RemoveException.
  - apply ManagerStep_AddSubsystemException.
  - unfold OutputWorker.RemoveRepeatedMessageSubsystemException in Hstep.
    destruct (RemoveRepeatedMessageSubsytemException K subsystem
                (OutputWorker.RepeatedMessageManagerInstance w)) as [s'|] eqn:Heq;
      [|done].
    injection Hstep as <-. by eapply ManagerStep_RemoveSubsystemException.
Qed.

(** An invariant that every call keeps holds after a run. *)
Lemma run_invariant (P : OutputWorker.t → Prop) :
  (∀ op w w', step K GetUniquePluginName GetTimestamp op w = Some w' → P w → P w') →
  ∀ ops w, P w → P (run K GetUniquePluginName GetTimestamp ops w).
Proof.
  intros Hstep ops. induction ops as [|op ops IH]; intros w Hw; simpl; [done|].
  destruct (step K GetUniquePluginName GetTimestamp op w) as [w'|] eqn:Heq;
    [|done].
  apply IH. by apply (Hstep op w w').
Qed.


Lemma run_subsystem_exceptions (ops : list Op) (w : OutputWorker.t) :
  RepeatedMessageSubsystemExceptionSet (OutputWorker.RepeatedMessageManagerInstance w)
  ⊆ RepeatedMessageSubsystemExceptionSet
      (OutputWorker.RepeatedMessageManagerInstance
         (run K GetUniquePluginName GetTimestamp ops w)).
Proof.
  apply (run_invariant
           (λ w',
              RepeatedMessageSubsystemExceptionSet
                (OutputWorker.RepeatedMessageManagerInstance w)
              ⊆ RepeatedMessageSubsystemExceptionSet
                  (OutputWorker.RepeatedMessageManagerInstance w'))); [|done].
  intros op w1 w2 Hstep Hsub. etrans; [exact Hsub|].
  by eapply ManagerStep_subsystem_exceptions, step_ManagerStep.
Qed.

(** The registry never holds two sinks of one name: this holds for the
    empty registry of the constructor and every call keeps it. *)
Lemma step_UniqueNames (op : Op) (w w' : OutputWorker.t) :
  step K GetUniquePluginName GetTimestamp op w = Some w' →
  UniqueNames GetUniquePluginName w →
  UniqueNames GetUniquePluginName w'.
Proof.
  intros Hstep Hu. destruct op; simpl in Hstep; try (injection Hstep as <-).
  - unfold UniqueNames.
    by destruct (Write_frame K GetTimestamp subsystem level text relogged option now w)
      as (_ & -> & _).
  - unfold UniqueNames. simpl.
    by destruct (Poll_effect K GetTimestamp now iteration w)
      as (_ & _ & _ & _ & -> & _).
  - unfold OutputWorker.Flush. by case_match.
  - unfold OutputWorker.Start. by repeat case_match.
  - unfold UniqueNames, OutputWorker.Stop. simpl.
    destruct (Poll_effect K GetTimestamp now iteration
                (if OutputWorker.LoggingThread w
                 then OutputWorker.set_LoggingThread false w else w))
      as (_ & _ & _ & _ & -> & _).
    by destruct (OutputWorker.LoggingThread w).
  - destruct plugin as [p|]; [by apply AddPlugin_UniqueNames|done].
  - by apply RemovePlugin_UniqueNames.
  - apply NoDup_nil_2.
  - done.
  - done.
  - done.
  - unfold OutputWorker.RemoveRepeatedMessageSubsystemException in Hstep.
    by rewrite RemoveRepeatedMessageSubsytemException_None in Hstep.
Qed.

Lemma run_UniqueNames (ops : list Op) (isInDebugger : bool) :
  UniqueNames GetUniquePluginName
    (run K GetUniquePluginName GetTimestamp ops (OutputWorker.init isInDebugger)).
Proof.
  apply (run_invariant (UniqueNames GetUniquePluginName)).
  - intros op w w'. apply step_UniqueNames.
  - apply NoDup_nil_2.
Qed.

(** The size counter is the length of the queue after every call. *)
Lemma step_size (op : Op) (w w' : OutputWorker.t) :
  step K GetUniquePluginName GetTimestamp op w = Some w' →
  OutputWorker.WorkQueueSize w = Z.of_nat (length (OutputWorker.WorkQueue w)) →
  OutputWorker.WorkQueueSize w' = Z.of_nat (length (OutputWorker.WorkQueue w')).
Proof.
  intros Hstep Hs. destruct op; simpl in Hstep; try (injection Hstep as <-);
    try done.
  - unfold OutputWorker.Write, OutputWorker.FlushDbgViewLogImmediately.
    repeat (case_match || case_bool_decide); simpl; rewrite ?length_app; simpl; lia.
  - unfold OutputWorker.Flush. case_match; simpl; rewrite ?length_app; simpl; lia.
  - unfold OutputWorker.Start. by repeat case_match.
  - unfold OutputWorker.AddPlugin, OutputWorker.RemovePlugin. by repeat case_match.
  - unfold OutputWorker.RemovePlugin. by repeat case_match.
Qed.

(** X2, size counter. From the state the constructor builds, after any sequence
    of calls, [WorkQueueSize] equals the number of records in the work
    queue. *)
Theorem size_counter_is_queue_length (ops : list Op) (isInDebugger : bool) :
  OutputWorker.WorkQueueSize
    (run K GetUniquePluginName GetTimestamp ops (OutputWorker.init isInDebugger))
  = Z.of_nat
      (length
         (OutputWorker.WorkQueue
            (run K GetUniquePluginName GetTimestamp ops
               (OutputWorker.init isInDebugger)))).
Proof.
  apply (run_invariant
           (λ w, OutputWorker.WorkQueueSize w
                 = Z.of_nat (length (OutputWorker.WorkQueue w)))); [|done].
  intros op w w'. apply step_size.
Qed.

Lemma init_MapsDisjoint : MapsDisjoint init.
Proof. intros h. by left. Qed.


(** C9. [RemoveRepeatedMessageSubsytemException] looks the hash up in the
    subsystem-level set, then compares the iterator with [end()] of the
    message-level set and hands it to [erase] of the message-level set. After
    [AddRepeatedMessageSubsystemException] for the same name the iterator
    designates an element of the subsystem-level set, so the behaviour of the
    call is undefined: it leaves no state of which the claim could hold, on
    the manager or on the worker, and that for the erase alone, whatever
    the comparison answers. The same three steps taken on the message-level
    set alone are defined and are [RemoveRepeatedMessageException]. Along
    the calls that do return, the hash stays in the subsystem-level set and
    every message of the subsystem is passed. *)
Theorem RemoveRepeatedMessageSubsytemException_undefined (subsystem : string)
    (w : OutputWorker.t) :
  let w1 := OutputWorker.AddRepeatedMessageSubsystemException K subsystem w in
  let s1 := OutputWorker.RepeatedMessageManagerInstance w1 in
  let it :=
    ExceptionSet_find SubsystemExceptions (RepeatedMessageSubsystemExceptionSet s1)
      (GetHash K subsystem) in
  RemoveRepeatedMessageSubsytemException K subsystem s1 = None
  ∧ OutputWorker.RemoveRepeatedMessageSubsystemException K subsystem w1 = None
  ∧ designated it = Some (GetHash K subsystem)
  ∧ ExceptionSet_erase MessageExceptions (RepeatedMessageExceptionSet s1) it = None
  ∧ (∀ messagePrefix s,
       let it' :=
         ExceptionSet_find MessageExceptions (RepeatedMessageExceptionSet s)
           (GetHash K messagePrefix) in
       match Iterator_ne it' (ExceptionSet_end MessageExceptions) with
       | Some true =>
           match
             ExceptionSet_erase MessageExceptions (RepeatedMessageExceptionSet s) it'
           with
           | Some erased => Some (set_RepeatedMessageExceptionSet erased s)
           | None => None
           end
       | Some false => Some s
       | None => None
       end = Some (RemoveRepeatedMessageException K messagePrefix s))
  ∧ ∀ ops level text now,
      (HandleMessage K subsystem level text now
         (OutputWorker.RepeatedMessageManagerInstance
            (run K GetUniquePluginName GetTimestamp ops w1))).1 = Passed.
Proof.
  cbv zeta.
  assert (GetHash K subsystem
          ∈ RepeatedMessageSubsystemExceptionSet
              (OutputWorker.RepeatedMessageManagerInstance
                 (OutputWorker.AddRepeatedMessageSubsystemException K subsystem w)))
    as Hin by (simpl; apply elem_of_union_l; by apply elem_of_singleton).
  split; [done|]. split; [done|]. split.
  { unfold ExceptionSet_find. simpl. by rewrite bool_decide_eq_true_2. }
  split.
  { unfold ExceptionSet_erase, ExceptionSet_find. simpl.
    by rewrite bool_decide_eq_true_2. }
  split.
  - intros messagePrefix s. unfold Iterator_ne, ExceptionSet_erase,
      ExceptionSet_find, ExceptionSet_end, RemoveRepeatedMessageException. simpl.
    destruct (decide (GetHash K messagePrefix ∈ RepeatedMessageExceptionSet s))
      as [Hmem|Hmem].
    + rewrite !(bool_decide_eq_true_2 (_ ∈ _)) by done.
      by rewrite bool_decide_eq_true_2.
    + rewrite !(bool_decide_eq_false_2 (_ ∈ _)) by done.
      rewrite bool_decide_eq_false_2; [done|]. intros Hne. by apply Hne.
  - intros ops level text now. apply HandleMessage_subsystem_exception.
    by apply (run_subsystem_exceptions ops).
Qed.

End InvariantFacts.

(** * Pruning of the recent-message map *)

Section PruneFacts.

Import RepeatedMessageManager.

Variable K : Tunables.

(** Once the map holds more than twice [recentMessageCount] entries, the
    pruning block erases the first [recentMessageCount * 3] entries that the
    traversal finds, whatever their age, and keeps the others. *)
Lemma Poll_prune_erases (iteration : list (Z * RecentMessage))
    (m : gmap Z RecentMessage) (h : Z) :
  (recentMessageCount K * 2 < size m)%nat →
  Poll_prune K iteration m !! h
  = if decide (h ∈ (take (recentMessageCount K * 3) iteration).*1)
    then None else m !! h.
Proof.
  intros Hbig. unfold Poll_prune. rewrite bool_decide_eq_true_2 by done.
  rewrite erase_all_lookup.
  assert (∀ l : list (Z * RecentMessage),
            h ∈ (merge_sort newest_first l).*1 ↔ h ∈ l.*1) as Hperm.
  { intros l. by rewrite merge_sort_Permutation. }
  destruct (decide (h ∈ (merge_sort newest_first
                           (take (recentMessageCount K * 3) iteration)).*1))
    as [Hin|Hin]; case_decide as Hin'; try done; exfalso.
  - by apply Hin', Hperm.
  - by apply Hin, Hperm.
Qed.

Lemma Poll_prune_small (iteration : list (Z * RecentMessage))
    (m : gmap Z RecentMessage) :
  (size m ≤ recentMessageCount K * 2)%nat → Poll_prune K iteration m = m.
Proof.
  intros Hs. unfold Poll_prune. by rewrite bool_decide_eq_false_2 by lia.
Qed.

(** What a sequence of the traversal has from the map. *)
Lemma IterationOf_facts (iteration : list (Z * RecentMessage))
    (m : gmap Z RecentMessage) :
  IterationOf iteration m →
  NoDup iteration.*1
  ∧ length iteration = size m
  ∧ ∀ h r, (h, r) ∈ iteration ↔ m !! h = Some r.
Proof.
  unfold IterationOf. intros Hperm. repeat split.
  - rewrite Hperm. apply NoDup_fst_map_to_list.
  - by rewrite Hperm, length_map_to_list.
  - rewrite Hperm. apply elem_of_map_to_list.
  - rewrite Hperm. apply elem_of_map_to_list.
Qed.

(** A traversal of [RecentAt hashes] can find its entries in any order. *)
Lemma IterationOf_RecentSequence (hashes order : list Z) :
  NoDup hashes → order ≡ₚ hashes →
  IterationOf (RecentSequence order) (RecentAt hashes).
Proof.
  intros Hnd Hperm. unfold IterationOf, RecentSequence, RecentAt.
  rewrite map_to_list_to_map.
  - by apply fmap_Permutation.
  - rewrite <- list_fmap_compose.
    by rewrite (list_fmap_ext _ id hashes), list_fmap_id.
Qed.

(** What is left after the pruning block is the rest of the traversal. *)
Lemma Poll_prune_drop (iteration : list (Z * RecentMessage))
    (m : gmap Z RecentMessage) :
  IterationOf iteration m →
  (recentMessageCount K * 2 < size m)%nat →
  Poll_prune K iteration m = list_to_map (drop (recentMessageCount K * 3) iteration).
Proof.
  intros Hit Hbig. destruct (IterationOf_facts _ _ Hit) as (Hnd & _ & Hmem).
  rewrite <- (take_drop (recentMessageCount K * 3) iteration) in Hnd.
  rewrite fmap_app in Hnd. apply NoDup_app in Hnd as (_ & Hdisj & Hnd2).
  apply map_eq. intros h. rewrite Poll_prune_erases by done.
  case_decide as Hin.
  - symmetry. apply not_elem_of_list_to_map_1. by apply Hdisj.
  - destruct (m !! h) as [r|] eqn:Hl.
    + symmetry. apply elem_of_list_to_map_1; [done|].
      apply Hmem in Hl.
      rewrite <- (take_drop (recentMessageCount K * 3) iteration) in Hl.
      apply elem_of_app in Hl as [Hl|Hl]; [|done].
      exfalso. apply Hin. apply list_elem_of_fmap. by exists (h, r).
    + symmetry. apply not_elem_of_list_to_map_1. intros Hd.
      apply list_elem_of_fmap in Hd as ([h' r] & -> & Hd).
      assert ((h', r) ∈ iteration) as Hm.
      { rewrite <- (take_drop (recentMessageCount K * 3) iteration).
        apply elem_of_app. by right. }
      apply Hmem in Hm. simpl in Hl. congruence.
Qed.

Lemma Poll_prune_size (iteration : list (Z * RecentMessage))
    (m : gmap Z RecentMessage) :
  IterationOf iteration m →
  (recentMessageCount K * 2 < size m)%nat →
  size (Poll_prune K iteration m) = (size m - recentMessageCount K * 3)%nat.
Proof.
  intros Hit Hbig. rewrite Poll_prune_drop by done.
  destruct (IterationOf_facts _ _ Hit) as (Hnd & Hlen & _).
  rewrite map_size_list_to_map.
  - by rewrite length_drop, Hlen.
  - rewrite <- (take_drop (recentMessageCount K * 3) iteration) in Hnd.
    rewrite fmap_app in Hnd. by apply NoDup_app in Hnd as (_ & _ & Hnd2).
Qed.

(** With more than twice and at most three times [recentMessageCount]
    entries, nothing is left. *)
Lemma Poll_prune_wipes (iteration : list (Z * RecentMessage))
    (m : gmap Z RecentMessage) :
  IterationOf iteration m →
  (recentMessageCount K * 2 < size m ≤ recentMessageCount K * 3)%nat →
  Poll_prune K iteration m = ∅.
Proof.
  intros Hit [Hlo Hhi]. apply map_size_empty_inv.
  rewrite Poll_prune_size by done. lia.
Qed.

End PruneFacts.

Section PruneAtFailingInputs.

Import RepeatedMessageManager.

(** C3, the code at failing inputs, with [recentMessageCount = 1] and
    whatever the sequence in which the traversal finds the entries. Three
    entries seen at times 1, 2 and 3: after the pruning block, and after a
    whole [Poll], the map is empty, so the newest entry is not retained.
    Five entries: two are left, more than the target capacity. *)
Lemma Poll_prune_loses_newest (iteration : list (Z * RecentMessage)) :
  size (RecentAt [1; 2; 3]) = 3%nat
  ∧ (IterationOf iteration (RecentAt [1; 2; 3]) →
     Poll_prune SampleTunables iteration (RecentAt [1; 2; 3]) = ∅
     ∧ RecentMessageMap
         (Poll_locked SampleTunables 3 iteration
            (set_RecentMessageMap (RecentAt [1; 2; 3]) init)).1 !! 3 = None)
  ∧ size (RecentAt [1; 2; 3; 4; 5]) = 5%nat
  ∧ (IterationOf iteration (RecentAt [1; 2; 3; 4; 5]) →
     size (Poll_prune SampleTunables iteration (RecentAt [1; 2; 3; 4; 5])) = 2%nat).
Proof.
  assert (size (RecentAt [1; 2; 3]) = 3%nat) as H3 by (vm_compute; reflexivity).
  assert (size (RecentAt [1; 2; 3; 4; 5]) = 5%nat) as H5
    by (vm_compute; reflexivity).
  assert (recentMessageCount SampleTunables = 1%nat) as Hc by reflexivity.
  split; [exact H3|]. split; [|split; [exact H5|]].
  - intros Hit.
    assert (Poll_prune SampleTunables iteration (RecentAt [1; 2; 3]) = ∅) as Hwipe
      by (apply Poll_prune_wipes; [done|rewrite H3, Hc; lia]).
    split; [exact Hwipe|].
    destruct (Poll_locked_frame SampleTunables 3 iteration
                (set_RecentMessageMap (RecentAt [1; 2; 3]) init)) as (_ & -> & _).
    change (RecentMessageMap (set_RecentMessageMap (RecentAt [1; 2; 3]) init))
      with (RecentAt [1; 2; 3]).
    rewrite Hwipe. apply lookup_empty.
  - intros Hit. rewrite Poll_prune_size by (rewrite ?H5, ?Hc; done || lia).
    rewrite H5, Hc. reflexivity.
Qed.

(** Witness of C3: the traversal finds the entries seen at times 2, 3 and 1,
    in this order. *)
Lemma Poll_prune_loses_newest_witness :
  IterationOf (RecentSequence [2; 3; 1]) (RecentAt [1; 2; 3])
  ∧ Poll_prune SampleTunables (RecentSequence [2; 3; 1]) (RecentAt [1; 2; 3]) = ∅.
Proof.
  assert (IterationOf (RecentSequence [2; 3; 1]) (RecentAt [1; 2; 3])) as Hit.
  { apply IterationOf_RecentSequence; [|solve_Permutation].
    apply (bool_decide_unpack _). vm_compute. exact I. }
  split; [exact Hit|].
  destruct (Poll_prune_loses_newest (RecentSequence [2; 3; 1]))
    as (_ & Hthree & _).
  by destruct (Hthree Hit) as (Hwipe & _).
Defined.

End PruneAtFailingInputs.

(** * Overrun accounting *)

Section OverrunFacts.

Import OutputWorker.

Variable K : Tunables.
Variable GetTimestamp : LogTime → string.

(** A run of [Write] calls that are all classified as passed: the queue
    takes records up to the limit, the others are counted as lost. *)
Lemma WriteAll_passed (calls : list WriteCall) (w : t) :
  Forall (λ r, r = RepeatedMessageManager.Passed)
    (HandleMessages K (OccurrenceOf <$> calls) (RepeatedMessageManagerInstance w)).1 →
  let accepted :=
    (Z.to_nat (WorkQueueLimit K - WorkQueueSize w) `min` length calls)%nat in
  let w1 := WriteAll K GetTimestamp calls w in
  WorkQueue w1 = WorkQueue w ++ (RecordOf <$> take accepted calls)
  ∧ WorkQueueSize w1 = WorkQueueSize w + Z.of_nat accepted
  ∧ WorkQueueOverrun w1 = WorkQueueOverrun w + Z.of_nat (length calls - accepted)
  ∧ RepeatedMessageManagerInstance w1
    = (HandleMessages K (OccurrenceOf <$> calls) (RepeatedMessageManagerInstance w)).2.
Proof.
  revert w. induction calls as [|c calls IH]; intros w Hall; simpl.
  - rewrite Nat.min_0_r. simpl. rewrite app_nil_r. repeat split; lia.
  - simpl in Hall. apply Forall_cons in Hall as [Hc Hall].
    pose proof (Write_frame K GetTimestamp (wc_subsystem c) (wc_level c)
                  (wc_text c) (wc_relogged c) Default (wc_now c) w) as (Hm & _).
    set (w' := Write K GetTimestamp _ _ _ _ _ _ w) in *.
    unfold WriteAll in *. simpl. fold w'.
    rewrite <- Hm in Hall. destruct (IH w' Hall) as (Hq & Hs & Ho & Hmgr).
    rewrite Hq, Hs, Ho, Hmgr, Hm. clear Hq Hs Ho Hmgr IH.
    destruct (decide (WorkQueueLimit K ≤ WorkQueueSize w)) as [Hfull|Hroom].
    + destruct (Write_dropped K GetTimestamp (wc_subsystem c) (wc_level c)
                  (wc_text c) (wc_relogged c) (wc_now c) w Hc Hfull)
        as (Hq & Hs & Ho).
      fold w' in Hq, Hs, Ho. rewrite Hq, Hs, Ho.
      assert (Z.to_nat (WorkQueueLimit K - WorkQueueSize w) = 0%nat) as -> by lia.
      simpl. repeat split; lia.
    + destruct (Write_enqueued K GetTimestamp (wc_subsystem c) (wc_level c)
                  (wc_text c) (wc_relogged c) Default (wc_now c) w Hc)
        as (Hq & Hs & Ho); [right; lia|].
      fold w' in Hq, Hs, Ho. rewrite Hq, Hs, Ho.
      assert ((Z.to_nat (WorkQueueLimit K - WorkQueueSize w) `min` S (length calls))%nat
              = S (Z.to_nat (WorkQueueLimit K - (WorkQueueSize w + 1))
                     `min` length calls)%nat) as -> by lia.
      simpl. rewrite <- app_assoc. repeat split; simpl; lia.
Qed.

(** What the drain does with the queue and the overrun counter. *)
Lemma ProcessQueuedMessages_drain (now : LogTime)
    (iteration : list (Z * RepeatedMessageManager.RecentMessage)) (w : t) :
  let r := ProcessQueuedMessages K GetTimestamp now iteration w in
  let summaries :=
    SummaryRecord now
    <$> (RepeatedMessageManager.Poll_locked K
           (RepeatedMessageManager.LogTimeToMillisecondTime now) iteration
           (RepeatedMessageManagerInstance w)).2 in
  WorkQueue r.1.1 = [] ∧ WorkQueueSize r.1.1 = 0 ∧ WorkQueueOverrun r.1.1 = 0
  ∧ r.1.2 = Batch now (WorkQueue w ++ summaries) (WorkQueueOverrun w)
  ∧ r.2 = r.1.2 ≫= Dispatch GetTimestamp (Plugins w).
Proof.
  simpl. unfold ProcessQueuedMessages. simpl.
  destruct (Poll_effect K GetTimestamp now iteration w) as (-> & _ & -> & _ & -> & _).
  done.
Qed.

(** C4, as amended. A worker with an empty queue and a zero overrun counter
    receives [limit + m] calls of [Write] with the default option, none of
    which the manager classifies as aggregated. Then the first [limit]
    records are enqueued, in order, the other [m] calls enqueue nothing and
    the overrun counter is [m]. The next drain empties the queue and resets
    both counters; when [limit >= 1] and [m >= 1] its batch is one
    Error-level record of subsystem "Logging" reporting [m], followed by the
    [limit] records and the summaries that [Poll] added; when [m = 0] no such
    record is inserted. *)
Theorem overrun_accounting (calls : list WriteCall) (w : t) (m : nat) :
  WorkQueue w = [] →
  WorkQueueSize w = 0 →
  WorkQueueOverrun w = 0 →
  0 ≤ WorkQueueLimit K →
  length calls = (Z.to_nat (WorkQueueLimit K) + m)%nat →
  Forall (λ r, r = RepeatedMessageManager.Passed)
    (HandleMessages K (OccurrenceOf <$> calls) (RepeatedMessageManagerInstance w)).1 →
  let w1 := WriteAll K GetTimestamp calls w in
  WorkQueue w1 = RecordOf <$> take (Z.to_nat (WorkQueueLimit K)) calls
  ∧ WorkQueueSize w1 = WorkQueueLimit K
  ∧ WorkQueueOverrun w1 = Z.of_nat m
  ∧ ∀ now iteration,
      let r := ProcessQueuedMessages K GetTimestamp now iteration w1 in
      let summaries :=
        SummaryRecord now
        <$> (RepeatedMessageManager.Poll_locked K
               (RepeatedMessageManager.LogTimeToMillisecondTime now) iteration
               (RepeatedMessageManagerInstance w1)).2 in
      WorkQueue r.1.1 = [] ∧ WorkQueueSize r.1.1 = 0 ∧ WorkQueueOverrun r.1.1 = 0
      ∧ (0 < WorkQueueLimit K → (0 < m)%nat →
         r.1.2
         = LostRecord (Z.of_nat m) now
           :: (RecordOf <$> take (Z.to_nat (WorkQueueLimit K)) calls) ++ summaries
         ∧ MessageLogLevel (LostRecord (Z.of_nat m) now) = Error
         ∧ Buffer (LostRecord (Z.of_nat m) now)
           = "Lost " +:+ pretty (Z.of_nat m)
             +:+ " log messages due to queue overrun; try to reduce the amount of logging")
      ∧ (m = 0%nat → r.1.2 = (RecordOf <$> calls) ++ summaries).
Proof.
  intros Hq0 Hs0 Ho0 Hlim Hlen Hall.
  destruct (WriteAll_passed calls w Hall) as (Hq & Hs & Ho & _).
  rewrite Hq0, Hs0, Ho0, Hlen, Z.sub_0_r in *.
  assert ((Z.to_nat (WorkQueueLimit K) `min` (Z.to_nat (WorkQueueLimit K) + m))%nat
          = Z.to_nat (WorkQueueLimit K)) as Hmin by lia.
  rewrite Hmin in *. simpl in Hq.
  assert ((Z.to_nat (WorkQueueLimit K) + m - Z.to_nat (WorkQueueLimit K))%nat = m)
    as Hm by lia.
  rewrite Hm in Ho. cbv zeta.
  split; [exact Hq|]. split; [lia|]. split; [lia|].
  intros now iteration.
  destruct (ProcessQueuedMessages_drain now iteration (WriteAll K GetTimestamp calls w))
    as (H1 & H2 & H3 & H4 & _).
  rewrite H1, H2, H3, H4, Hq, Ho. clear H1 H2 H3 H4. repeat split.
  - unfold Batch.
    destruct (take (Z.to_nat (WorkQueueLimit K)) calls) as [|c cs] eqn:Htake.
    + exfalso. apply (f_equal length) in Htake. rewrite length_take in Htake.
      simpl in Htake. lia.
    + simpl. by rewrite bool_decide_eq_true_2 by lia.
  - intros ->. rewrite take_ge by lia. unfold Batch.
    by destruct ((RecordOf <$> calls) ++ _).
Qed.

End OverrunFacts.

(** * Concrete runs *)

Section ConcreteRuns.

Import RepeatedMessageManager.

(** The prefix of a summary, on a sample count. *)
Example AggregatePrefix_5 : AggregatePrefix 5 = "[Aggregated 5 times] ".
Proof. vm_compute; reflexivity. Qed.

(** The hash is FNV-1 over the first [messagePrefixLength] characters. *)
Example GetHash_sample : SampleHash = 2080397546.
Proof. vm_compute; reflexivity. Qed.

(** The sample states are reached from the constructors. *)
Example SampleManager_reached :
  (HandleMessages SampleTunables [SampleOccurrence 0; SampleOccurrence 10] init).2
  = SampleManager (SampleEntry 10 0 0).
Proof. vm_compute; reflexivity. Qed.

Example SampleWorker_reached :
  OutputWorker.Start true (OutputWorker.init false) = SampleWorker.
Proof. reflexivity. Qed.

Example GetHash_prefix_only :
  GetHash SampleTunables "0123456789abcdef, first"
  = GetHash SampleTunables "0123456789abcdef, second".
Proof. vm_compute; reflexivity. Qed.

(** Witness of C1: an entry promoted at time 10, then three occurrences at
    times 20, 30 and 40 ([printedRepeatCount = 1], [k = 2]), and [Poll] at
    time 5000, after the window. *)
Lemma aggregation_lifecycle_witness :
  RepeatedMessageMap (SampleManager (SampleEntry 10 0 0)) !! SampleHash
  = Some (SampleEntry 10 0 0)
  ∧ (HandleMessages SampleTunables
       [SampleOccurrence 20; SampleOccurrence 30; SampleOccurrence 40]
       (SampleManager (SampleEntry 10 0 0))).1
    = [Passed; Aggregated; Aggregated]
  ∧ ∃ e',
      RepeatedMessageMap
        (HandleMessages SampleTunables
           [SampleOccurrence 20; SampleOccurrence 30; SampleOccurrence 40]
           (SampleManager (SampleEntry 10 0 0))).2 !! SampleHash = Some e'
      ∧ printedCount e' = 1 ∧ aggregatedCount e' = 2 ∧ lastTimeMs e' = 40
      ∧ OutputWorker.Buffer (SummaryRecord (at_ms 5000) e')
        = "[Aggregated 2 times] sensor timeout"
      ∧ OutputWorker.WorkQueue
          (OutputWorker.Poll SampleTunables SampleTimestamp (at_ms 5000) []
             (SampleWorkerWith
                (HandleMessages SampleTunables
                   [SampleOccurrence 20; SampleOccurrence 30; SampleOccurrence 40]
                   (SampleManager (SampleEntry 10 0 0))).2))
        = [SummaryRecord (at_ms 5000) e']
      ∧ RepeatedMessageMap
          (OutputWorker.RepeatedMessageManagerInstance
             (OutputWorker.Poll SampleTunables SampleTimestamp (at_ms 5000) []
                (SampleWorkerWith
                   (HandleMessages SampleTunables
                      [SampleOccurrence 20; SampleOccurrence 30; SampleOccurrence 40]
                      (SampleManager (SampleEntry 10 0 0))).2)))
          !! SampleHash = None.
Proof.
  split; [vm_compute; reflexivity|].
  destruct (aggregation_lifecycle SampleTunables SampleTimestamp
              (SampleManager (SampleEntry 10 0 0)) SampleHash (SampleEntry 10 0 0)
              [SampleOccurrence 20; SampleOccurrence 30; SampleOccurrence 40])
    as (_ & Hclaim & e' & Hl & Hp & Ha & Ht & Hpoll).
  - vm_compute; reflexivity.
  - apply not_elem_of_empty.
  - repeat first [apply Forall_nil_2 | apply Forall_cons_2];
      (split; [vm_compute; reflexivity | apply not_elem_of_empty]).
  - vm_compute; reflexivity.
  - repeat split; vm_compute; reflexivity.
  - split.
    { apply (Hclaim 2%nat); [reflexivity | vm_compute; discriminate | reflexivity]. }
    assert (aggregatedCount e' = 2) as Ha2 by (rewrite Ha; vm_compute; reflexivity).
    assert (lastTimeMs e' = 40) as Ht2 by (rewrite Ht; vm_compute; reflexivity).
    destruct (Hpoll (at_ms 5000) []
                (SampleWorkerWith
                   (HandleMessages SampleTunables
                      [SampleOccurrence 20; SampleOccurrence 30; SampleOccurrence 40]
                      (SampleManager (SampleEntry 10 0 0))).2) eq_refl)
      as (Hexpired & _).
    destruct Hexpired as ((msgs & Hq & Hperm) & Hbuf & Hgone).
    { rewrite Ht2. vm_compute; reflexivity. }
    { rewrite Ha2. discriminate. }
    exists e'. split; [exact Hl|].
    split; [rewrite Hp; vm_compute; reflexivity|].
    split; [exact Ha2|]. split; [exact Ht2|].
    split.
    { rewrite Hbuf, Ha2.
      assert (stream e' = "sensor timeout") as ->; [|vm_compute; reflexivity].
      assert (RepeatedMessageMap
                (HandleMessages SampleTunables
                   [SampleOccurrence 20; SampleOccurrence 30; SampleOccurrence 40]
                   (SampleManager (SampleEntry 10 0 0))).2 !! SampleHash
              = Some (SampleEntry 40 2 1)) as Hl' by (vm_compute; reflexivity).
      rewrite Hl in Hl'. by injection Hl' as ->. }
    split; [|exact Hgone].
    rewrite Hq.
    assert (PollRest SampleTunables (at_ms 5000) [] SampleHash
              (SampleWorkerWith
                 (HandleMessages SampleTunables
                    [SampleOccurrence 20; SampleOccurrence 30; SampleOccurrence 40]
                    (SampleManager (SampleEntry 10 0 0))).2) = []) as Hrest
      by (vm_compute; reflexivity).
    rewrite Hrest in Hperm. apply Permutation_singleton_r in Hperm. by rewrite Hperm.
Defined.

(** Counterexample to C1 as stated. The manager is the one the occurrences at
    times 0, 10 and 20 leave: the hash is an active entry that has printed
    one occurrence already. With [printedRepeatCount = 1] the three
    occurrences at times 30, 40 and 50 ([k = 2]), all inside the window, are
    all aggregated: none is passed. For the same entry and no further
    occurrence ([k = 0]), [Poll] after the window removes the entry and
    enqueues no summary. And once the prefix of an active entry is made
    exempt, or while the manager is re-emitting a summary, two occurrences
    inside the window ([k = 1]) are both passed. *)
Lemma aggregation_lifecycle_counterexample :
  (HandleMessages SampleTunables
     [SampleOccurrence 0; SampleOccurrence 10; SampleOccurrence 20] init).2
  = SampleManager (SampleEntry 20 0 1)
  ∧ RepeatedMessageMap (SampleManager (SampleEntry 20 0 1)) !! SampleHash
    = Some (SampleEntry 20 0 1)
  ∧ length [SampleOccurrence 30; SampleOccurrence 40; SampleOccurrence 50]
    = (Z.to_nat (printedRepeatCount SampleTunables) + 2)%nat
  ∧ WithinWindow SampleTunables 20 [30; 40; 50]
  ∧ (HandleMessages SampleTunables
       [SampleOccurrence 30; SampleOccurrence 40; SampleOccurrence 50]
       (SampleManager (SampleEntry 20 0 1))).1
    = [Aggregated; Aggregated; Aggregated]
  ∧ (HandleMessages SampleTunables
       [SampleOccurrence 30; SampleOccurrence 40; SampleOccurrence 50]
       (SampleManager (SampleEntry 20 0 1))).1
    ≠ replicate (Z.to_nat (printedRepeatCount SampleTunables)) Passed
      ++ replicate 2 Aggregated
  ∧ OutputWorker.WorkQueue
      (OutputWorker.Poll SampleTunables SampleTimestamp (at_ms 5000) []
         (SampleWorkerWith (SampleManager (SampleEntry 20 0 1)))) = []
  ∧ RepeatedMessageMap
      (OutputWorker.RepeatedMessageManagerInstance
         (OutputWorker.Poll SampleTunables SampleTimestamp (at_ms 5000) []
            (SampleWorkerWith (SampleManager (SampleEntry 20 0 1)))))
      !! SampleHash = None
  ∧ RepeatedMessageMap
      (AddRepeatedMessageException SampleTunables "sensor timeout"
         (SampleManager (SampleEntry 10 0 0))) !! SampleHash
    = Some (SampleEntry 10 0 0)
  ∧ (HandleMessages SampleTunables [SampleOccurrence 20; SampleOccurrence 30]
       (AddRepeatedMessageException SampleTunables "sensor timeout"
          (SampleManager (SampleEntry 10 0 0)))).1
    = [Passed; Passed]
  ∧ (HandleMessages SampleTunables [SampleOccurrence 20; SampleOccurrence 30]
       (set_BusyInWrite true (SampleManager (SampleEntry 10 0 0)))).1
    = [Passed; Passed].
Proof. vm_compute. repeat split. discriminate. Qed.

(** Witness of C5: the entry aggregated two occurrences, last seen at time
    40; [Poll] runs at time 5000, after the window of 1000 ms. *)
Lemma Poll_final_summary_witness :
  let w := SampleWorkerWith
             (SampleManager (SampleEntry 40 2 1)) in
  OutputWorker.Buffer (SummaryRecord (at_ms 5000) (SampleEntry 40 2 1))
  = "[Aggregated 2 times] sensor timeout"
  ∧ OutputWorker.WorkQueue (OutputWorker.Poll SampleTunables SampleTimestamp (at_ms 5000) [] w)
    = [SummaryRecord (at_ms 5000) (SampleEntry 40 2 1)]
  ∧ RepeatedMessageMap
      (OutputWorker.RepeatedMessageManagerInstance
         (OutputWorker.Poll SampleTunables SampleTimestamp (at_ms 5000) [] w))
      !! SampleHash = None.
Proof.
  cbv zeta.
  destruct (Poll_final_summary SampleTunables SampleTimestamp (at_ms 5000) []
              (SampleWorkerWith
                 (SampleManager (SampleEntry 40 2 1)))
              SampleHash (SampleEntry 40 2 1))
    as (_ & Hb & _ & _ & _ & Hgone).
  - vm_compute; reflexivity.
  - vm_compute; reflexivity.
  - discriminate.
  - split; [exact Hb|]. split; [vm_compute; reflexivity|exact Hgone].
Defined.

(** Witness of C4: limit 2, three calls with distinct texts ([m = 1]). *)
Lemma overrun_accounting_witness :
  OutputWorker.WorkQueue
    (WriteAll SampleTunables SampleTimestamp
       [SampleCall "alpha" 0; SampleCall "beta" 1; SampleCall "gamma" 2]
       SampleWorker)
  = [RecordOf (SampleCall "alpha" 0); RecordOf (SampleCall "beta" 1)]
  ∧ OutputWorker.WorkQueueOverrun
      (WriteAll SampleTunables SampleTimestamp
         [SampleCall "alpha" 0; SampleCall "beta" 1; SampleCall "gamma" 2]
         SampleWorker) = 1
  ∧ (OutputWorker.ProcessQueuedMessages SampleTunables SampleTimestamp (at_ms 3)
       (SampleIteration
          (WriteAll SampleTunables SampleTimestamp
             [SampleCall "alpha" 0; SampleCall "beta" 1; SampleCall "gamma" 2]
             SampleWorker))
       (WriteAll SampleTunables SampleTimestamp
          [SampleCall "alpha" 0; SampleCall "beta" 1; SampleCall "gamma" 2]
          SampleWorker)).1.2
    = [LostRecord 1 (at_ms 3); RecordOf (SampleCall "alpha" 0);
       RecordOf (SampleCall "beta" 1)].
Proof.
  destruct (overrun_accounting SampleTunables SampleTimestamp
              [SampleCall "alpha" 0; SampleCall "beta" 1; SampleCall "gamma" 2]
              SampleWorker 1) as (Hq & _ & Ho & Hdrain).
  - reflexivity.
  - reflexivity.
  - reflexivity.
  - vm_compute; discriminate.
  - vm_compute; reflexivity.
  - vm_compute. repeat constructor.
  - split; [exact Hq|]. split; [exact Ho|].
    destruct (Hdrain (at_ms 3)
                (SampleIteration
                   (WriteAll SampleTunables SampleTimestamp
                      [SampleCall "alpha" 0; SampleCall "beta" 1;
                       SampleCall "gamma" 2] SampleWorker)))
      as (_ & _ & _ & Hlost & _).
    destruct Hlost as (Hbatch & _); [vm_compute; reflexivity | lia |].
    rewrite Hbatch. vm_compute; reflexivity.
Defined.

(** Counterexample to C4 as stated: limit 2 and four calls ([m = 2]) with the
    same text. The manager aggregates the fourth call, so only one call is
    counted as lost, and the drain reports 1. *)
Lemma overrun_accounting_counterexample :
  length [SampleCall "same" 0; SampleCall "same" 1; SampleCall "same" 2;
          SampleCall "same" 3]
  = (Z.to_nat (WorkQueueLimit SampleTunables) + 2)%nat
  ∧ (HandleMessages SampleTunables
       (OccurrenceOf
        <$> [SampleCall "same" 0; SampleCall "same" 1; SampleCall "same" 2;
             SampleCall "same" 3])
       (OutputWorker.RepeatedMessageManagerInstance SampleWorker)).1
    = [Passed; Passed; Passed; Aggregated]
  ∧ OutputWorker.WorkQueue
      (WriteAll SampleTunables SampleTimestamp
         [SampleCall "same" 0; SampleCall "same" 1; SampleCall "same" 2;
          SampleCall "same" 3] SampleWorker)
    = [RecordOf (SampleCall "same" 0); RecordOf (SampleCall "same" 1)]
  ∧ OutputWorker.WorkQueueOverrun
      (WriteAll SampleTunables SampleTimestamp
         [SampleCall "same" 0; SampleCall "same" 1; SampleCall "same" 2;
          SampleCall "same" 3] SampleWorker) = 1
  ∧ OutputWorker.WorkQueueOverrun
      (WriteAll SampleTunables SampleTimestamp
         [SampleCall "same" 0; SampleCall "same" 1; SampleCall "same" 2;
          SampleCall "same" 3] SampleWorker) ≠ 2
  ∧ (OutputWorker.ProcessQueuedMessages SampleTunables SampleTimestamp (at_ms 4) []
       (WriteAll SampleTunables SampleTimestamp
          [SampleCall "same" 0; SampleCall "same" 1; SampleCall "same" 2;
           SampleCall "same" 3] SampleWorker)).1.2
    = [LostRecord 1 (at_ms 4); RecordOf (SampleCall "same" 0);
       RecordOf (SampleCall "same" 1)].
Proof. vm_compute. repeat split. discriminate. Qed.


(** Witness of C7: a worker that was never started, and a worker after
    [Stop]. *)
Lemma Flush_while_stopped_witness :
  (OutputWorker.Flush 7 (at_ms 0) (OutputWorker.init false)).2
  = OutputWorker.FlushReturned
  ∧ OutputWorker.WorkQueue (OutputWorker.Flush 7 (at_ms 0) (OutputWorker.init false)).1
    = []
  ∧ OutputWorker.LoggingThread
      (OutputWorker.Stop SampleTunables SampleTimestamp (at_ms 5) [] SampleWorker).1.1
    = false
  ∧ (OutputWorker.Flush 7 (at_ms 6)
       (OutputWorker.Stop SampleTunables SampleTimestamp (at_ms 5) [] SampleWorker).1.1).2
    = OutputWorker.FlushReturned.
Proof.
  destruct (Flush_while_stopped 7 (at_ms 0) (OutputWorker.init false) eq_refl)
    as (H1 & _ & H2 & _).
  assert (OutputWorker.LoggingThread
            (OutputWorker.Stop SampleTunables SampleTimestamp (at_ms 5) []
               SampleWorker).1.1 = false) as Hstopped by (vm_compute; reflexivity).
  destruct (Flush_while_stopped 7 (at_ms 6) _ Hstopped) as (H3 & _).
  repeat split; assumption.
Defined.

(** Witness of C8: the registry holds the sink 200 ("DbgView"); the sinks 1,
    2 and 3, all named "Console", are added. *)
Lemma AddPlugin_idempotent_registration_witness :
  SinksNamed SampleNames "Console"
    (AddPlugins SampleNames [1; 2; 3]
       (OutputWorker.AddPlugin SampleNames (Some 200) SampleWorker)) = [3]
  ∧ OutputWorker.Plugins
      (AddPlugins SampleNames [1; 2; 3]
         (OutputWorker.AddPlugin SampleNames (Some 200) SampleWorker)) = [3; 200].
Proof.
  destruct (AddPlugin_idempotent_registration SampleNames [1; 2] 3
              (OutputWorker.AddPlugin SampleNames (Some 200) SampleWorker))
    as (Hone & _).
  - unfold UniqueNames. vm_compute. apply NoDup_singleton.
  - repeat first [apply Forall_nil_2 | apply Forall_cons_2]; vm_compute; reflexivity.
  - split; [exact Hone|]. vm_compute; reflexivity.
Defined.

(** Witness of C10: a running worker whose queue holds as many records as
    the limit allows. *)
Lemma Flush_ignores_queue_limit_witness :
  WorkQueueLimit SampleTunables
  ≤ OutputWorker.WorkQueueSize
      (WriteAll SampleTunables SampleTimestamp
         [SampleCall "alpha" 0; SampleCall "beta" 1] SampleWorker)
  ∧ OutputWorker.WorkQueue
      (OutputWorker.Flush 7 (at_ms 9)
         (WriteAll SampleTunables SampleTimestamp
            [SampleCall "alpha" 0; SampleCall "beta" 1] SampleWorker)).1
    = [RecordOf (SampleCall "alpha" 0); RecordOf (SampleCall "beta" 1);
       FlushSentinel 7 (at_ms 9)]
  ∧ OutputWorker.WorkQueueOverrun
      (OutputWorker.Flush 7 (at_ms 9)
         (WriteAll SampleTunables SampleTimestamp
            [SampleCall "alpha" 0; SampleCall "beta" 1] SampleWorker)).1
    = 0.
Proof.
  destruct (Flush_ignores_queue_limit 7 (at_ms 9)
              (WriteAll SampleTunables SampleTimestamp
                 [SampleCall "alpha" 0; SampleCall "beta" 1] SampleWorker))
    as (Hq & _ & _ & Ho & _).
  - vm_compute; reflexivity.
  - split; [vm_compute; discriminate|].
    split; [rewrite Hq | rewrite Ho]; vm_compute; reflexivity.
Defined.

End ConcreteRuns.

(** * Hashing and time *)

Section HashFacts.

Import RepeatedMessageManager.

Lemma GetHash_round_FNV (hash : Z) (c : Ascii.ascii) :
  GetHash_round hash c
  = Z.lxor ((hash * 16777619) mod 2 ^ 32) (Z.of_N (Ascii.N_of_ascii c)).
Proof.
  unfold GetHash_round, wrap32. f_equal.
  rewrite !Z.shiftl_mul_pow2 by lia.
  rewrite Zplus_mod_idemp_r.
  set (M := 2 ^ 32).
  rewrite <- (Z_mod_plus_full (hash * 16777619)
                (- ((hash * 2 ^ 1) / M + (hash * 2 ^ 4) / M + (hash * 2 ^ 7) / M
                    + (hash * 2 ^ 8) / M + (hash * 2 ^ 24) / M)) M).
  f_equal. rewrite !(Z.mod_eq _ M) by (subst M; lia). lia.
Qed.

Lemma lxor_byte_range (a b : Z) :
  0 ≤ a < 2 ^ 32 → 0 ≤ b < 256 → 0 ≤ Z.lxor a b < 2 ^ 32.
Proof.
  intros Ha Hb.
  assert (0 ≤ Z.lxor a b) as Hnn by (apply Z.lxor_nonneg; lia).
  split; [done|].
  destruct (decide (Z.lxor a b = 0)) as [->|Hne]; [lia|].
  apply Z.log2_lt_pow2; [lia|].
  pose proof (Z.log2_lxor a b ltac:(lia) ltac:(lia)) as Hl.
  assert (Z.log2 a < 32) as Hla.
  { destruct (decide (a = 0)) as [->|?]; [vm_compute; reflexivity|].
    apply Z.log2_lt_pow2; lia. }
  assert (Z.log2 b < 32) as Hlb.
  { destruct (decide (b = 0)) as [->|?]; [vm_compute; reflexivity|].
    apply Z.log2_lt_pow2; lia. }
  lia.
Qed.

Lemma GetHash_loop_FNV (n : nat) (p : string) (hash : Z) :
  GetHash_loop n p hash
  = foldl (λ hash byte, Z.lxor ((hash * 16777619) mod 2 ^ 32) byte) hash
      (CStringBytes n p).
Proof.
  revert p hash. induction n as [|n IH]; intros [|c p] hash; simpl; try done.
  case_bool_decide; [done|]. simpl. by rewrite IH, GetHash_round_FNV.
Qed.

Lemma GetHash_loop_range (n : nat) (p : string) (hash : Z) :
  0 ≤ hash < 2 ^ 32 → 0 ≤ GetHash_loop n p hash < 2 ^ 32.
Proof.
  revert p hash. induction n as [|n IH]; intros [|c p] hash Hh; simpl; try done.
  case_bool_decide; [done|]. apply IH. rewrite GetHash_round_FNV.
  apply lxor_byte_range.
  - apply Z.mod_pos_bound. lia.
  - pose proof (Ascii.N_ascii_bounded c). lia.
Qed.

(** X3. The shift-and-add loop of [GetHash] is 32-bit FNV-1 over the bytes of
    the C string up to its terminator, at most [messagePrefixLength] of
    them, and the hash fits in 32 bits. *)
Theorem GetHash_is_FNV1 (K : Tunables) (p : string) :
  GetHash K p = FNV1 (CStringBytes (messagePrefixLength K) p)
  ∧ 0 ≤ GetHash K p < 2 ^ 32.
Proof.
  split; [apply GetHash_loop_FNV|]. apply GetHash_loop_range. lia.
Qed.

Lemma GetHash_loop_prefix (n : nat) (p q q' : string) (hash : Z) :
  (n ≤ String.length p)%nat →
  GetHash_loop n (p +:+ q) hash = GetHash_loop n (p +:+ q') hash.
Proof.
  revert p hash. induction n as [|n IH]; intros p hash Hlen.
  - by destruct (p +:+ q), (p +:+ q').
  - destruct p as [|c p]; simpl in Hlen; [lia|]. simpl.
    case_bool_decide; [done|]. apply IH. lia.
Qed.

(** X4. Two texts that share their first [messagePrefixLength] characters
    have the same hash, whatever follows: they fall into one repeat group. *)
Theorem GetHash_reads_prefix_only (K : Tunables) (p q q' : string) :
  (messagePrefixLength K ≤ String.length p)%nat →
  GetHash K (p +:+ q) = GetHash K (p +:+ q').
Proof. apply GetHash_loop_prefix. Qed.

(** X5. For two local times of one day or of consecutive days, the
    millisecond values are below 86400000 and
    [GetLogMillisecondTimeDifference] is the difference modulo one day: it
    is never negative and a roll-over at midnight is counted as one day. *)
Theorem time_difference_modulo_one_day (time1 time2 : LogTime) :
  ValidLogTime time1 →
  ValidLogTime time2 →
  0 ≤ LogTimeToMillisecondTime time1 < 86400000
  ∧ GetLogMillisecondTimeDifference (LogTimeToMillisecondTime time1)
      (LogTimeToMillisecondTime time2)
    = (LogTimeToMillisecondTime time2 - LogTimeToMillisecondTime time1)
      mod 86400000
  ∧ 0 ≤ GetLogMillisecondTimeDifference (LogTimeToMillisecondTime time1)
          (LogTimeToMillisecondTime time2) < 86400000.
Proof.
  unfold ValidLogTime, LogTimeToMillisecondTime, GetLogMillisecondTimeDifference.
  intros H1 H2. split; [lia|].
  case_bool_decide.
  - rewrite Z.mod_small by lia. lia.
  - split; [|lia]. apply (Zmod_unique _ _ (-1)); lia.
Qed.

End HashFacts.

(** * More on classification *)

Section ClassificationFacts.

Import RepeatedMessageManager.

Variable K : Tunables.
Variable GetTimestamp : LogTime → string.

(** X6. [HandleMessage] answers [Aggregated] in one situation only: the
    manager is not re-emitting a summary, neither hash is exempt, the prefix
    hash is an entry of the repeated-message map seen less than the window
    ago, and that entry has already printed [printedRepeatCount]
    occurrences. *)
Theorem HandleMessage_Aggregated_iff subsystem level text now (s : t) :
  (HandleMessage K subsystem level text now s).1 = Aggregated
  ↔ BusyInWrite s = false
    ∧ (GetHash K text ∉ RepeatedMessageExceptionSet s)
    ∧ (GetHash K subsystem ∉ RepeatedMessageSubsystemExceptionSet s)
    ∧ ∃ e,
        RepeatedMessageMap s !! GetHash K text = Some e
        ∧ GetLogMillisecondTimeDifference (lastTimeMs e) now
          < maxDeferrableDetectionTimeMs K
        ∧ printedRepeatCount K ≤ printedCount e.
Proof.
  unfold HandleMessage. split.
  - destruct (BusyInWrite s); [done|].
    case_bool_decide as He; [done|]. case_bool_decide as Hs; [done|].
    destruct (RepeatedMessageMap s !! GetHash K text) as [e|];
      [|by destruct (RecentMessageMap s !! GetHash K text)].
    case_bool_decide as Hw; [|done]. case_bool_decide as Hp; [done|].
    intros _. repeat split; try done. exists e. simpl in Hp. repeat split; [done|lia].
  - intros (-> & He & Hs & e & -> & Hw & Hp).
    rewrite (bool_decide_eq_false_2 _ He), (bool_decide_eq_false_2 _ Hs).
    rewrite (bool_decide_eq_true_2 _ Hw).
    by rewrite bool_decide_eq_false_2 by (simpl; lia).
Qed.

(** X7. [HandleMessage] reads and writes the two maps at the prefix hash of
    its text only: every other hash keeps what it had in both maps. *)
Theorem HandleMessage_other_hashes subsystem level text now (s : t) (h : Z) :
  h ≠ GetHash K text →
  RecentMessageMap (HandleMessage K subsystem level text now s).2 !! h
  = RecentMessageMap s !! h
  ∧ RepeatedMessageMap (HandleMessage K subsystem level text now s).2 !! h
    = RepeatedMessageMap s !! h.
Proof.
  intros Hne. unfold HandleMessage.
  repeat (case_match || case_bool_decide); simpl;
    rewrite ?lookup_insert_ne, ?lookup_delete_ne by done; done.
Qed.

Lemma HandleMessage_stale subsystem level text now (s : t) (e : RepeatedMessage) :
  RepeatedMessageMap s !! GetHash K text = Some e →
  maxDeferrableDetectionTimeMs K
  ≤ GetLogMillisecondTimeDifference (lastTimeMs e) now →
  HandleMessage K subsystem level text now s = (Passed, s).
Proof.
  intros Hin Hw. unfold HandleMessage. rewrite Hin.
  rewrite (bool_decide_eq_false_2 (_ < _)) by lia.
  by repeat (case_match || case_bool_decide).
Qed.

(** X8. An entry whose window has run out is not refreshed by
    [HandleMessage]: as long as [Poll] has not removed it, every occurrence
    of its hash that comes a window or more after the entry's last-seen time
    is passed and leaves the manager exactly as it was, however close the
    occurrences are to each other. *)
Theorem stale_entry_passes_everything (occs : list Occurrence) (s : t) (h : Z)
    (e : RepeatedMessage) :
  RepeatedMessageMap s !! h = Some e →
  Forall (λ o, GetHash K (occ_text o) = h
               ∧ maxDeferrableDetectionTimeMs K
                 ≤ GetLogMillisecondTimeDifference (lastTimeMs e) (occ_time o))
    occs →
  HandleMessages K occs s = (replicate (length occs) Passed, s).
Proof.
  intros Hin Hall. induction Hall as [|o occs [Hh Hw] _ IH]; [done|].
  simpl. subst h. rewrite (HandleMessage_stale _ _ _ _ s e Hin Hw). simpl.
  by rewrite IH.
Qed.

(** X9. A message the manager has never seen, then seen again any time
    later and repeated inside the window from then on: the first occurrence
    and the promoting one are passed whatever time lies between them, the
    next [printedRepeatCount] occurrences are passed as well, and all the
    others are aggregated. *)
Theorem lifecycle_from_first_sight (first second : Occurrence)
    (occs : list Occurrence) (s : t) (h : Z) :
  BusyInWrite s = false →
  h ∉ RepeatedMessageExceptionSet s →
  Forall (λ o, GetHash K (occ_text o) = h
               ∧ GetHash K (occ_subsystem o) ∉ RepeatedMessageSubsystemExceptionSet s)
    (first :: second :: occs) →
  RecentMessageMap s !! h = None →
  RepeatedMessageMap s !! h = None →
  WithinWindow K (occ_time second) (occ_time <$> occs) →
  0 ≤ printedRepeatCount K →
  (HandleMessages K (first :: second :: occs) s).1
  = replicate (2 + Z.to_nat (printedRepeatCount K) `min` length occs) Passed
    ++ replicate (length occs - Z.to_nat (printedRepeatCount K)) Aggregated.
Proof.
  intros Hb He Hall Hrec Hrep Hw HR.
  apply Forall_cons in Hall as [[Hh1 Hs1] Hall].
  apply Forall_cons in Hall as [[Hh2 Hs2] Hall].
  change (HandleMessages K (first :: second :: occs) s).1
    with ((HandleMessage K (occ_subsystem first) (occ_level first)
             (occ_text first) (occ_time first) s).1
          :: (HandleMessages K (second :: occs)
                (HandleMessage K (occ_subsystem first) (occ_level first)
                   (occ_text first) (occ_time first) s).2).1).
  assert (HandleMessage K (occ_subsystem first) (occ_level first)
            (occ_text first) (occ_time first) s
          = (Passed,
             set_RecentMessageMap
               (<[h := {| timeMs := occ_time first |}]> (RecentMessageMap s)) s))
    as ->.
  { unfold HandleMessage. rewrite Hb, Hh1.
    rewrite (bool_decide_eq_false_2 _ He), (bool_decide_eq_false_2 _ Hs1).
    by rewrite Hrep, Hrec. }
  set (s1 := set_RecentMessageMap _ s).
  change (HandleMessages K (second :: occs) (Passed, s1).2).1
    with ((HandleMessage K (occ_subsystem second) (occ_level second)
             (occ_text second) (occ_time second) s1).1
          :: (HandleMessages K occs
                (HandleMessage K (occ_subsystem second) (occ_level second)
                   (occ_text second) (occ_time second) s1).2).1).
  destruct (HandleMessage_promotes K (occ_subsystem second) (occ_level second)
              (occ_text second) (occ_time second) s1
              {| timeMs := occ_time first |})
    as (Hr2 & _ & Hrep2); try (by rewrite ?Hh2).
  { rewrite Hh2. subst s1. simpl. apply lookup_insert_eq. }
  rewrite Hr2.
  set (s2 := (HandleMessage K _ _ _ _ s1).2) in *.
  destruct (HandleMessage_frame K (occ_subsystem second) (occ_level second)
              (occ_text second) (occ_time second) s1) as (Hb2 & He2 & Hs2').
  fold s2 in Hb2, He2, Hs2'.
  assert (BusyInWrite s2 = false) as Hb2' by (by rewrite Hb2).
  assert (h ∉ RepeatedMessageExceptionSet s2) as He2' by (by rewrite He2).
  assert (Forall (λ o, GetHash K (occ_text o) = h
                       ∧ GetHash K (occ_subsystem o)
                         ∉ RepeatedMessageSubsystemExceptionSet s2) occs) as Hall2
    by (by rewrite Hs2').
  assert (RepeatedMessageMap s2 !! h
          = Some {| subsystemName := occ_subsystem second;
                    messageLogLevel := occ_level second;
                    stream := occ_text second;
                    initialTimeMs := occ_time second;
                    lastTimeMs := occ_time second;
                    aggregatedCount := 0; printedCount := 0 |}) as Hin2
    by (rewrite Hrep2, Hh2; apply lookup_insert_eq).
  destruct (HandleMessages_window K occs s2 h _ Hb2' He2' Hall2 Hin2 Hw)
    as (Hres & _).
  rewrite Hres. simpl printedCount. rewrite Z.sub_0_r.
  change (replicate (2 + Z.to_nat (printedRepeatCount K) `min` length occs) Passed)
    with (Passed :: Passed
          :: replicate (Z.to_nat (printedRepeatCount K) `min` length occs) Passed).
  simpl. do 3 f_equal. f_equal. lia.
Qed.

End ClassificationFacts.

(** * More on polling *)

Section PollFacts.

Import RepeatedMessageManager.

Variable K : Tunables.
Variable GetTimestamp : LogTime → string.

(** X10. Every summary that [Poll] collects during a drain is part of the
    batch of that drain, also when the work queue was at or over its limit:
    summaries are never dropped, and they are not counted as lost. *)
Theorem summaries_are_never_dropped (now : LogTime)
    (iteration : list (Z * RecentMessage)) (w : OutputWorker.t)
    (e : RepeatedMessage) :
  e ∈ (Poll_locked K (LogTimeToMillisecondTime now) iteration
         (OutputWorker.RepeatedMessageManagerInstance w)).2 →
  SummaryRecord now e
  ∈ (OutputWorker.ProcessQueuedMessages K GetTimestamp now iteration w).1.2
  ∧ OutputWorker.WorkQueueOverrun (OutputWorker.Poll K GetTimestamp now iteration w)
    = OutputWorker.WorkQueueOverrun w.
Proof.
  intros Hin.
  destruct (ProcessQueuedMessages_drain K GetTimestamp now iteration w)
    as (_ & _ & _ & -> & _).
  destruct (Poll_effect K GetTimestamp now iteration w) as (_ & _ & -> & _).
  split; [|done].
  assert (SummaryRecord now e
          ∈ OutputWorker.WorkQueue w
            ++ (SummaryRecord now
                <$> (Poll_locked K (LogTimeToMillisecondTime now) iteration
                       (OutputWorker.RepeatedMessageManagerInstance w)).2)) as Hq.
  { apply elem_of_app. right. by apply list_elem_of_fmap_2. }
  unfold OutputWorker.Batch.
  destruct (_ ++ _) as [|m q]; [done|].
  case_bool_decide; [by right|done].
Qed.

(** X11. A [Poll] that finds nothing due changes nothing: when the recent
    map is within twice its target capacity and every entry of the repeated
    map is inside its window with fewer aggregated occurrences than the cap,
    the queue, its counters and the manager's maps and sets stay as they
    are. *)
Theorem Poll_idle (now : LogTime)
    (iteration : list (Z * RecentMessage)) (w : OutputWorker.t) :
  (size (RecentMessageMap (OutputWorker.RepeatedMessageManagerInstance w))
   ≤ recentMessageCount K * 2)%nat →
  (∀ h e,
     RepeatedMessageMap (OutputWorker.RepeatedMessageManagerInstance w) !! h = Some e →
     GetLogMillisecondTimeDifference (lastTimeMs e) (LogTimeToMillisecondTime now)
     ≤ maxDeferrableDetectionTimeMs K
     ∧ aggregatedCount e < maxDeferredMessages K) →
  OutputWorker.WorkQueue (OutputWorker.Poll K GetTimestamp now iteration w)
  = OutputWorker.WorkQueue w
  ∧ OutputWorker.WorkQueueSize (OutputWorker.Poll K GetTimestamp now iteration w)
    = OutputWorker.WorkQueueSize w
  ∧ ManagerData
      (OutputWorker.RepeatedMessageManagerInstance
         (OutputWorker.Poll K GetTimestamp now iteration w))
    = ManagerData (OutputWorker.RepeatedMessageManagerInstance w).
Proof.
  intros Hsmall Hidle.
  destruct (Poll_effect K GetTimestamp now iteration w) as (-> & -> & _ & -> & _).
  set (s := OutputWorker.RepeatedMessageManagerInstance w) in *.
  assert ((Poll_locked K (LogTimeToMillisecondTime now) iteration s).2 = []) as ->.
  { rewrite Poll_locked_messages.
    assert (∀ l : list (Z * RepeatedMessage),
              (∀ kv, kv ∈ l → RepeatedMessageMap s !! kv.1 = Some kv.2) →
              omap (λ kv, Poll_emit K (LogTimeToMillisecondTime now) kv.2) l = [])
      as Hnone.
    { induction l as [|kv l IH]; intros Hl; [done|]. simpl.
      destruct (Hidle kv.1 kv.2) as [Hw Hc]; [apply Hl; by left|].
      unfold Poll_emit at 1.
      rewrite !bool_decide_eq_false_2 by lia.
      apply IH. intros kv' Hkv'. apply Hl. by right. }
    apply Hnone. intros [h e] Hin. by apply elem_of_map_to_list. }
  split; [simpl; by rewrite app_nil_r|]. split; [simpl; lia|].
  unfold ManagerData.
  destruct (Poll_locked_frame K (LogTimeToMillisecondTime now) iteration s)
    as (_ & -> & -> & ->).
  rewrite Poll_prune_small by done.
  do 3 f_equal. apply map_eq. intros h. rewrite Poll_locked_lookup.
  destruct (RepeatedMessageMap s !! h) as [e|] eqn:Hl; [|done]. simpl.
  destruct (Hidle h e Hl) as [Hw Hc]. unfold Poll_keep.
  by rewrite !bool_decide_eq_false_2 by lia.
Qed.

(** X12. Which recent entries the pruning block erases does not depend on
    their age. Once the recent map holds more than twice
    [recentMessageCount] entries, the block erases the first
    [recentMessageCount * 3] entries that its traversal of the container
    finds, and nothing else: what is left is the rest of the traversal, so
    the size drops by [recentMessageCount * 3], or to zero. *)
Theorem Poll_prune_keeps_the_rest (iteration : list (Z * RecentMessage))
    (m : gmap Z RecentMessage) :
  IterationOf iteration m →
  (recentMessageCount K * 2 < size m)%nat →
  Poll_prune K iteration m
  = list_to_map (drop (recentMessageCount K * 3) iteration)
  ∧ size (Poll_prune K iteration m) = (size m - recentMessageCount K * 3)%nat.
Proof.
  intros Hit Hbig. split; [by apply Poll_prune_drop|by apply Poll_prune_size].
Qed.

(** X13. [RemoveRepeatedMessageException] takes the hash of its prefix out of
    the message-level exception set, whatever the set held, so it undoes
    [AddRepeatedMessageException]: for a prefix that was not exempt before,
    add followed by remove gives the manager back as it was. *)
Theorem RemoveRepeatedMessageException_undoes_add (messagePrefix : string) (s : t) :
  (GetHash K messagePrefix
   ∉ RepeatedMessageExceptionSet (RemoveRepeatedMessageException K messagePrefix s))
  ∧ (GetHash K messagePrefix ∉ RepeatedMessageExceptionSet s →
     RemoveRepeatedMessageException K messagePrefix
       (AddRepeatedMessageException K messagePrefix s) = s).
Proof.
  split.
  - unfold RemoveRepeatedMessageException. case_bool_decide as Hin; [|done].
    simpl. intros [_ Hn]%elem_of_difference. apply Hn. by apply elem_of_singleton.
  - intros Hnot.
    unfold RemoveRepeatedMessageException, AddRepeatedMessageException. simpl.
    rewrite bool_decide_eq_true_2
      by (apply elem_of_union_l; by apply elem_of_singleton).
    destruct s as [b rc rp ex sx]; unfold set_RepeatedMessageExceptionSet; simpl in *.
    f_equal. apply set_eq. intros x.
    rewrite elem_of_difference, elem_of_union, elem_of_singleton.
    split; [intros [[->|?] ?]; done|]. intros Hx. split; [by right|].
    intros ->. done.
Qed.

End PollFacts.

(** * More on the sink registry *)

Section RegistryFacts.

Import OutputWorker.

Variable GetUniquePluginName : PluginPtr → string.

(** Under [UniqueNames], [GetPlugin] finds the one sink of that name. *)
Lemma GetPlugin_Some (name : string) (q : PluginPtr) (w : t) :
  UniqueNames GetUniquePluginName w →
  GetPlugin GetUniquePluginName name w = Some q
  ↔ q ∈ Plugins w ∧ GetUniquePluginName q = name.
Proof.
  intros Hu. unfold GetPlugin. split.
  - destruct (list_find _ _) as [[i x]|] eqn:Hf; [|done]. simpl.
    intros [= <-]. apply list_find_Some in Hf as (Hi & Hx & _).
    split; [by eapply list_elem_of_lookup_2|done].
  - intros [Hq Hn].
    destruct (list_find_elem_of (λ r, GetUniquePluginName r = name) (Plugins w) q Hq Hn)
      as [[i x] Hf].
    rewrite Hf. simpl. f_equal.
    apply list_find_Some in Hf as (Hi & Hx & _).
    apply (NoDup_names_inj GetUniquePluginName (Plugins w)); try done.
    + by eapply list_elem_of_lookup_2.
    + congruence.
Qed.

Lemma option_ext {A} (x y : option A) :
  (∀ a, x = Some a ↔ y = Some a) → x = y.
Proof.
  intros H. destruct x as [a|], y as [b|]; try done.
  - by apply H.
  - symmetry. by apply (H a).
  - by apply (H b).
Qed.

Lemma elem_of_AddPlugin (p q : PluginPtr) (w : t) :
  UniqueNames GetUniquePluginName w →
  q ∈ Plugins (AddPlugin GetUniquePluginName (Some p) w)
  ↔ q = p ∨ (q ∈ Plugins w ∧ GetUniquePluginName q ≠ GetUniquePluginName p).
Proof.
  intros Hu. rewrite AddPlugin_Plugins by done.
  pose proof (filter_name_isnt_Forall GetUniquePluginName
                (GetUniquePluginName p) (Plugins w)) as Hf.
  destruct (set_insert_fresh GetUniquePluginName _ p _ eq_refl Hf) as (Hperm & _).
  rewrite Hperm, elem_of_cons, list_elem_of_filter. tauto.
Qed.

(** X14. In a registry without two sinks of one name, after [AddPlugin] of a
    sink [GetPlugin] returns that sink for its name, and for every other
    name it returns what it returned before. *)
Theorem GetPlugin_after_AddPlugin (p : PluginPtr) (w : t) :
  UniqueNames GetUniquePluginName w →
  GetPlugin GetUniquePluginName (GetUniquePluginName p)
    (AddPlugin GetUniquePluginName (Some p) w) = Some p
  ∧ ∀ name,
      name ≠ GetUniquePluginName p →
      GetPlugin GetUniquePluginName name (AddPlugin GetUniquePluginName (Some p) w)
      = GetPlugin GetUniquePluginName name w.
Proof.
  intros Hu.
  pose proof (AddPlugin_UniqueNames GetUniquePluginName p w Hu) as Hu'.
  split.
  - apply GetPlugin_Some; [done|]. split; [|done].
    apply elem_of_AddPlugin; [done|]. by left.
  - intros name Hne. apply option_ext. intros q.
    rewrite !GetPlugin_Some by done. rewrite elem_of_AddPlugin by done.
    split.
    + intros [[->|[Hq _]] Hn]; [done|]. done.
    + intros [Hq Hn]. split; [|done]. right. split; [done|congruence].
Qed.

(** X15. [RemovePlugin] goes by the unique name, not by the pointer: in a
    registry without two sinks of one name it leaves no sink of the name of
    its argument, whether or not the argument itself is registered, it keeps
    every sink of another name, and it changes nothing when no sink has that
    name. *)
Theorem RemovePlugin_by_name (q : PluginPtr) (w : t) :
  UniqueNames GetUniquePluginName w →
  GetPlugin GetUniquePluginName (GetUniquePluginName q)
    (RemovePlugin GetUniquePluginName (Some q) w) = None
  ∧ (∀ r, r ∈ Plugins (RemovePlugin GetUniquePluginName (Some q) w)
          ↔ r ∈ Plugins w ∧ GetUniquePluginName r ≠ GetUniquePluginName q)
  ∧ (GetPlugin GetUniquePluginName (GetUniquePluginName q) w = None →
     RemovePlugin GetUniquePluginName (Some q) w = w).
Proof.
  intros Hu.
  pose proof (RemovePlugin_UniqueNames GetUniquePluginName (Some q) w Hu) as Hu'.
  assert (∀ r, r ∈ Plugins (RemovePlugin GetUniquePluginName (Some q) w)
               ↔ r ∈ Plugins w ∧ GetUniquePluginName r ≠ GetUniquePluginName q)
    as Hmem.
  { intros r. rewrite RemovePlugin_Plugins by done.
    rewrite list_elem_of_filter. tauto. }
  split; [|split; [exact Hmem|]].
  - destruct (GetPlugin _ _ _) as [r|] eqn:Hg; [|done].
    apply GetPlugin_Some in Hg as [Hr Hn]; [|done].
    apply Hmem in Hr as [_ Hr]. done.
  - unfold GetPlugin, RemovePlugin.
    by destruct (list_find _ _) as [[i x]|].
Qed.

End RegistryFacts.

(** * Flush, stop and the dispatch loop *)

Section DispatchFacts.

Import OutputWorker.

Variable K : Tunables.
Variable GetTimestamp : LogTime → string.

Lemma Batch_nonempty (now : LogTime) (m : QueuedLogMessage)
    (q : list QueuedLogMessage) (lostCount : Z) :
  Batch now (m :: q) lostCount = LostPrefix lostCount now ++ m :: q.
Proof. unfold Batch, LostPrefix. by case_bool_decide. Qed.


(** X17. [Stop] loses nothing and dispatches nothing twice: after it the
    thread handle is cleared, the queue is empty and both counters are
    zero; every record that was queued is in the batch it dispatched; and
    the batch of a second [Stop] holds only the summaries its own [Poll]
    produces. *)
Theorem Stop_drains (now now' : LogTime)
    (iteration iteration' : list (Z * RepeatedMessageManager.RecentMessage)) (w : t) :
  LoggingThread (Stop K GetTimestamp now iteration w).1.1 = false
  ∧ WorkQueue (Stop K GetTimestamp now iteration w).1.1 = []
  ∧ WorkQueueSize (Stop K GetTimestamp now iteration w).1.1 = 0
  ∧ WorkQueueOverrun (Stop K GetTimestamp now iteration w).1.1 = 0
  ∧ (∀ m, m ∈ WorkQueue w → m ∈ (Stop K GetTimestamp now iteration w).1.2)
  ∧ (Stop K GetTimestamp now' iteration' (Stop K GetTimestamp now iteration w).1.1).1.2
    = PollSummaries K now' iteration' (Stop K GetTimestamp now iteration w).1.1.
Proof.
  set (w1 := if LoggingThread w then set_LoggingThread false w else w).
  assert (LoggingThread w1 = false ∧ WorkQueue w1 = WorkQueue w) as [Ht Hq]
    by (subst w1; by destruct (LoggingThread w) eqn:E).
  assert (Stop K GetTimestamp now iteration w = ProcessQueuedMessages K GetTimestamp now iteration w1)
    as -> by done.
  destruct (ProcessQueuedMessages_drain K GetTimestamp now iteration w1)
    as (Hq1 & Hs1 & Ho1 & Hb & _).
  set (w2 := (ProcessQueuedMessages K GetTimestamp now iteration w1).1.1) in *.
  assert (LoggingThread w2 = false) as Ht2.
  { subst w2. unfold ProcessQueuedMessages. simpl.
    by destruct (Poll_effect K GetTimestamp now iteration w1) as (_ & _ & _ & _ & _ & -> & _). }
  repeat split; try done.
  - intros m Hm. rewrite Hb, Hq.
    destruct (WorkQueue w) as [|m0 q]; [by apply elem_of_nil in Hm|].
    change ((m0 :: q) ++ ?l) with (m0 :: (q ++ l)).
    rewrite Batch_nonempty. apply elem_of_app. right.
    rewrite app_comm_cons. apply elem_of_app. by left.
  - unfold Stop. rewrite Ht2.
    destruct (ProcessQueuedMessages_drain K GetTimestamp now' iteration' w2) as (_ & _ & _ & -> & _).
    rewrite Hq1, Ho1. unfold PollSummaries.
    change ([] ++ ?l) with l.
    destruct (SummaryRecord now' <$> _) as [|m q]; [done|].
    by rewrite Batch_nonempty.
Qed.

Lemma length_append (a b : string) :
  String.length (a +:+ b) = (String.length a + String.length b)%nat.
Proof. induction a as [|c a IH]; simpl; [done|]. by rewrite IH. Qed.

Lemma WriteAdvanceStrCpy_room (buf : string * Z) (str : string) (n : Z) :
  Z.of_nat (String.length buf.1) + buf.2 = n → 1 ≤ buf.2 →
  Z.of_nat (String.length (WriteAdvanceStrCpy buf str).1)
  + (WriteAdvanceStrCpy buf str).2 = n
  ∧ 1 ≤ (WriteAdvanceStrCpy buf str).2.
Proof.
  intros Hn Hr. unfold WriteAdvanceStrCpy. case_bool_decide; simpl; [done|].
  rewrite length_append. lia.
Qed.

(** X18. [AppendHeader] never writes past its buffer: for a buffer of at
    least one byte, the text it writes is at least one byte shorter than the
    buffer, so the terminator fits, whatever the length of the subsystem
    name. *)
Theorem AppendHeader_fits (bufferBytes : Z) (level : Level) (subsystem : string) :
  1 ≤ bufferBytes →
  Z.of_nat (String.length (AppendHeader bufferBytes level subsystem)) + 1
  ≤ bufferBytes.
Proof.
  intros Hn. unfold AppendHeader.
  set (initial := match level with Disabled => _ | _ => _ end).
  destruct (WriteAdvanceStrCpy_room ("", bufferBytes) initial bufferBytes)
    as [H1 H1']; [simpl; lia|simpl; lia|].
  destruct (WriteAdvanceStrCpy_room _ subsystem bufferBytes H1 H1') as [H2 H2'].
  destruct (WriteAdvanceStrCpy_room _ "] " bufferBytes H2 H2') as [H3 H3'].
  lia.
Qed.

(** X19. With room for all of it, the header is the level name in braces,
    padded with spaces to a fixed width, and the subsystem name in brackets
    followed by a space. A part that does not fit is left out whole: when
    only the subsystem name is too long, the brackets are written without
    it. *)
Theorem AppendHeader_format (bufferBytes : Z) (level : Level) (subsystem : string) :
  (15 + Z.of_nat (String.length subsystem) ≤ bufferBytes →
   AppendHeader bufferBytes level subsystem
   = ((" {" +:+ LevelName level +:+ "}"
       +:+ Spaces (8 - String.length (LevelName level)) +:+ "[")
      +:+ subsystem) +:+ "] ")
  ∧ (15 ≤ bufferBytes < 13 + Z.of_nat (String.length subsystem) →
     AppendHeader bufferBytes level subsystem
     = (" {" +:+ LevelName level +:+ "}"
        +:+ Spaces (8 - String.length (LevelName level)) +:+ "[") +:+ "] ").
Proof.
  unfold AppendHeader, WriteAdvanceStrCpy. split; intros Hn.
  - destruct level; simpl;
      rewrite (bool_decide_eq_false_2 (bufferBytes < _)) by lia; simpl;
      rewrite (bool_decide_eq_false_2 (bufferBytes - 12 < _)) by lia; simpl;
      rewrite bool_decide_eq_false_2 by lia; done.
  - destruct level; simpl;
      rewrite (bool_decide_eq_false_2 (bufferBytes < _)) by lia; simpl;
      rewrite (bool_decide_eq_true_2 (bufferBytes - 12 < _)) by lia; simpl;
      rewrite bool_decide_eq_false_2 by lia; done.
Qed.

(** X20. Under a debugger, with a time stamp that formats, [Write] hands
    exactly one line to the debug stream for every first-time record that is
    not aggregated, also for a record it drops for lack of room in the
    queue; it hands over nothing for an aggregated record or a re-logged
    one. *)
Theorem Write_debugger_line subsystem level text relogged option now (w : t) :
  IsInDebugger w = true →
  GetTimestamp now ≠ "" →
  DebugStream (Write K GetTimestamp subsystem level text relogged option now w)
  = if bool_decide
         ((RepeatedMessageManager.HandleMessage K subsystem level text
             (RepeatedMessageManager.LogTimeToMillisecondTime now)
             (RepeatedMessageManagerInstance w)).1
          = RepeatedMessageManager.Passed)
       && negb relogged
    then DebugStream w ++ [DebugLine GetTimestamp subsystem level text now]
    else DebugStream w.
Proof.
  intros Hdbg Hts. unfold Write.
  destruct (RepeatedMessageManager.HandleMessage _ _ _ _ _ _) as [[] s'];
    simpl; [|done].
  assert (∀ w', IsInDebugger w' = true →
            DebugStream (FlushDbgViewLogImmediately GetTimestamp subsystem level
                           text now w')
            = DebugStream w' ++ [DebugLine GetTimestamp subsystem level text now])
    as Hline.
  { intros w' _. unfold FlushDbgViewLogImmediately.
    rewrite bool_decide_eq_false_2; [done|].
    destruct (GetTimestamp now); [done|simpl; lia]. }
  destruct relogged; simpl.
  - by repeat (case_match || case_bool_decide).
  - repeat (case_match || case_bool_decide); simpl in *;
      try congruence; by rewrite Hline.
Qed.

(** X21. [Write] signals the wake event only for the record that makes the
    queue non-empty: with a record already in the queue the event is left as
    it is, and a passed record that enters an empty queue sets it. *)
Theorem Write_wakes_on_first_record subsystem level text relogged option now (w : t) :
  (1 ≤ WorkQueueSize w →
   WorkerWakeEvent (Write K GetTimestamp subsystem level text relogged option now w)
   = WorkerWakeEvent w)
  ∧ ((RepeatedMessageManager.HandleMessage K subsystem level text
        (RepeatedMessageManager.LogTimeToMillisecondTime now)
        (RepeatedMessageManagerInstance w)).1 = RepeatedMessageManager.Passed →
     WorkQueueSize w = 0 →
     option = DangerouslyIgnoreQueueLimit ∨ 0 < WorkQueueLimit K →
     WorkerWakeEvent (Write K GetTimestamp subsystem level text relogged option now w)
     = true).
Proof.
  unfold Write, FlushDbgViewLogImmediately. split.
  - intros Hsize.
    repeat (case_match || case_bool_decide); simpl in *; try done; lia.
  - intros -> Hsize Hroom.
    assert (bool_decide (option ≠ DangerouslyIgnoreQueueLimit)
            && bool_decide (WorkQueueLimit K ≤ WorkQueueSize w) = false) as Hd.
    { destruct Hroom as [->|Hlim].
      - rewrite (bool_decide_eq_false_2 (DangerouslyIgnoreQueueLimit ≠ _));
          [done | intros Hne; by apply Hne].
      - rewrite (bool_decide_eq_false_2 (WorkQueueLimit K ≤ _)) by (simpl; lia).
        apply andb_false_r. }
    simpl in *. rewrite Hd. simpl. rewrite Hsize. simpl.
    by repeat (case_match || case_bool_decide).
Qed.

End DispatchFacts.

(** * More on the configurator *)

Section RestoreFacts.

Import Configurator.

Lemma restored_level_SetChannelNoLock name' name level overrideUser (c : t) :
  restored_level name' (SetChannelNoLock name level overrideUser c)
  = restored_level name' c.
Proof. done. Qed.

Lemma RestoreAll_fold (l : list ChannelNode) (c : t) :
  let c' :=
    foldl (λ c1 channelNode, RestoreChannelLogLevel (SubsystemName channelNode) c1)
      c l in
  GlobalMinimumLogLevel c' = GlobalMinimumLogLevel c
  ∧ Plugin c' = Plugin c
  ∧ ChannelNodeHead c'
    = (λ n,
         if negb (UserOverrodeMinimumOutputLevel n)
            && bool_decide (SubsystemName n ∈ SubsystemName <$> l)
         then set_Level (restored_level (SubsystemName n) c) n else n)
      <$> ChannelNodeHead c.
Proof.
  revert c. induction l as [|x l IH]; intros c; simpl.
  - repeat split. rewrite <- (list_fmap_id (ChannelNodeHead c)) at 1.
    apply list_fmap_ext. intros i n _. simpl.
    by rewrite andb_false_r.
  - destruct (IH (RestoreChannelLogLevel (SubsystemName x) c)) as (-> & -> & ->).
    repeat split. unfold RestoreChannelLogLevel at 2, SetChannelNoLock. simpl.
    rewrite <- list_fmap_compose. apply list_fmap_ext. intros i n _. simpl.
    destruct n as [nm lv fl]; simpl.
    change (restored_level nm (RestoreChannelLogLevel (SubsystemName x) c))
      with (restored_level nm c).
    destruct fl; simpl; [by rewrite ?andb_false_r|].
    rewrite !andb_true_r.
    destruct (decide (nm = SubsystemName x)) as [->|Hne].
    + rewrite !bool_decide_eq_true_2 by done. simpl.
      rewrite (bool_decide_eq_true_2 (_ ∈ _ :: _)) by by left.
      by case_bool_decide.
    + rewrite !(bool_decide_eq_false_2 (nm = _)) by done. simpl.
      case_bool_decide as Hin.
      * by rewrite (bool_decide_eq_true_2 (_ ∈ _ :: _)) by by right.
      * rewrite (bool_decide_eq_false_2 (_ ∈ _ :: _)); [done|].
        intros [?|?]%elem_of_cons; done.
Qed.

(** X22. [RestoreAllChannelLogLevelsNoLock] gives every channel whose owner
    has not overridden the level the level restored for its name (the
    plugin's answer, or the global level without a plugin), also when
    several channels share a name; overridden channels, the global level and
    the plugin are left alone. *)
Theorem RestoreAllChannelLogLevelsNoLock_nodes (c : t) :
  ChannelNodeHead (RestoreAllChannelLogLevelsNoLock c)
  = (λ n,
       if UserOverrodeMinimumOutputLevel n then n
       else set_Level (restored_level (SubsystemName n) c) n)
    <$> ChannelNodeHead c
  ∧ GlobalMinimumLogLevel (RestoreAllChannelLogLevelsNoLock c)
    = GlobalMinimumLogLevel c
  ∧ Plugin (RestoreAllChannelLogLevelsNoLock c) = Plugin c.
Proof.
  unfold RestoreAllChannelLogLevelsNoLock.
  destruct (RestoreAll_fold (ChannelNodeHead c) c) as (-> & -> & ->).
  repeat split. apply list_fmap_ext. intros i n Hi. simpl.
  rewrite bool_decide_eq_true_2.
  - by destruct (UserOverrodeMinimumOutputLevel n).
  - apply list_elem_of_fmap_2. by eapply list_elem_of_lookup_2.
Qed.

(** X23. [SetChannel] writes the level into every channel of that name,
    overridden or not, and leaves the override flags as they are; so the
    level it sets does not survive a restore: after
    [RestoreAllChannelLogLevelsNoLock] every channel without the override
    flag is back at the level restored for its name. *)
Theorem SetChannel_does_not_survive_restore (name : string) (level : Level) (c : t) :
  ChannelNodeHead (SetChannel name level c)
  = (λ n, if bool_decide (SubsystemName n = name) then set_Level level n else n)
    <$> ChannelNodeHead c
  ∧ Forall
      (λ n, UserOverrodeMinimumOutputLevel n = false →
            Level' n = restored_level (SubsystemName n) c)
      (ChannelNodeHead (RestoreAllChannelLogLevelsNoLock (SetChannel name level c))).
Proof.
  split.
  - unfold SetChannel, SetChannelNoLock. simpl. apply list_fmap_ext.
    intros i n _. simpl. by rewrite orb_true_r, andb_true_r.
  - destruct (RestoreAllChannelLogLevelsNoLock_nodes (SetChannel name level c))
      as (-> & _).
    apply Forall_fmap, Forall_forall. intros n Hn. simpl.
    destruct (UserOverrodeMinimumOutputLevel n) eqn:Hf; simpl; [by rewrite Hf|done].
Qed.

End RestoreFacts.

(** * The error silencer *)

Section SilencerFacts.

Import ErrorSilencer.

(** X24. A scope holding an [ErrorSilencer], with the [assert]s compiled in,
    runs to its end only when no silencer is active at its start and the
    body leaves the options non-zero; it then ends with the options cleared.
    A body that keeps the options passes exactly when they are non-zero, so
    a silencer built with options 0 trips the [assert] of its own
    destructor, and a silencer inside a silenced scope trips the one of its
    constructor. With the [assert]s compiled out every scope ends with the
    options cleared, an inner one too, which switches the outer silencer
    off. *)
Theorem ErrorSilencer_scope (Options : Z) (body : Z → option Z) (st : Z) :
  Scope false Options body st
  = (if bool_decide (st = 0)
     then match body Options with
          | Some st' => if bool_decide (st' = 0) then None else Some 0
          | None => None
          end
     else None)
  ∧ Scope false Options Some st
    = (if bool_decide (st = 0 ∧ Options ≠ 0) then Some 0 else None)
  ∧ Scope true Options body st
    = match body Options with Some _ => Some 0 | None => None end.
Proof.
  unfold Scope, Silence, Unsilence, GetSilenceOptions. simpl.
  repeat split.
  - destruct (decide (st = 0)) as [->|Hst].
    + done.
    + by rewrite bool_decide_eq_true_2, bool_decide_eq_false_2.
  - destruct (decide (st = 0)) as [->|Hst]; simpl.
    + destruct (decide (Options = 0)) as [->|Ho].
      * by rewrite (bool_decide_eq_false_2 (_ ∧ _)) by (by intros [_ ?]).
      * by rewrite (bool_decide_eq_false_2 (Options = 0)),
             (bool_decide_eq_true_2 (_ ∧ _)).
    + by rewrite bool_decide_eq_true_2, bool_decide_eq_false_2 by tauto.
Qed.

End SilencerFacts.

(** * After a flush at the cap; the fan-out of a drain *)

Section DrainFacts.

Import RepeatedMessageManager.

Variable K : Tunables.
Variable GetTimestamp : LogTime → string.

Lemma PrintDeferred_fold_busy now (msgs : list RepeatedMessage) (w : OutputWorker.t) :
  BusyInWrite (OutputWorker.RepeatedMessageManagerInstance w) = false →
  BusyInWrite
    (OutputWorker.RepeatedMessageManagerInstance
       (foldl (λ w1 e, PrintDeferred K GetTimestamp now e w1) w msgs)) = false.
Proof.
  revert w. induction msgs as [|e msgs IH]; intros w Hb; simpl; [done|].
  apply IH.
  destruct (PrintDeferred_effect K GetTimestamp now e w) as (_ & _ & _ & -> & _).
  done.
Qed.

Lemma Poll_not_busy now iteration (w : OutputWorker.t) :
  BusyInWrite (OutputWorker.RepeatedMessageManagerInstance w) = false →
  BusyInWrite
    (OutputWorker.RepeatedMessageManagerInstance
       (OutputWorker.Poll K GetTimestamp now iteration w)) = false.
Proof.
  intros Hb. unfold OutputWorker.Poll, RepeatedMessageManager.Poll.
  apply (PrintDeferred_fold_busy now). simpl. exact Hb.
Qed.

(** X25. After [Poll] has flushed an entry because it reached the cap, the
    entry goes on aggregating: its summary is in the queue, and the
    occurrences of its hash that follow inside the window are all
    aggregated, none is passed, since the flush has moved the aggregated
    count into the printed count. *)
Theorem aggregation_continues_after_cap_flush (now : LogTime)
    (iteration : list (Z * RecentMessage)) (w : OutputWorker.t)
    (h : Z) (e : RepeatedMessage) (occs : list Occurrence) :
  BusyInWrite (OutputWorker.RepeatedMessageManagerInstance w) = false →
  RepeatedMessageMap (OutputWorker.RepeatedMessageManagerInstance w) !! h = Some e →
  GetLogMillisecondTimeDifference (lastTimeMs e) (LogTimeToMillisecondTime now)
  ≤ maxDeferrableDetectionTimeMs K →
  maxDeferredMessages K ≤ aggregatedCount e →
  printedRepeatCount K ≤ printedCount e + aggregatedCount e →
  h ∉ RepeatedMessageExceptionSet (OutputWorker.RepeatedMessageManagerInstance w) →
  Forall (λ o, GetHash K (occ_text o) = h
               ∧ GetHash K (occ_subsystem o)
                 ∉ RepeatedMessageSubsystemExceptionSet
                     (OutputWorker.RepeatedMessageManagerInstance w))
    occs →
  WithinWindow K (lastTimeMs e) (occ_time <$> occs) →
  let w' := OutputWorker.Poll K GetTimestamp now iteration w in
  SummaryRecord now e ∈ OutputWorker.WorkQueue w'
  ∧ (HandleMessages K occs (OutputWorker.RepeatedMessageManagerInstance w')).1
    = replicate (length occs) Aggregated
  ∧ ∃ e',
      RepeatedMessageMap
        (HandleMessages K occs (OutputWorker.RepeatedMessageManagerInstance w')).2
        !! h = Some e'
      ∧ aggregatedCount e' = Z.of_nat (length occs)
      ∧ printedCount e' = printedCount e + aggregatedCount e.
Proof.
  intros Hb Hin Hwin Hcap Hprinted Hex Hall Hw. cbv zeta.
  destruct (Poll_entry K GetTimestamp now iteration w h e Hin) as ((msgs & Hq & Hperm) & Hkeep).
  destruct (Poll_effect K GetTimestamp now iteration w) as (_ & _ & _ & Hd & _).
  unfold ManagerData in Hd.
  assert (RepeatedMessageExceptionSet
            (OutputWorker.RepeatedMessageManagerInstance
               (OutputWorker.Poll K GetTimestamp now iteration w))
          = RepeatedMessageExceptionSet
              (OutputWorker.RepeatedMessageManagerInstance w)) as Hes
    by (simpl in Hd; congruence).
  assert (RepeatedMessageSubsystemExceptionSet
            (OutputWorker.RepeatedMessageManagerInstance
               (OutputWorker.Poll K GetTimestamp now iteration w))
          = RepeatedMessageSubsystemExceptionSet
              (OutputWorker.RepeatedMessageManagerInstance w)) as Hss
    by (simpl in Hd; congruence).
  unfold Poll_emit in Hperm. unfold Poll_keep in Hkeep.
  rewrite (bool_decide_eq_false_2 (maxDeferrableDetectionTimeMs K < _)) in Hperm, Hkeep
    by lia.
  rewrite (bool_decide_eq_true_2 (maxDeferredMessages K ≤ _)) in Hperm, Hkeep by done.
  split.
  - rewrite Hq. apply elem_of_app. right. apply list_elem_of_fmap_2.
    rewrite Hperm. simpl. by left.
  - destruct (HandleMessages_window K occs
                (OutputWorker.RepeatedMessageManagerInstance
                   (OutputWorker.Poll K GetTimestamp now iteration w)) h
                (set_aggregatedCount 0
                   (set_printedCount (printedCount e + aggregatedCount e) e))
                (Poll_not_busy now iteration w Hb)) as (Hres & e' & Hl & Hp & Ha & _).
    + by rewrite Hes.
    + by rewrite Hss.
    + exact Hkeep.
    + exact Hw.
    + simpl in Hres, Hp, Ha.
      assert (Z.to_nat (printedRepeatCount K - (printedCount e + aggregatedCount e))
              = 0%nat) as Hz by lia.
      rewrite Hz in Hres, Hp, Ha. simpl in Hres, Hp, Ha.
      rewrite Nat.sub_0_r in Hres, Ha.
      split; [exact Hres|]. exists e'. repeat split; [exact Hl|lia|lia].
Qed.

Lemma WrittenTo_plugins (p : OutputWorker.PluginPtr) level subsystem header body
    (plugins : list OutputWorker.PluginPtr) :
  NoDup plugins →
  WrittenTo p
    ((λ plugin, OutputWorker.PluginWrite plugin level subsystem header body)
     <$> plugins)
  = if bool_decide (p ∈ plugins) then [(level, subsystem, body)] else [].
Proof.
  unfold WrittenTo. induction 1 as [|q plugins Hq Hnd IH]; csimpl; [done|].
  rewrite IH. destruct (decide (q = p)) as [->|Hne].
  - rewrite bool_decide_eq_true_2 by done.
    rewrite (bool_decide_eq_true_2 (p ∈ p :: plugins)) by by left.
    by rewrite (bool_decide_eq_false_2 (p ∈ plugins)).
  - rewrite (bool_decide_eq_false_2 (q = p)) by done.
    case_bool_decide as Hin.
    + by rewrite (bool_decide_eq_true_2 (p ∈ q :: plugins)) by by right.
    + rewrite (bool_decide_eq_false_2 (p ∈ q :: plugins)); [done|].
      intros [?|?]%elem_of_cons; done.
Qed.

Lemma WrittenTo_batch (p : OutputWorker.PluginPtr)
    (plugins : list OutputWorker.PluginPtr)
    (batch : list OutputWorker.QueuedLogMessage) :
  NoDup plugins →
  WrittenTo p (batch ≫= OutputWorker.Dispatch GetTimestamp plugins)
  = if bool_decide (p ∈ plugins) then RecordsOf batch else [].
Proof.
  intros Hnd. induction batch as [|m batch IH].
  - by case_bool_decide.
  - change ((m :: batch) ≫= OutputWorker.Dispatch GetTimestamp plugins)
      with (OutputWorker.Dispatch GetTimestamp plugins m
            ++ (batch ≫= OutputWorker.Dispatch GetTimestamp plugins)).
    unfold WrittenTo in *. rewrite omap_app, IH.
    unfold OutputWorker.Dispatch, RecordsOf. simpl.
    destruct (OutputWorker.FlushEvent m) as [flushEvent|]; simpl; [done|].
    pose proof (WrittenTo_plugins p (OutputWorker.MessageLogLevel m)
                  (OutputWorker.SubsystemName m)
                  (GetTimestamp (OutputWorker.Time m)
                   +:+ OutputWorker.AppendHeader
                         (OutputWorker.TempBufferBytes
                          - Z.of_nat (String.length (GetTimestamp (OutputWorker.Time m))))
                         (OutputWorker.MessageLogLevel m)
                         (OutputWorker.SubsystemName m))
                  (OutputWorker.Buffer m) plugins Hnd) as Hone.
    unfold WrittenTo in Hone. rewrite Hone. by case_bool_decide.
Qed.

(** X26. Fan-out of a drain. With a registry that holds no sink twice, every
    registered sink is handed each record of the batch exactly once, in
    batch order, with the record's own level, subsystem and body; flush
    sentinels are written to no sink, and a sink that is not registered is
    handed nothing. *)
Theorem drain_fan_out (now : LogTime)
    (iteration : list (Z * RecentMessage)) (w : OutputWorker.t)
    (p : OutputWorker.PluginPtr) :
  NoDup (OutputWorker.Plugins w) →
  WrittenTo p (OutputWorker.ProcessQueuedMessages K GetTimestamp now iteration w).2
  = if bool_decide (p ∈ OutputWorker.Plugins w)
    then RecordsOf (OutputWorker.ProcessQueuedMessages K GetTimestamp now iteration w).1.2
    else [].
Proof.
  intros Hnd.
  destruct (ProcessQueuedMessages_drain K GetTimestamp now iteration w)
    as (_ & _ & _ & _ & Hev).
  cbv zeta in Hev. rewrite Hev. by apply WrittenTo_batch.
Qed.

End DrainFacts.

(** * More concrete runs *)

Section MoreConcreteRuns.

Import RepeatedMessageManager.

(** Witness of X4: two texts that share their first 16 characters. *)
Lemma GetHash_reads_prefix_only_witness :
  (messagePrefixLength SampleTunables ≤ String.length "0123456789abcdef")%nat
  ∧ GetHash SampleTunables ("0123456789abcdef" +:+ ", first")
    = GetHash SampleTunables ("0123456789abcdef" +:+ ", second").
Proof.
  assert (messagePrefixLength SampleTunables ≤ String.length "0123456789abcdef")%nat
    as Hlen by (simpl; lia).
  split; [exact Hlen|].
  exact (GetHash_reads_prefix_only SampleTunables "0123456789abcdef"
           ", first" ", second" Hlen).
Defined.

(** Witness of X5: 100 ms before midnight and 100 ms after it. *)
Lemma time_difference_modulo_one_day_witness :
  ValidLogTime
    {| wHour := 23; wMinute := 59; wSecond := 59; wMilliseconds := 900 |}
  ∧ ValidLogTime
      {| wHour := 0; wMinute := 0; wSecond := 0; wMilliseconds := 100 |}
  ∧ GetLogMillisecondTimeDifference
      (LogTimeToMillisecondTime
         {| wHour := 23; wMinute := 59; wSecond := 59; wMilliseconds := 900 |})
      (LogTimeToMillisecondTime
         {| wHour := 0; wMinute := 0; wSecond := 0; wMilliseconds := 100 |})
    = 200.
Proof.
  assert (ValidLogTime
            {| wHour := 23; wMinute := 59; wSecond := 59; wMilliseconds := 900 |})
    as H1 by (unfold ValidLogTime; simpl; lia).
  assert (ValidLogTime
            {| wHour := 0; wMinute := 0; wSecond := 0; wMilliseconds := 100 |})
    as H2 by (unfold ValidLogTime; simpl; lia).
  destruct (time_difference_modulo_one_day _ _ H1 H2) as (_ & Heq & _).
  split; [exact H1|]. split; [exact H2|].
  rewrite Heq. vm_compute; reflexivity.
Defined.

(** Witness of X7: a message with another prefix leaves the sample entry
    alone. *)
Lemma HandleMessage_other_hashes_witness :
  SampleHash ≠ GetHash SampleTunables "another text"
  ∧ RepeatedMessageMap
      (HandleMessage SampleTunables "Tracker" Warning "another text" 20
         (SampleManager (SampleEntry 10 0 0))).2 !! SampleHash
    = Some (SampleEntry 10 0 0).
Proof.
  assert (SampleHash ≠ GetHash SampleTunables "another text") as Hne
    by (vm_compute; discriminate).
  split; [exact Hne|].
  destruct (HandleMessage_other_hashes SampleTunables "Tracker" Warning
              "another text" 20 (SampleManager (SampleEntry 10 0 0)) SampleHash Hne)
    as (_ & ->).
  vm_compute; reflexivity.
Defined.

(** Witness of X8: the entry was last seen at time 10; two occurrences come
    at times 5000 and 5001, one millisecond apart. *)
Lemma stale_entry_passes_everything_witness :
  HandleMessages SampleTunables [SampleOccurrence 5000; SampleOccurrence 5001]
    (SampleManager (SampleEntry 10 2 1))
  = ([Passed; Passed], SampleManager (SampleEntry 10 2 1)).
Proof.
  apply (stale_entry_passes_everything SampleTunables
           [SampleOccurrence 5000; SampleOccurrence 5001]
           (SampleManager (SampleEntry 10 2 1)) SampleHash (SampleEntry 10 2 1)).
  - vm_compute; reflexivity.
  - repeat first [apply Forall_nil_2 | apply Forall_cons_2];
      (split; [vm_compute; reflexivity | vm_compute; discriminate]).
Defined.

(** Witness of X9: first seen at time 0, seen again five seconds later, then
    twice more inside the window ([printedRepeatCount = 1]). *)
Lemma lifecycle_from_first_sight_witness :
  (HandleMessages SampleTunables
     [SampleOccurrence 0; SampleOccurrence 5000; SampleOccurrence 5010;
      SampleOccurrence 5020] init).1
  = [Passed; Passed; Passed; Aggregated].
Proof.
  apply (lifecycle_from_first_sight SampleTunables (SampleOccurrence 0)
           (SampleOccurrence 5000) [SampleOccurrence 5010; SampleOccurrence 5020]
           init SampleHash).
  - reflexivity.
  - apply not_elem_of_empty.
  - repeat first [apply Forall_nil_2 | apply Forall_cons_2];
      (split; [vm_compute; reflexivity | apply not_elem_of_empty]).
  - apply lookup_empty.
  - apply lookup_empty.
  - repeat split; vm_compute; reflexivity.
  - vm_compute; discriminate.
Defined.

(** Witness of X10: the entry of the sample manager is due at time 5000. *)
Lemma summaries_are_never_dropped_witness :
  SummaryRecord (at_ms 5000) (SampleEntry 40 2 1)
  ∈ (OutputWorker.ProcessQueuedMessages SampleTunables SampleTimestamp (at_ms 5000) []
       (SampleWorkerWith (SampleManager (SampleEntry 40 2 1)))).1.2.
Proof.
  apply (summaries_are_never_dropped SampleTunables SampleTimestamp (at_ms 5000) []
           (SampleWorkerWith (SampleManager (SampleEntry 40 2 1)))
           (SampleEntry 40 2 1)).
  replace (Poll_locked SampleTunables (LogTimeToMillisecondTime (at_ms 5000)) []
             (OutputWorker.RepeatedMessageManagerInstance
                (SampleWorkerWith (SampleManager (SampleEntry 40 2 1))))).2
    with [SampleEntry 40 2 1] by (vm_compute; reflexivity).
  apply list_elem_of_here.
Defined.

(** Witness of X11: the entry was seen at time 10 and nothing is aggregated;
    [Poll] runs at time 20. *)
Lemma Poll_idle_witness :
  OutputWorker.WorkQueue
    (OutputWorker.Poll SampleTunables SampleTimestamp (at_ms 20) []
       (SampleWorkerWith (SampleManager (SampleEntry 10 0 0)))) = []
  ∧ RepeatedMessageMap
      (OutputWorker.RepeatedMessageManagerInstance
         (OutputWorker.Poll SampleTunables SampleTimestamp (at_ms 20) []
            (SampleWorkerWith (SampleManager (SampleEntry 10 0 0)))))
    = {[SampleHash := SampleEntry 10 0 0]}.
Proof.
  destruct (Poll_idle SampleTunables SampleTimestamp (at_ms 20) []
              (SampleWorkerWith (SampleManager (SampleEntry 10 0 0))))
    as (Hq & _ & Hd).
  - vm_compute; lia.
  - intros h e Hl.
    change (({[SampleHash := SampleEntry 10 0 0]}
             : gmap Z RepeatedMessage) !! h = Some e) in Hl.
    apply lookup_singleton_Some in Hl as [_ <-].
    split; vm_compute; [discriminate | reflexivity].
  - split; [exact Hq|]. unfold ManagerData in Hd. simpl in Hd. congruence.
Defined.

(** Witness of X12: four recent entries, seen at times 1 to 4, with
    [recentMessageCount = 1]; the traversal finds them in the order 4, 2, 1,
    3. The entry left is the one found last, not the newest. *)
Lemma Poll_prune_keeps_the_rest_witness :
  IterationOf (RecentSequence [4; 2; 1; 3]) (RecentAt [1; 2; 3; 4])
  ∧ Poll_prune SampleTunables (RecentSequence [4; 2; 1; 3]) (RecentAt [1; 2; 3; 4])
    = {[3 := {| timeMs := 3 |}]}
  ∧ size
      (Poll_prune SampleTunables (RecentSequence [4; 2; 1; 3])
         (RecentAt [1; 2; 3; 4])) = 1%nat.
Proof.
  assert (IterationOf (RecentSequence [4; 2; 1; 3]) (RecentAt [1; 2; 3; 4])) as Hit.
  { apply IterationOf_RecentSequence; [|solve_Permutation].
    apply (bool_decide_unpack _). vm_compute. exact I. }
  assert (recentMessageCount SampleTunables * 2 < size (RecentAt [1; 2; 3; 4]%Z))%nat
    as Hsize by (vm_compute; lia).
  destruct (Poll_prune_keeps_the_rest SampleTunables (RecentSequence [4; 2; 1; 3])
              (RecentAt [1; 2; 3; 4]) Hit Hsize) as (Hrest & Hleft).
  split; [exact Hit|]. split.
  - rewrite Hrest. vm_compute; reflexivity.
  - rewrite Hleft. vm_compute; reflexivity.
Defined.

(** Witness of X13: a prefix is made exempt and the exemption is taken
    back. *)
Lemma RemoveRepeatedMessageException_undoes_add_witness :
  RemoveRepeatedMessageException SampleTunables "sensor"
    (AddRepeatedMessageException SampleTunables "sensor" init) = init.
Proof.
  apply (RemoveRepeatedMessageException_undoes_add SampleTunables "sensor" init).
  apply not_elem_of_empty.
Defined.

(** Witness of X14: the registry holds the sink 200 ("DbgView"); the sink 3
    ("Console") is added. *)
Lemma GetPlugin_after_AddPlugin_witness :
  OutputWorker.GetPlugin SampleNames "Console"
    (OutputWorker.AddPlugin SampleNames (Some 3)
       (OutputWorker.AddPlugin SampleNames (Some 200) SampleWorker)) = Some 3
  ∧ OutputWorker.GetPlugin SampleNames "DbgView"
      (OutputWorker.AddPlugin SampleNames (Some 3)
         (OutputWorker.AddPlugin SampleNames (Some 200) SampleWorker)) = Some 200.
Proof.
  destruct (GetPlugin_after_AddPlugin SampleNames 3
              (OutputWorker.AddPlugin SampleNames (Some 200) SampleWorker))
    as (Hnew & Hold).
  - unfold UniqueNames. vm_compute. apply NoDup_singleton.
  - split; [exact Hnew|].
    etrans; [apply (Hold "DbgView"); vm_compute; discriminate|].
    vm_compute; reflexivity.
Defined.

(** Witness of X15: the registry holds the sink 200 ("DbgView"); the sink 300,
    of the same name and not registered, is removed. *)
Lemma RemovePlugin_by_name_witness :
  OutputWorker.Plugins (OutputWorker.AddPlugin SampleNames (Some 200) SampleWorker)
  = [200]
  ∧ OutputWorker.GetPlugin SampleNames "DbgView"
      (OutputWorker.RemovePlugin SampleNames (Some 300)
         (OutputWorker.AddPlugin SampleNames (Some 200) SampleWorker)) = None.
Proof.
  split; [vm_compute; reflexivity|].
  destruct (RemovePlugin_by_name SampleNames 300
              (OutputWorker.AddPlugin SampleNames (Some 200) SampleWorker))
    as (Hgone & _).
  - unfold UniqueNames. vm_compute. apply NoDup_singleton.
  - exact Hgone.
Defined.


(** Witness of X18: a buffer of ten bytes. *)
Lemma AppendHeader_fits_witness :
  Z.of_nat (String.length (OutputWorker.AppendHeader 10 Warning "Tracker")) + 1 ≤ 10.
Proof. apply (AppendHeader_fits 10 Warning "Tracker"). lia. Defined.

(** Witness of X19: the header of a warning of subsystem "Tracker". *)
Lemma AppendHeader_format_witness :
  OutputWorker.AppendHeader 1024 Warning "Tracker" = " {WARNING} [Tracker] ".
Proof.
  destruct (AppendHeader_format 1024 Warning "Tracker") as (Hfull & _).
  rewrite Hfull by (simpl; lia). vm_compute; reflexivity.
Defined.

(** Witness of X20: a worker under a debugger receives its first record. *)
Lemma Write_debugger_line_witness :
  OutputWorker.DebugStream
    (OutputWorker.Write SampleTunables SampleTimestamp "Tracker" Warning
       "sensor timeout" false Default (at_ms 0) (OutputWorker.init true))
  = [DebugLine SampleTimestamp "Tracker" Warning "sensor timeout" (at_ms 0)].
Proof.
  rewrite (Write_debugger_line SampleTunables SampleTimestamp "Tracker" Warning
             "sensor timeout" false Default (at_ms 0) (OutputWorker.init true)).
  - vm_compute; reflexivity.
  - reflexivity.
  - vm_compute; discriminate.
Defined.

(** Witness of X21: the first record of an empty queue sets the wake
    event. *)
Lemma Write_wakes_on_first_record_witness :
  OutputWorker.WorkerWakeEvent
    (OutputWorker.Write SampleTunables SampleTimestamp "Tracker" Warning
       "sensor timeout" false Default (at_ms 0) SampleWorker) = true.
Proof.
  destruct (Write_wakes_on_first_record SampleTunables SampleTimestamp "Tracker"
              Warning "sensor timeout" false Default (at_ms 0) SampleWorker)
    as (_ & Hwake).
  apply Hwake.
  - vm_compute; reflexivity.
  - reflexivity.
  - right. vm_compute; reflexivity.
Defined.

(** Witness of X25: the entry has aggregated three occurrences, the cap;
    [Poll] runs at time 50 and two occurrences follow at times 60 and 70. *)
Lemma aggregation_continues_after_cap_flush_witness :
  (HandleMessages SampleTunables [SampleOccurrence 60; SampleOccurrence 70]
     (OutputWorker.RepeatedMessageManagerInstance
        (OutputWorker.Poll SampleTunables SampleTimestamp (at_ms 50) []
           (SampleWorkerWith (SampleManager (SampleEntry 40 3 1)))))).1
  = [Aggregated; Aggregated].
Proof.
  destruct (aggregation_continues_after_cap_flush SampleTunables SampleTimestamp
              (at_ms 50) [] (SampleWorkerWith (SampleManager (SampleEntry 40 3 1)))
              SampleHash (SampleEntry 40 3 1)
              [SampleOccurrence 60; SampleOccurrence 70])
    as (_ & Hres & _).
  - reflexivity.
  - vm_compute; reflexivity.
  - vm_compute; discriminate.
  - vm_compute; discriminate.
  - vm_compute; discriminate.
  - apply not_elem_of_empty.
  - repeat first [apply Forall_nil_2 | apply Forall_cons_2];
      (split; [vm_compute; reflexivity | apply not_elem_of_empty]).
  - repeat split; vm_compute; reflexivity.
  - exact Hres.
Defined.

(** Witness of X26: one record is queued and the sink 3 is registered. *)
Lemma drain_fan_out_witness :
  WrittenTo 3
    (OutputWorker.ProcessQueuedMessages SampleTunables SampleTimestamp (at_ms 5)
       (SampleIteration
          (WriteAll SampleTunables SampleTimestamp [SampleCall "alpha" 0]
             SampleWorker))
       (OutputWorker.AddPlugin SampleNames (Some 3)
          (WriteAll SampleTunables SampleTimestamp [SampleCall "alpha" 0]
             SampleWorker))).2
  = [(Warning, "Tracker", "alpha")].
Proof.
  rewrite (drain_fan_out SampleTunables SampleTimestamp (at_ms 5)
             (SampleIteration
                (WriteAll SampleTunables SampleTimestamp [SampleCall "alpha" 0]
                   SampleWorker))
             (OutputWorker.AddPlugin SampleNames (Some 3)
                (WriteAll SampleTunables SampleTimestamp [SampleCall "alpha" 0]
                   SampleWorker)) 3).
  - vm_compute; reflexivity.
  - vm_compute. apply NoDup_singleton.
Defined.

End MoreConcreteRuns.
